(** * The multi-datasource manager of wttr.in (lib/datasource_manager.py)

    A shallow embedding of [DataSourceManager]: the registry of weather
    providers with its quota counters and its timed disabling, the selection
    and dispatch of one provider per request, and the adapters that turn each
    provider's JSON payload into the wttr.in format.

    Modelling conventions.
    - A parsed JSON payload is a [json] value.  Python [int] is [Z].  A
      Python [float] is an IEEE 754 double, modelled by the rational it
      denotes ([Q]); the arithmetic of the adapters on temperatures and wind
      speeds rounds every result to the nearest double ([fl]) and overflows
      to an infinity ([float]).  A payload holds no [Infinity] and no [NaN].
      In [_degrees_to_16_point] the quotient by 22.5 is kept exact, which
      gives the same index for every double below 10^16 in magnitude.
    - JSON objects are association lists in document order (keys unique);
      the manager's [sources] dict is a [gmap].
    - A Python call that may raise returns a [result]; every exception that
      the adapters can raise is an [Exception], and the only handler in the
      module is [except Exception], so one [Raise] stands for all of them.
    - Text is ASCII wherever Python's behaviour depends on character classes
      ([str.capitalize], [int] of a string).
    - [str] of a float or of a container is kept symbolic ([OStrOf]).
    - The network ([requests.get]), the environment ([os.environ.get]) and
      the random draw of [random.choice] are parameters.
    - The wall clock and the daemon threads are part of the state
      ([runtime]); a method call, a wake-up of a thread and a reset sweep
      each happen in one step ([event]), so calls do not overlap. *)

From Stdlib Require Import ZArith QArith Qround Qabs Qpower String Ascii List Lia Lqa
  DecimalString.
From stdpp Require Import base option list gmap strings.
Import ListNotations.

Set Warnings "-register-all".

Open Scope string_scope.
Open Scope Z_scope.

(** ** Exceptions *)

Inductive result (A : Type) : Type :=
| Ok (a : A)
| Raise.

Arguments Ok {A} a.
Arguments Raise {A}.

Definition bind {A B : Type} (r : result A) (k : A -> result B) : result B :=
  match r with
  | Ok a => k a
  | Raise => Raise
  end.

Notation "x <- e ;; k" := (bind e (fun x => k))
  (at level 100, e at next level, right associativity, only parsing).

Fixpoint mapM {A B : Type} (f : A -> result B) (l : list A) : result (list B) :=
  match l with
  | [] => Ok []
  | a :: l' => b <- f a ;; bs <- mapM f l' ;; Ok (b :: bs)
  end.

(** ** Python values *)

Inductive json : Type :=
| JNull
| JBool (b : bool)
| JInt (z : Z)
| JFloat (q : Q)
| JStr (s : string)
| JList (l : list json)
| JDict (d : list (string * json)).

(** What a converter puts in the dict it returns. *)
Inductive out : Type :=
| OStr (s : string)
| OStrOf (v : json)
| OFmt (parts : list out)
| OVal (v : json)
| OList (l : list out)
| ODict (d : list (string * out)).

(** [bool(v)] *)
Definition truthy (v : json) : bool :=
  match v with
  | JNull => false
  | JBool b => b
  | JInt z => negb (z =? 0)
  | JFloat q => negb (Qeq_bool q 0)
  | JStr s => negb (String.eqb s "")
  | JList l => match l with [] => false | _ => true end
  | JDict d => match d with [] => false | _ => true end
  end.

Definition out_truthy (o : out) : bool :=
  match o with
  | OStr s => negb (String.eqb s "")
  | OStrOf _ => true
  | OFmt _ => true
  | OVal v => truthy v
  | OList l => match l with [] => false | _ => true end
  | ODict d => match d with [] => false | _ => true end
  end.

Fixpoint assoc {A : Type} (k : string) (d : list (string * A)) : option A :=
  match d with
  | [] => None
  | (k', v) :: d' => if String.eqb k k' then Some v else assoc k d'
  end.

(** [v.get(k, default)]: only a dict has [get]. *)
Definition py_get (v : json) (k : string) (default : json) : result json :=
  match v with
  | JDict d => Ok (match assoc k d with Some x => x | None => default end)
  | _ => Raise
  end.

Definition is_str (k : string) (v : json) : bool :=
  match v with
  | JStr s => String.eqb k s
  | _ => false
  end.

Definition substring_of (k s : string) : bool :=
  match String.index 0 k s with
  | Some _ => true
  | None => false
  end.

(** [k in v] for a string [k]: key of a dict, element of a list, substring
    of a string; the other values are not iterable. *)
Definition py_in (k : string) (v : json) : result bool :=
  match v with
  | JDict d => Ok (match assoc k d with Some _ => true | None => false end)
  | JList l => Ok (existsb (is_str k) l)
  | JStr s => Ok (substring_of k s)
  | _ => Raise
  end.

(** [v[k]] for a string [k]. *)
Definition py_item (v : json) (k : string) : result json :=
  match v with
  | JDict d => match assoc k d with Some x => Ok x | None => Raise end
  | _ => Raise
  end.

(** [v[0]] *)
Definition py_item0 (v : json) : result json :=
  match v with
  | JList (x :: _) => Ok x
  | JStr (String c _) => Ok (JStr (String c ""))
  | _ => Raise
  end.

(** [isinstance(v, list)] *)
Definition is_list (v : json) : bool :=
  match v with
  | JList _ => true
  | _ => false
  end.

(** [len(v)] *)
Definition py_len (v : json) : result Z :=
  match v with
  | JStr s => Ok (Z.of_nat (String.length s))
  | JList l => Ok (Z.of_nat (length l))
  | JDict d => Ok (Z.of_nat (length d))
  | _ => Raise
  end.

Fixpoint chars (s : string) : list json :=
  match s with
  | EmptyString => []
  | String c s' => JStr (String c "") :: chars s'
  end.

(** [l[:n]] on a Python list: a negative [n] counts from the end. *)
Definition slice_to {A : Type} (l : list A) (n : Z) : list A :=
  if 0 <=? n then firstn (Z.to_nat n) l
  else firstn (Z.to_nat (Z.of_nat (length l) + n)) l.

(** The items that [for x in v[:n]] visits. *)
Definition py_slice_to (v : json) (n : Z) : result (list json) :=
  match v with
  | JList l => Ok (slice_to l n)
  | JStr s => Ok (slice_to (chars s) n)
  | _ => Raise
  end.

(** ** Numbers *)

Inductive num : Type :=
| NInt (z : Z)
| NFloat (q : Q).

Definition as_num (v : json) : option num :=
  match v with
  | JBool b => Some (NInt (if b then 1 else 0))
  | JInt z => Some (NInt z)
  | JFloat q => Some (NFloat q)
  | _ => None
  end.

Definition num_Q (n : num) : Q :=
  match n with
  | NInt z => inject_Z z
  | NFloat q => q
  end.

(** Rounding of a float to the nearest integer, ties to the even one: what
    [round(x)] and [round(x, 0)] do on a float. *)
Definition round_half_even (x : Q) : Z :=
  let f := Qfloor x in
  match Qcompare (x - inject_Z f) (1 # 2) with
  | Lt => f
  | Gt => f + 1
  | Eq => if Z.even f then f else f + 1
  end.

(** [int(round(n, 0))] and [round(n)]: an int is its own rounding. *)
Definition round_num (n : num) : Z :=
  match n with
  | NInt z => z
  | NFloat q => round_half_even q
  end.

(** [int(round(v, 0))] on a payload value. *)
Definition int_round (v : json) : result Z :=
  match as_num v with
  | Some n => Ok (round_num n)
  | None => Raise
  end.

(** ** Floats *)

(** What float arithmetic yields: a finite double, or an infinity after an
    overflow.  The sign of the infinity is not recorded: whatever the
    adapters do with an infinite temperature or wind speed raises. *)
Inductive float : Type :=
| Finite (q : Q)
| Infinite.

(** The exponent of [x]: the largest [e] with [2 ^ e <= |x|], for [x]
    other than 0. *)
Definition binade (x : Q) : Z :=
  let e := Z.log2 (Z.abs (Qnum x)) - Z.log2 (Z.pos (Qden x)) in
  if Qle_bool (2 ^ e) (Qabs x) then e else e - 1.

(** The unit in the last place of a double near [x]: 53 bits of mantissa,
    and 2^-1074 for the subnormal numbers. *)
Definition ulp (x : Q) : Q := (2 ^ Z.max (binade x - 52) (-1074))%Q.

(** The double nearest to [x], ties to the even mantissa, before any
    overflow.  It is also what a float literal denotes. *)
Definition nearest_double (x : Q) : Q :=
  if Qeq_bool x 0 then 0
  else Qred (inject_Z (round_half_even (x / ulp x)) * ulp x).

(** The result of a float operation whose exact value is [x]. *)
Definition fl (x : Q) : float :=
  let r := nearest_double x in
  if Qle_bool (2 ^ 1024) (Qabs r) then Infinite else Finite r.

(** A float result that Python refuses with OverflowError instead of
    returning an infinity: the conversion of an int and the true division
    of two ints. *)
Definition finite (x : float) : result Q :=
  match x with
  | Finite q => Ok q
  | Infinite => Raise
  end.

(** The float that an int or a float operand is converted to. *)
Definition to_float (n : num) : result Q :=
  match n with
  | NInt z => finite (fl (inject_Z z))
  | NFloat q => Ok q
  end.

(** [a / b] on two ints, for a constant [b] other than 0. *)
Definition int_truediv (a b : Z) : result Q :=
  finite (fl (inject_Z a / inject_Z b)).

(** [x * c], [x / c] and [x + c] on a float [x] and a constant [c]. *)
Definition fmul (x : float) (c : Q) : float :=
  match x with
  | Finite q => fl (q * c)
  | Infinite => Infinite
  end.

Definition fdiv (x : float) (c : Q) : float :=
  match x with
  | Finite q => fl (q / c)
  | Infinite => Infinite
  end.

Definition fadd (x : float) (c : Q) : float :=
  match x with
  | Finite q => fl (q + c)
  | Infinite => Infinite
  end.

(** [int(round(x, 0))] on a computed float: an infinity cannot be converted
    to an int. *)
Definition round_float (x : float) : result Z :=
  match x with
  | Finite q => Ok (round_half_even q)
  | Infinite => Raise
  end.

(** [n * c] for a float literal [c]: an int operand is converted first. *)
Definition mul_num (n : num) (c : Q) : result float :=
  x <- to_float n ;; Ok (fl (x * nearest_double c)).

(** [v * c] for a float literal [c]: sequences cannot be multiplied by a
    float. *)
Definition mul_float (v : json) (c : Q) : result float :=
  match as_num v with
  | Some n => mul_num n c
  | None => Raise
  end.

(** [x * 9/5 + 32] on a float [x]. *)
Definition c_to_f_float (x : float) : float := fadd (fdiv (fmul x 9) 5) 32.

(** [n * 9/5 + 32]: on an int the product is an int and the quotient is a
    true division of ints. *)
Definition c_to_f_num (n : num) : result float :=
  match n with
  | NInt z => q <- int_truediv (z * 9) 5 ;; Ok (fl (q + 32))
  | NFloat x => Ok (c_to_f_float (Finite x))
  end.

(** [v * 9/5 + 32].  On a str or a list [v * 9] is a repetition and the
    division that follows raises TypeError. *)
Definition c_to_f (v : json) : result float :=
  match as_num v with
  | Some n => c_to_f_num n
  | None => Raise
  end.

(** [(x + y) / 2]: the sum of two ints is an int; otherwise an int operand
    is converted and the sum is a float. *)
Definition mean2_num (x y : num) : result float :=
  match x, y with
  | NInt a, NInt b => q <- int_truediv (a + b) 2 ;; Ok (Finite q)
  | _, _ => p <- to_float x ;; q <- to_float y ;; Ok (fdiv (fl (p + q)) 2)
  end.

(** [(a + b) / 2].  The sum of two strs or two lists is a concatenation and
    the division that follows raises TypeError. *)
Definition mean2 (a b : json) : result float :=
  match as_num a, as_num b with
  | Some x, Some y => mean2_num x y
  | _, _ => Raise
  end.

(** The value of [v.get(k, default)] when [default] is a float that the
    adapter computed: the entry of the payload, or that float. *)
Inductive value : Type :=
| Entry (v : json)
| Computed (x : float).

Definition py_get_float (v : json) (k : string) (default : float)
  : result value :=
  match v with
  | JDict d => Ok (match assoc k d with
                   | Some x => Entry x
                   | None => Computed default
                   end)
  | _ => Raise
  end.

(** [int(round(v, 0))] on such a value. *)
Definition int_round_value (v : value) : result Z :=
  match v with
  | Entry x => int_round x
  | Computed x => round_float x
  end.

Fixpoint repeat_string (n : nat) (s : string) : string :=
  match n with
  | O => ""
  | S n' => s +:+ repeat_string n' s
  end.

(** ** Text *)

Definition str_int (z : Z) : string := NilZero.string_of_int (Z.to_int z).

(** [str(v)] *)
Definition py_str (v : json) : out :=
  match v with
  | JNull => OStr "None"
  | JBool b => OStr (if b then "True" else "False")
  | JInt z => OStr (str_int z)
  | JStr s => OStr s
  | _ => OStrOf v
  end.

(** [str(v * 1000)]: repetition on a str or a list, a float product on a
    float. *)
Definition str_mul_1000 (v : json) : result out :=
  match v with
  | JBool b => Ok (OStr (str_int (if b then 1000 else 0)))
  | JInt z => Ok (OStr (str_int (z * 1000)))
  | JFloat q =>
      Ok (match fl (q * 1000) with
          | Finite r => OStrOf (JFloat r)
          | Infinite => OStr (if Qle_bool 0 q then "inf" else "-inf")
          end)
  | JStr s => Ok (OStr (repeat_string 1000 s))
  | JList l => Ok (OStrOf (JList (concat (repeat l 1000))))
  | _ => Raise
  end.

Definition is_space (c : ascii) : bool :=
  let n := nat_of_ascii c in
  ((9 <=? n) && (n <=? 13) || (28 <=? n) && (n <=? 32))%nat.

Definition digit_of (c : ascii) : option Z :=
  let n := nat_of_ascii c in
  if ((48 <=? n) && (n <=? 57))%nat then Some (Z.of_nat n - 48) else None.

Fixpoint lstrip (s : string) : string :=
  match s with
  | String c s' => if is_space c then lstrip s' else s
  | EmptyString => s
  end.

Fixpoint rstrip (s : string) : string :=
  match s with
  | EmptyString => ""
  | String c s' =>
      match rstrip s' with
      | EmptyString => if is_space c then "" else String c ""
      | r => String c r
      end
  end.

(** Decimal digits with single underscores between them. *)
Fixpoint parse_digits (s : string) (acc : Z) (after_digit : bool) : option Z :=
  match s with
  | EmptyString => if after_digit then Some acc else None
  | String c s' =>
      match digit_of c with
      | Some d => parse_digits s' (acc * 10 + d) true
      | None =>
          if (Ascii.eqb c "_" && after_digit)%bool
          then parse_digits s' acc false
          else None
      end
  end.

(** [int(s)] on a string: ValueError when it is not a decimal literal. *)
Definition int_of_str (s : string) : result Z :=
  let body := rstrip (lstrip s) in
  let parsed :=
    match body with
    | String "-" s' => option_map Z.opp (parse_digits s' 0 false)
    | String "+" s' => parse_digits s' 0 false
    | _ => parse_digits body 0 false
    end in
  match parsed with
  | Some z => Ok z
  | None => Raise
  end.

(** [int(v)]: a float is truncated towards zero. *)
Definition py_int (v : json) : result Z :=
  match v with
  | JBool b => Ok (if b then 1 else 0)
  | JInt z => Ok z
  | JFloat q => Ok (Z.quot (Qnum q) (Z.pos (Qden q)))
  | JStr s => int_of_str s
  | _ => Raise
  end.

Definition upper (c : ascii) : ascii :=
  let n := nat_of_ascii c in
  if ((97 <=? n) && (n <=? 122))%nat then ascii_of_nat (n - 32) else c.

Definition lower (c : ascii) : ascii :=
  let n := nat_of_ascii c in
  if ((65 <=? n) && (n <=? 90))%nat then ascii_of_nat (n + 32) else c.

Fixpoint map_string (f : ascii -> ascii) (s : string) : string :=
  match s with
  | EmptyString => ""
  | String c s' => String (f c) (map_string f s')
  end.

(** [s.capitalize()] *)
Definition capitalize (s : string) : string :=
  match s with
  | EmptyString => ""
  | String c s' => String (upper c) (map_string lower s')
  end.

(** [v.capitalize()]: only a str has the method. *)
Definition py_capitalize (v : json) : result string :=
  match v with
  | JStr s => Ok (capitalize s)
  | _ => Raise
  end.

(** ** The adapters *)

(** [_degrees_to_16_point] *)
Definition directions : list string :=
  ["N"; "NNE"; "NE"; "ENE"; "E"; "ESE"; "SE"; "SSE";
   "S"; "SSW"; "SW"; "WSW"; "W"; "WNW"; "NW"; "NNW"].

(** [index = round(degrees / 22.5) % 16] *)
Definition compass_index (degrees : Q) : Z :=
  round_half_even (degrees / 22.5) mod 16.

(** [directions[index]]; the index is always inside the list. *)
Definition _degrees_to_16_point (degrees : Q) : string :=
  nth (Z.to_nat (compass_index degrees)) directions "".

(** [self._degrees_to_16_point(v)] on a payload value: the division raises
    TypeError on anything that is not a number. *)
Definition degrees_to_16_point_of (v : json) : result string :=
  match as_num v with
  | Some n => Ok (_degrees_to_16_point (num_Q n))
  | None => Raise
  end.

(** [_openweather_to_wwo_code] *)
Definition mapping : list (Z * Z) :=
  [(200, 200); (201, 386); (202, 389); (210, 200); (211, 389); (212, 389);
   (221, 389); (230, 200); (231, 386); (232, 389);
   (300, 266); (301, 266); (302, 302); (310, 266); (311, 293); (312, 302);
   (313, 305); (314, 302); (321, 299);
   (500, 176); (501, 293); (502, 302); (503, 308); (504, 308); (511, 284);
   (520, 299); (521, 305); (522, 302); (531, 305);
   (600, 320); (601, 332); (602, 230); (611, 281); (612, 284); (613, 284);
   (615, 317); (616, 317); (620, 368); (621, 371); (622, 230);
   (701, 143); (711, 143); (721, 143); (731, 143); (741, 143); (751, 143);
   (761, 143); (762, 143); (771, 143); (781, 143);
   (800, 113); (801, 116); (802, 119); (803, 119); (804, 122)].

Fixpoint mapping_get (k : Z) (m : list (Z * Z)) (default : Z) : Z :=
  match m with
  | [] => default
  | (k', v) :: m' => if k =? k' then v else mapping_get k m' default
  end.

(** The key under which a value is looked up in a dict with int keys; a
    list or a dict is unhashable. *)
Definition int_key (v : json) : result (option Z) :=
  match v with
  | JBool b => Ok (Some (if b then 1 else 0))
  | JInt z => Ok (Some z)
  | JFloat q =>
      Ok (if Qeq_bool q (inject_Z (Qfloor q)) then Some (Qfloor q) else None)
  | JNull | JStr _ => Ok None
  | JList _ | JDict _ => Raise
  end.

Definition _openweather_to_wwo_code (owm_code : json) : result Z :=
  k <- int_key owm_code ;;
  Ok (match k with
      | Some z => mapping_get z mapping 113
      | None => 113
      end).

Definition _convert_openweather_hourly (hour_data : json) : result out :=
  temp_c <- py_get hour_data "temp" (JInt 0) ;;
  temp_c <- match temp_c with
            | JDict _ => py_get temp_c "day" (JInt 0)
            | _ => Ok temp_c
            end ;;
  w <- py_get hour_data "weather" (JList [JDict []]) ;;
  w0 <- py_item0 w ;;
  weather_id <- py_get w0 "id" (JInt 800) ;;
  weather_code <- _openweather_to_wwo_code weather_id ;;
  w <- py_get hour_data "weather" (JList [JDict []]) ;;
  w0 <- py_item0 w ;;
  weather_desc <- py_get w0 "description" (JStr "Clear") ;;
  wind_speed_mps <- py_get hour_data "wind_speed" (JInt 0) ;;
  wind_speed_kmph <- mul_float wind_speed_mps 3.6 ;;
  temp_C <- int_round temp_c ;;
  f <- c_to_f temp_c ;;
  temp_F <- round_float f ;;
  desc <- py_capitalize weather_desc ;;
  windspeedKmph <- round_float wind_speed_kmph ;;
  windspeedMiles <-
    round_float (fmul wind_speed_kmph (nearest_double 0.621371)) ;;
  wind_deg <- py_get hour_data "wind_deg" (JInt 0) ;;
  wind_deg' <- py_get hour_data "wind_deg" (JInt 0) ;;
  winddir16Point <- degrees_to_16_point_of wind_deg' ;;
  has_rain <- py_in "rain" hour_data ;;
  precip <- (if has_rain
             then (rain <- py_get hour_data "rain" (JDict []) ;;
                   py_get rain "1h" (JInt 0))
             else Ok (JInt 0)) ;;
  humidity <- py_get hour_data "humidity" (JInt 0) ;;
  pressure <- py_get hour_data "pressure" (JInt 0) ;;
  has_visibility <- py_in "visibility" hour_data ;;
  visibility <- (if has_visibility
                 then py_get hour_data "visibility" (JInt 0)
                 else Ok (JInt 10000)) ;;
  clouds <- py_get hour_data "clouds" (JInt 0) ;;
  feels_like <- py_get hour_data "feels_like" temp_c ;;
  FeelsLikeC <- int_round feels_like ;;
  uvi <- py_get hour_data "uvi" (JInt 0) ;;
  uvIndex <- py_int uvi ;;
  Ok (ODict
        [("temp_C", OStr (str_int temp_C));
         ("temp_F", OStr (str_int temp_F));
         ("weatherCode", OStr (str_int weather_code));
         ("weatherDesc", OList [ODict [("value", OStr desc)]]);
         ("windspeedKmph", OStr (str_int windspeedKmph));
         ("windspeedMiles", OStr (str_int windspeedMiles));
         ("winddirDegree", py_str wind_deg);
         ("winddir16Point", OStr winddir16Point);
         ("precipMM", py_str precip);
         ("humidity", py_str humidity);
         ("pressure", py_str pressure);
         ("visibility", py_str visibility);
         ("cloudcover", py_str clouds);
         ("FeelsLikeC", OStr (str_int FeelsLikeC));
         ("uvIndex", OStr (str_int uvIndex))]).

Definition _convert_openweather_daily (day_data : json) : result out :=
  temp <- py_get day_data "temp" (JDict []) ;;
  dt <- py_get day_data "dt" (JInt 0) ;;
  tmax <- py_get temp "max" (JInt 0) ;;
  maxtempC <- int_round tmax ;;
  fmax <- c_to_f tmax ;;
  maxtempF <- round_float fmax ;;
  tmin <- py_get temp "min" (JInt 0) ;;
  mintempC <- int_round tmin ;;
  fmin <- c_to_f tmin ;;
  mintempF <- round_float fmin ;;
  tday <- py_get temp "day" (JInt 0) ;;
  avgtempC <- int_round tday ;;
  fday <- c_to_f tday ;;
  avgtempF <- round_float fday ;;
  snow <- py_get day_data "snow" (JInt 0) ;;
  uvi <- py_get day_data "uvi" (JInt 0) ;;
  uvIndex <- py_int uvi ;;
  Ok (ODict
        [("date", OVal dt);
         ("maxtempC", OStr (str_int maxtempC));
         ("maxtempF", OStr (str_int maxtempF));
         ("mintempC", OStr (str_int mintempC));
         ("mintempF", OStr (str_int mintempF));
         ("avgtempC", OStr (str_int avgtempC));
         ("avgtempF", OStr (str_int avgtempF));
         ("totalSnow_cm", py_str snow);
         ("sunHour", OStr "12");
         ("uvIndex", OStr (str_int uvIndex));
         ("hourly", OList [])]).

(** [not data]: the guard that opens three of the converters. *)
Definition falsy (data : json) : bool := negb (truthy data).

Definition _convert_openweather_to_standard (data : json) (days : Z)
  : result (option out) :=
  if falsy data then Ok None else
  has_current <- py_in "current" data ;;
  if negb has_current then Ok None else
  current <- py_item data "current" ;;
  lat <- py_get data "lat" (JInt 0) ;;
  lon <- py_get data "lon" (JInt 0) ;;
  current_condition <- _convert_openweather_hourly current ;;
  has_daily <- py_in "daily" data ;;
  weather <- (if has_daily
              then (daily <- py_item data "daily" ;;
                    sl <- py_slice_to daily days ;;
                    mapM _convert_openweather_daily sl)
              else Ok []) ;;
  Ok (Some (ODict
    [("data", ODict
       [("request", OList [ODict [("type", OStr "feature");
                                  ("query", OFmt [py_str lat; OStr ","; py_str lon])]]);
        ("current_condition", OList [current_condition]);
        ("weather", OList weather)])])).

Definition _convert_weatherapi_hourly (hour_data : json) : result out :=
  temp_c <- py_get hour_data "temp_c" (JInt 0) ;;
  wind_kmph <- py_get hour_data "wind_kph" (JInt 0) ;;
  temp_C <- int_round temp_c ;;
  f <- c_to_f temp_c ;;
  temp_f <- py_get_float hour_data "temp_f" f ;;
  temp_F <- int_round_value temp_f ;;
  condition <- py_get hour_data "condition" (JDict []) ;;
  code <- py_get condition "code" (JInt 1000) ;;
  condition <- py_get hour_data "condition" (JDict []) ;;
  text <- py_get condition "text" (JStr "Clear") ;;
  windspeedKmph <- int_round wind_kmph ;;
  miles <- mul_float wind_kmph 0.621371 ;;
  wind_mph <- py_get_float hour_data "wind_mph" miles ;;
  windspeedMiles <- int_round_value wind_mph ;;
  wind_degree <- py_get hour_data "wind_degree" (JInt 0) ;;
  wind_dir <- py_get hour_data "wind_dir" (JStr "N") ;;
  precip_mm <- py_get hour_data "precip_mm" (JInt 0) ;;
  humidity <- py_get hour_data "humidity" (JInt 0) ;;
  pressure_mb <- py_get hour_data "pressure_mb" (JInt 0) ;;
  vis_km <- py_get hour_data "vis_km" (JInt 0) ;;
  visibility <- str_mul_1000 vis_km ;;
  cloud <- py_get hour_data "cloud" (JInt 0) ;;
  feelslike_c <- py_get hour_data "feelslike_c" temp_c ;;
  FeelsLikeC <- int_round feelslike_c ;;
  uv <- py_get hour_data "uv" (JInt 0) ;;
  uvIndex <- py_int uv ;;
  Ok (ODict
        [("temp_C", OStr (str_int temp_C));
         ("temp_F", OStr (str_int temp_F));
         ("weatherCode", py_str code);
         ("weatherDesc", OList [ODict [("value", OVal text)]]);
         ("windspeedKmph", OStr (str_int windspeedKmph));
         ("windspeedMiles", OStr (str_int windspeedMiles));
         ("winddirDegree", py_str wind_degree);
         ("winddir16Point", OVal wind_dir);
         ("precipMM", py_str precip_mm);
         ("humidity", py_str humidity);
         ("pressure", py_str pressure_mb);
         ("visibility", visibility);
         ("cloudcover", py_str cloud);
         ("FeelsLikeC", OStr (str_int FeelsLikeC));
         ("uvIndex", OStr (str_int uvIndex))]).

Definition _convert_weatherapi_daily (day_data : json) : result out :=
  day <- py_get day_data "day" (JDict []) ;;
  date <- py_get day_data "date" (JStr "") ;;
  maxtemp_c <- py_get day "maxtemp_c" (JInt 0) ;;
  maxtempC <- int_round maxtemp_c ;;
  maxtemp_f <- py_get day "maxtemp_f" (JInt 0) ;;
  maxtempF <- int_round maxtemp_f ;;
  mintemp_c <- py_get day "mintemp_c" (JInt 0) ;;
  mintempC <- int_round mintemp_c ;;
  mintemp_f <- py_get day "mintemp_f" (JInt 0) ;;
  mintempF <- int_round mintemp_f ;;
  avgtemp_c <- py_get day "avgtemp_c" (JInt 0) ;;
  avgtempC <- int_round avgtemp_c ;;
  avgtemp_f <- py_get day "avgtemp_f" (JInt 0) ;;
  avgtempF <- int_round avgtemp_f ;;
  totalsnow_cm <- py_get day "totalsnow_cm" (JInt 0) ;;
  uv <- py_get day "uv" (JInt 0) ;;
  uvIndex <- py_int uv ;;
  Ok (ODict
        [("date", OVal date);
         ("maxtempC", OStr (str_int maxtempC));
         ("maxtempF", OStr (str_int maxtempF));
         ("mintempC", OStr (str_int mintempC));
         ("mintempF", OStr (str_int mintempF));
         ("avgtempC", OStr (str_int avgtempC));
         ("avgtempF", OStr (str_int avgtempF));
         ("totalSnow_cm", py_str totalsnow_cm);
         ("sunHour", OStr "12");
         ("uvIndex", OStr (str_int uvIndex));
         ("hourly", OList [])]).

Definition _convert_weatherapi_to_standard (data : json) (days : Z)
  : result (option out) :=
  if falsy data then Ok None else
  has_current <- py_in "current" data ;;
  if negb has_current then Ok None else
  has_location <- py_in "location" data ;;
  if negb has_location then Ok None else
  current <- py_item data "current" ;;
  location <- py_item data "location" ;;
  current_condition <- _convert_weatherapi_hourly current ;;
  has_forecast <- py_in "forecast" data ;;
  has_forecastday <- (if has_forecast
                      then (forecast <- py_item data "forecast" ;;
                            py_in "forecastday" forecast)
                      else Ok false) ;;
  weather <- (if has_forecastday
              then (forecast <- py_item data "forecast" ;;
                    forecastday <- py_item forecast "forecastday" ;;
                    sl <- py_slice_to forecastday days ;;
                    mapM _convert_weatherapi_daily sl)
              else Ok []) ;;
  lat <- py_get location "lat" (JInt 0) ;;
  lon <- py_get location "lon" (JInt 0) ;;
  Ok (Some (ODict
    [("data", ODict
       [("request", OList [ODict [("type", OStr "feature");
                                  ("query", OFmt [py_str lat; OStr ","; py_str lon])]]);
        ("current_condition", OList [current_condition]);
        ("weather", OList weather)])])).

Definition _convert_accuweather_daily (day_data : json) : result out :=
  temp <- py_get day_data "Temperature" (JDict []) ;;
  real_feel <- py_get day_data "RealFeelTemperature" (JDict []) ;;
  w <- py_get day_data "Wind" (JDict []) ;;
  wind <- py_get w "Speed" (JDict []) ;;
  tmax <- py_get temp "Maximum" (JDict []) ;;
  max_temp <- py_get tmax "Value" (JInt 0) ;;
  tmin <- py_get temp "Minimum" (JDict []) ;;
  min_temp <- py_get tmin "Value" (JInt 0) ;;
  avg_temp <- mean2 max_temp min_temp ;;
  date <- py_get day_data "Date" (JStr "") ;;
  maxtempC <- int_round max_temp ;;
  fmax <- c_to_f max_temp ;;
  maxtempF <- round_float fmax ;;
  mintempC <- int_round min_temp ;;
  fmin <- c_to_f min_temp ;;
  mintempF <- round_float fmin ;;
  avgtempC <- round_float avg_temp ;;
  avgtempF <- round_float (c_to_f_float avg_temp) ;;
  hours_of_sun <- py_get day_data "HoursOfSun" (JInt 12) ;;
  uv_index <- py_get day_data "UVIndex" (JInt 0) ;;
  icon_phrase <- py_get day_data "IconPhrase" (JStr "Clear") ;;
  wind_value <- py_get wind "Value" (JInt 0) ;;
  kmph <- mul_float wind_value 1.60934 ;;
  windspeedKmph <- round_float kmph ;;
  wind_value' <- py_get wind "Value" (JInt 0) ;;
  windspeedMiles <- int_round wind_value' ;;
  w' <- py_get day_data "Wind" (JDict []) ;;
  direction <- py_get w' "Direction" (JDict []) ;;
  degrees <- py_get direction "Degrees" (JInt 0) ;;
  rmax <- py_get real_feel "Maximum" (JDict []) ;;
  feels <- py_get_float rmax "Value" avg_temp ;;
  FeelsLikeC <- int_round_value feels ;;
  Ok (ODict
        [("date", OVal date);
         ("maxtempC", OStr (str_int maxtempC));
         ("maxtempF", OStr (str_int maxtempF));
         ("mintempC", OStr (str_int mintempC));
         ("mintempF", OStr (str_int mintempF));
         ("avgtempC", OStr (str_int avgtempC));
         ("avgtempF", OStr (str_int avgtempF));
         ("totalSnow_cm", OStr "0");
         ("sunHour", py_str hours_of_sun);
         ("uvIndex", py_str uv_index);
         ("hourly", OList []);
         ("temp_C", OStr (str_int avgtempC));
         ("temp_F", OStr (str_int avgtempF));
         ("weatherCode", OStr "113");
         ("weatherDesc", OList [ODict [("value", OVal icon_phrase)]]);
         ("windspeedKmph", OStr (str_int windspeedKmph));
         ("windspeedMiles", OStr (str_int windspeedMiles));
         ("winddirDegree", py_str degrees);
         ("winddir16Point", OStr "N");
         ("precipMM", OStr "0");
         ("humidity", OStr "50");
         ("pressure", OStr "1013");
         ("visibility", OStr "10000");
         ("cloudcover", OStr "0");
         ("FeelsLikeC", OStr (str_int FeelsLikeC))]).

(** [d.pop(k, None)] on the dict a converter built. *)
Fixpoint pop (k : string) (d : list (string * out)) : list (string * out) :=
  match d with
  | [] => []
  | (k', v) :: d' => if String.eqb k k' then d' else (k', v) :: pop k d'
  end.

Definition pop_all (ks : list string) (o : out) : out :=
  match o with
  | ODict d => ODict (fold_left (fun d k => pop k d) ks d)
  | _ => o
  end.

Definition _convert_accuweather_to_standard (data : json) (days : Z)
  : result (option out) :=
  if falsy data then Ok None else
  if negb (is_list data) then Ok None else
  n <- py_len data ;;
  if n =? 0 then Ok None else
  sl <- py_slice_to data days ;;
  weather <- mapM _convert_accuweather_daily sl ;;
  first <- py_item0 data ;;
  current_condition <- _convert_accuweather_daily first ;;
  let current_condition :=
    pop_all ["date"; "maxtempC"; "maxtempF"; "mintempC"; "mintempF";
             "avgtempC"; "avgtempF"] current_condition in
  Ok (Some (ODict
    [("data", ODict
       [("request", OList [ODict [("type", OStr "feature");
                                  ("query", OFmt [OStr "0"; OStr ","; OStr "0"])]]);
        ("current_condition", OList [current_condition]);
        ("weather", OList weather)])])).

Definition _convert_metno_to_standard (data : json) (days : Z) : result out :=
  properties <- py_get data "properties" (JDict []) ;;
  timeseries <- py_get properties "timeseries" (JList [JDict []]) ;;
  first <- py_item0 timeseries ;;
  d <- py_get first "data" (JDict []) ;;
  instant <- py_get d "instant" (JDict []) ;;
  details <- py_get instant "details" (JDict []) ;;
  air_temperature <- py_get details "air_temperature" (JInt 0) ;;
  Ok (ODict
    [("data", ODict
       [("current_condition",
         OList [ODict [("temp_C", py_str air_temperature);
                       ("weatherDesc", OList [ODict [("value", OStr "Clear")]]);
                       ("humidity", OStr "50");
                       ("windspeedKmph", OStr "10")]]);
        ("weather", OList [])])]).

(** ** The registry *)

Inductive DataSourceType : Type :=
| METNO
| OPENWEATHERMAP
| WEATHERAPI
| ACCUWEATHER.

Record DataSource : Type := mkDataSource {
  name : string;
  type : DataSourceType;
  base_url : string;
  api_key : option string;
  rate_limit : Z;
  current_usage : Z;
  last_reset : Q;
  enabled : bool
}.

Definition set_current_usage (u : Z) (s : DataSource) : DataSource :=
  mkDataSource (name s) (type s) (base_url s) (api_key s) (rate_limit s)
               u (last_reset s) (enabled s).

Definition set_last_reset (t : Q) (s : DataSource) : DataSource :=
  mkDataSource (name s) (type s) (base_url s) (api_key s) (rate_limit s)
               (current_usage s) t (enabled s).

Definition set_enabled (b : bool) (s : DataSource) : DataSource :=
  mkDataSource (name s) (type s) (base_url s) (api_key s) (rate_limit s)
               (current_usage s) (last_reset s) b.

(** [if api_key:] on the result of [os.environ.get]. *)
Definition present (v : option string) : bool :=
  match v with
  | Some k => negb (String.eqb k "")
  | None => false
  end.

(** [_load_sources]; [environ] is [os.environ.get]. *)
Definition _load_sources (environ : string -> option string)
  : gmap string DataSource :=
  let sources : gmap string DataSource :=
    <["metno" := mkDataSource "metno" METNO "https://api.met.no" None
                              5000 0 0 true]> ∅ in
  let api_key := environ "OPENWEATHERMAP_API_KEY" in
  let sources :=
    if present api_key
    then <["openweathermap" :=
             mkDataSource "openweathermap" OPENWEATHERMAP
                          "https://api.openweathermap.org/data/2.5" api_key
                          1000 0 0 true]> sources
    else sources in
  let api_key := environ "WEATHERAPI_KEY" in
  let sources :=
    if present api_key
    then <["weatherapi" :=
             mkDataSource "weatherapi" WEATHERAPI
                          "https://api.weatherapi.com/v1" api_key
                          1000000 0 0 true]> sources
    else sources in
  let api_key := environ "ACCUWEATHER_API_KEY" in
  let sources :=
    if present api_key
    then <["accuweather" :=
             mkDataSource "accuweather" ACCUWEATHER
                          "https://dataservice.accuweather.com" api_key
                          50 0 0 true]> sources
    else sources in
  sources.

(** The body of [reset_usage], run at [current_time]. *)
Definition reset_source (current_time : Q) (source : DataSource) : DataSource :=
  if Qle_bool 3600 (current_time - last_reset source)
  then set_last_reset current_time (set_current_usage 0 source)
  else source.

Definition reset_usage (current_time : Q) (sources : gmap string DataSource)
  : gmap string DataSource :=
  reset_source current_time <$> sources.

(** The test of the list comprehension in [get_available_source]. *)
Definition is_available (source : DataSource) : bool :=
  enabled source && (current_usage source <? rate_limit source).

(** The list [available_sources]; the order of [sources.values()] is that
    of [map_to_list], which the random draw makes immaterial. *)
Definition available_sources (sources : gmap string DataSource)
  : list DataSource :=
  List.filter is_available (map_to_list sources).*2.

(** [random.choice(l)] on a non-empty list; [rnd] is the random draw. *)
Definition random_choice {A : Type} (rnd : nat) (l : list A) : option A :=
  nth_error l (rnd mod length l)%nat.

Definition get_available_source (rnd : nat) (sources : gmap string DataSource)
  : option DataSource :=
  match available_sources sources with
  | [] => None
  | l => random_choice rnd l
  end.

(** The manager at run time: its [sources] dict, the wall clock
    ([time.time()]), and the daemon threads started by [disable_source]
    that have not finished yet, each with the source it will re-enable and
    the time at which its [time.sleep(300)] returns at the earliest. *)
Record runtime : Type := mkRuntime {
  sources : gmap string DataSource;
  clock : Q;
  sleepers : list (string * Q)
}.

Definition with_sources (m : gmap string DataSource) (rt : runtime) : runtime :=
  mkRuntime m (clock rt) (sleepers rt).

Definition mark_source_used (source_name : string) (rt : runtime) : runtime :=
  match sources rt !! source_name with
  | Some source =>
      with_sources
        (<[source_name := set_current_usage (current_usage source + 1) source]>
           (sources rt)) rt
  | None => rt
  end.

Definition disable_source (source_name : string) (rt : runtime) : runtime :=
  match sources rt !! source_name with
  | Some source =>
      mkRuntime (<[source_name := set_enabled false source]> (sources rt))
                (clock rt)
                (sleepers rt ++ [(source_name, (clock rt + 300)%Q)])
  | None => rt
  end.

(** What the thread of [disable_source] does when its sleep is over. *)
Definition reenable (source_name : string) (m : gmap string DataSource)
  : gmap string DataSource :=
  match m !! source_name with
  | Some source => <[source_name := set_enabled true source]> m
  | None => m
  end.

(** ** Dispatch *)

(** What [requests.get] gives back: the status code and the outcome of
    [response.json()]. *)
Record response : Type := mkResponse {
  status_code : Z;
  response_json : result json
}.

(** [requests.get(url, headers=..., timeout=10)]: the network is a
    parameter; a timeout or a transport fault is a [Raise]. *)
Definition requests := out -> list (string * string) -> result response.

(** A request that was sent. *)
Record request : Type := mkRequest {
  url : out;
  headers : list (string * string)
}.

(** A computation that uses the network: the requests it sent, in order,
    and its outcome.  The requests sent before an exception stay sent. *)
Definition traced (A : Type) : Type := list request * result A.

Definition sent {A : Type} (c : traced A) : list request := fst c.

Definition outcome {A : Type} (c : traced A) : result A := snd c.

(** A step that does not use the network. *)
Definition lift {A : Type} (r : result A) : traced A := ([], r).

Definition tbind {A B : Type} (c : traced A) (k : A -> traced B) : traced B :=
  match outcome c with
  | Ok a => (sent c ++ sent (k a), outcome (k a))%list
  | Raise => (sent c, Raise)
  end.

Notation "x <~ e ;; k" := (tbind e (fun x => k))
  (at level 100, e at next level, right associativity, only parsing).

(** [requests.get(url, headers=headers, timeout=10)] *)
Definition requests_get (get : requests) (url : out)
  (headers : list (string * string)) : traced response :=
  ([mkRequest url headers], get url headers).

(** [s.split(',')] *)
Fixpoint split_comma (s : string) : list string :=
  match s with
  | EmptyString => [""]
  | String c s' =>
      if Ascii.eqb c ","
      then "" :: split_comma s'
      else match split_comma s' with
           | p :: ps => String c p :: ps
           | [] => [String c ""]
           end
  end.

Definition nth_part (n : nat) (parts : list string) : result string :=
  match nth_error parts n with
  | Some p => Ok p
  | None => Raise
  end.

(** [if not source.api_key] *)
Definition no_key (source : DataSource) : bool := negb (present (api_key source)).

Definition key_text (source : DataSource) : string :=
  match api_key source with
  | Some k => k
  | None => "None"
  end.

(** [self.sources[k]] *)
Definition source_item (m : gmap string DataSource) (k : string)
  : result DataSource :=
  match m !! k with
  | Some s => Ok s
  | None => Raise
  end.

Definition _fetch_metno (get : requests) (location : string) (days : Z)
  : traced (option out) :=
  lat <~ lift (nth_part 0 (split_comma location)) ;;
  lon <~ lift (nth_part 1 (split_comma location)) ;;
  let url :=
    "https://api.met.no/weatherapi/locationforecast/2.0/complete?lat="
      +:+ lat +:+ "&lon=" +:+ lon in
  response <~ requests_get get (OStr url) [("User-Agent", "wttr.in/1.0")] ;;
  lift (if status_code response =? 200
        then (body <- response_json response ;;
              data <- _convert_metno_to_standard body days ;;
              Ok (Some data))
        else Ok None).

Definition _fetch_openweathermap (get : requests) (m : gmap string DataSource)
  (location : string) (days : Z) : traced (option out) :=
  source <~ lift (source_item m "openweathermap") ;;
  if no_key source then lift (Ok None) else
  match split_comma location with
  | [lat; lng] =>
      source <~ lift (source_item m "openweathermap") ;;
      source' <~ lift (source_item m "openweathermap") ;;
      let url :=
        base_url source +:+ "/onecall?lat=" +:+ lat +:+ "&lon=" +:+ lng
          +:+ "&exclude=minutely&appid=" +:+ key_text source' in
      response <~ requests_get get (OStr url) [] ;;
      lift (if status_code response =? 200
            then (body <- response_json response ;;
                  _convert_openweather_to_standard body days)
            else Ok None)
  | _ => lift Raise
  end.

Definition _fetch_weatherapi (get : requests) (m : gmap string DataSource)
  (location : string) (days : Z) : traced (option out) :=
  source <~ lift (source_item m "weatherapi") ;;
  if no_key source then lift (Ok None) else
  source <~ lift (source_item m "weatherapi") ;;
  source' <~ lift (source_item m "weatherapi") ;;
  let url :=
    base_url source +:+ "/forecast.json?q=" +:+ location +:+ "&days="
      +:+ str_int days +:+ "&key=" +:+ key_text source' in
  response <~ requests_get get (OStr url) [] ;;
  lift (if status_code response =? 200
        then (body <- response_json response ;;
              _convert_weatherapi_to_standard body days)
        else Ok None).

Definition _fetch_accuweather (get : requests) (m : gmap string DataSource)
  (location : string) (days : Z) : traced (option out) :=
  source <~ lift (source_item m "accuweather") ;;
  if no_key source then lift (Ok None) else
  source <~ lift (source_item m "accuweather") ;;
  source' <~ lift (source_item m "accuweather") ;;
  let search_url :=
    base_url source +:+ "/locations/v1/cities/geoposition/search?q="
      +:+ location +:+ "&apikey=" +:+ key_text source' in
  search_response <~ requests_get get (OStr search_url) [] ;;
  if negb (status_code search_response =? 200) then lift (Ok None) else
  found <~ lift (response_json search_response) ;;
  location_key <~ lift (py_item found "Key") ;;
  source <~ lift (source_item m "accuweather") ;;
  source' <~ lift (source_item m "accuweather") ;;
  let forecast_url :=
    OFmt [OStr (base_url source +:+ "/forecasts/v1/daily/5day/");
          py_str location_key;
          OStr ("?apikey=" +:+ key_text source')] in
  forecast_response <~ requests_get get forecast_url [] ;;
  lift (if status_code forecast_response =? 200
        then (body <- response_json forecast_response ;;
              _convert_accuweather_to_standard body days)
        else Ok None).

Definition _fetch_from_source (get : requests) (m : gmap string DataSource)
  (source : DataSource) (location : string) (days : Z) : traced (option out) :=
  match type source with
  | METNO => _fetch_metno get location days
  | OPENWEATHERMAP => _fetch_openweathermap get m location days
  | WEATHERAPI => _fetch_weatherapi get m location days
  | ACCUWEATHER => _fetch_accuweather get m location days
  end.

(** The outcome of one call of [fetch_weather_data]: the value returned, the
    manager afterwards, and the requests that were sent during the call. *)
Record fetched : Type := mkFetched {
  returned : option out;
  after : runtime;
  requested : list request
}.

Definition fetch_weather_data (get : requests) (rnd : nat)
  (location : string) (days : Z) (rt : runtime) : fetched :=
  match get_available_source rnd (sources rt) with
  | None => mkFetched None rt []
  | Some source =>
      let fetch := _fetch_from_source get (sources rt) source location days in
      match outcome fetch with
      | Ok (Some data) =>
          if out_truthy data
          then mkFetched (Some data) (mark_source_used (name source) rt)
                         (sent fetch)
          else mkFetched None (disable_source (name source) rt) (sent fetch)
      | Ok None => mkFetched None (disable_source (name source) rt) (sent fetch)
      | Raise => mkFetched None (disable_source (name source) rt) (sent fetch)
      end
  end.

(** ** The manager over time *)

(** What can happen to a running manager, one thing at a time: time passes,
    a sleeping re-enable thread wakes up and runs, the reset thread runs its
    sweep, or a caller invokes one of the public methods. *)
Inductive event : Type :=
| Advance (dt : Q)
| Wake (i : nat)
| ResetSweep
| CallMarkUsed (source_name : string)
| CallDisable (source_name : string)
| CallFetch (get : requests) (rnd : nat) (location : string) (days : Z).

Fixpoint remove_nth {A : Type} (i : nat) (l : list A) : list A :=
  match l, i with
  | [], _ => []
  | _ :: l', O => l'
  | x :: l', S i' => x :: remove_nth i' l'
  end.

(** [None] when the event cannot happen: time does not run backwards, and a
    thread does not wake before its sleep is over. *)
Definition step (e : event) (rt : runtime) : option runtime :=
  match e with
  | Advance dt =>
      if Qle_bool 0 dt
      then Some (mkRuntime (sources rt) (clock rt + dt)%Q (sleepers rt))
      else None
  | Wake i =>
      match nth_error (sleepers rt) i with
      | Some (source_name, due) =>
          if Qle_bool due (clock rt)
          then Some (mkRuntime (reenable source_name (sources rt)) (clock rt)
                               (remove_nth i (sleepers rt)))
          else None
      | None => None
      end
  | ResetSweep => Some (with_sources (reset_usage (clock rt) (sources rt)) rt)
  | CallMarkUsed source_name => Some (mark_source_used source_name rt)
  | CallDisable source_name => Some (disable_source source_name rt)
  | CallFetch get rnd location days =>
      Some (after (fetch_weather_data get rnd location days rt))
  end.

Fixpoint run (es : list event) (rt : runtime) : option runtime :=
  match es with
  | [] => Some rt
  | e :: es' =>
      match step e rt with
      | Some rt' => run es' rt'
      | None => None
      end
  end.

(** [__init__] at time [t]: the sources are loaded and no thread sleeps. *)
Definition init (environ : string -> option string) (t : Q) : runtime :=
  mkRuntime (_load_sources environ) t [].

Definition is_enabled (source_name : string) (rt : runtime) : option bool :=
  enabled <$> sources rt !! source_name.

(** ** Gated use of the quota *)



(** ** Reading what a converter returns *)

(** [o[k]] on a dict built by a converter. *)
Definition field (k : string) (o : out) : option out :=
  match o with
  | ODict d => assoc k d
  | _ => None
  end.

(** [o["data"]["weather"]] *)
Definition weather_of (o : out) : option (list out) :=
  match field "data" o with
  | Some d => match field "weather" d with
              | Some (OList w) => Some w
              | _ => None
              end
  | None => None
  end.

(** [o["data"]["current_condition"][0]] *)
Definition current_condition_of (o : out) : option out :=
  match field "data" o with
  | Some d => match field "current_condition" d with
              | Some (OList (c :: _)) => Some c
              | _ => None
              end
  | None => None
  end.

(** The three converters that loop over daily forecasts. *)
Inductive forecast_adapter : Type :=
| OpenWeather
| WeatherApi
| AccuWeather.

Definition to_standard (a : forecast_adapter) : json -> Z -> result (option out) :=
  match a with
  | OpenWeather => _convert_openweather_to_standard
  | WeatherApi => _convert_weatherapi_to_standard
  | AccuWeather => _convert_accuweather_to_standard
  end.

Definition daily_converter (a : forecast_adapter) : json -> result out :=
  match a with
  | OpenWeather => _convert_openweather_daily
  | WeatherApi => _convert_weatherapi_daily
  | AccuWeather => _convert_accuweather_daily
  end.

(** The list of daily forecasts in a payload, where the converter looks for
    it: [data['daily']], [data['forecast']['forecastday']], and [data]
    itself. *)
Definition daily_forecasts (a : forecast_adapter) (data : json)
  : option (list json) :=
  match a, data with
  | OpenWeather, JDict d =>
      match assoc "daily" d with
      | Some (JList l) => Some l
      | _ => None
      end
  | WeatherApi, JDict d =>
      match assoc "forecast" d with
      | Some (JDict f) =>
          match assoc "forecastday" f with
          | Some (JList l) => Some l
          | _ => None
          end
      | _ => None
      end
  | AccuWeather, JList l => Some l
  | _, _ => None
  end.

(** ** Reading a payload *)

(** [v.get(k1, {}).get(k2, {})...] along [path]. *)
Fixpoint get_path (v : json) (path : list string) : result json :=
  match path with
  | [] => Ok v
  | k :: path' => x <- py_get v k (JDict []) ;; get_path x path'
  end.

(** The number that [v.get(k1, {})...get(k, default)] yields, if it is one. *)
Definition number_in (v : json) (path : list string) (k : string)
  (default : json) : option num :=
  match get_path v path with
  | Ok d => match py_get d k default with
            | Ok x => as_num x
            | Raise => None
            end
  | Raise => None
  end.

(** The entry [k] of a payload dict, if it has one. *)
Definition entry (v : json) (k : string) : option json :=
  match v with
  | JDict d => assoc k d
  | _ => None
  end.

(** The temperature that [_convert_openweather_hourly] works with: the
    entry [temp], or its entry [day] when [temp] is a dict. *)
Definition openweather_temp (hour_data : json) : option num :=
  match py_get hour_data "temp" (JInt 0) with
  | Ok (JDict t) => number_in (JDict t) [] "day" (JInt 0)
  | Ok v => as_num v
  | Raise => None
  end.


(** F = C × 9/5 + 32 *)
Definition fahrenheit (c : Q) : Q := (c * 9 / 5 + 32)%Q.

(** A display field that holds a number rounded to a whole unit. *)
Definition rounded (q : Q) : option out :=
  Some (OStr (str_int (round_half_even q))).

Definition rounded_num (n : num) : option out :=
  Some (OStr (str_int (round_num n))).

(** What a display field shows when the payload may supply its value under
    [k] and the converter derives it otherwise. *)
Definition supplied_or (v : json) (k : string) (derived : float)
  (shown : option out) : Prop :=
  match entry v k with
  | Some x => exists n, as_num x = Some n /\ shown = rounded_num n
  | None => exists q, derived = Finite q /\ shown = rounded q
  end.

(** ** Sample payloads *)


(** An OpenWeatherMap payload with current conditions and three days. *)
Definition openweather_three_days : json :=
  JDict [("current", JDict []);
         ("daily", JList [JDict [("dt", JInt 1)]; JDict [("dt", JInt 2)];
                          JDict [("dt", JInt 3)]])].

(** An OpenWeatherMap hour at 0 degrees Celsius with wind of 10 m/s. *)
Definition openweather_freezing_hour : json :=
  JDict [("temp", JInt 0); ("wind_speed", JInt 10)].

(** An OpenWeatherMap hour at 100 degrees Celsius. *)
Definition openweather_boiling_hour : json :=
  JDict [("temp", JInt 100)].

(** The float that [json.loads] reads from a decimal literal. *)
Definition json_float (literal : Q) : json := JFloat (nearest_double literal).

(** An OpenWeatherMap hour with wind of 27.94 m/s (62.5 mph). *)
Definition openweather_storm_hour : json :=
  JDict [("wind_speed", json_float 27.94)].

(** An AccuWeather day between -12.3 and 7.3 degrees. *)
Definition accuweather_frosty_day : json :=
  JDict [("Temperature",
          JDict [("Maximum", JDict [("Value", json_float 7.3)]);
                 ("Minimum", JDict [("Value", json_float (-12.3))])])].

(** An OpenWeatherMap hour at 2^1023 degrees, the largest power of two
    among the doubles. *)
Definition openweather_overflowing_hour : json :=
  JDict [("temp", JFloat (2 ^ 1023))].

(** A WeatherAPI hour with wind from 90 degrees and no [wind_dir]. *)
Definition weatherapi_east_wind_hour : json :=
  JDict [("wind_degree", JInt 90)].

(** The text of field [k] in what a converter returned. *)
Definition text_of (r : result out) (k : string) : option string :=
  match r with
  | Ok o => match field k o with
            | Some (OStr s) => Some s
            | _ => None
            end
  | Raise => None
  end.

(** ** Invariants of the registry *)

(** Every source is registered under its own name. *)
Definition well_keyed (m : gmap string DataSource) : Prop :=
  forall k s, m !! k = Some s -> name s = k.

(** [0 <= usage <= quota] for every source. *)
Definition quota_ok (m : gmap string DataSource) : Prop :=
  forall k s, m !! k = Some s -> 0 <= current_usage s <= rate_limit s.

(** The source that a grant names is registered and under its quota. *)
Definition grant_ok (granted : option string) (m : gmap string DataSource)
  : Prop :=
  match granted with
  | Some g => exists s, m !! g = Some s /\ current_usage s < rate_limit s
  | None => True
  end.

(** [source_name] is registered and stays disabled while the clock is
    before [D]: it is disabled now if the clock is before [D], no sleeping
    thread will re-enable it before [D], and a thread started from now on
    will not either. *)
Definition disabled_until (source_name : string) (D : Q) (rt : runtime)
  : Prop :=
  (exists b, is_enabled source_name rt = Some b /\
             ((clock rt < D)%Q -> b = false)) /\
  (forall due, In (source_name, due) (sleepers rt) -> (D <= due)%Q) /\
  (D <= clock rt + 300)%Q.

(** The events that do not call [mark_source_used] or [disable_source]
    directly: the manager is used through [fetch_weather_data] only. *)
Definition through_fetch (e : event) : bool :=
  match e with
  | CallMarkUsed _ | CallDisable _ => false
  | _ => true
  end.


(** ** Sample environments *)

(** No API key is configured: only MET Norway is registered. *)
Definition no_keys : string -> option string := fun _ => None.

(** A network on which every request is answered with an empty JSON object. *)
Definition answering : requests := fun _ _ => Ok (mkResponse 200 (Ok (JDict []))).

(** ** Statements about the requests *)

(** [s.startswith(p)] *)
Fixpoint starts_with (p s : string) : bool :=
  match p, s with
  | EmptyString, _ => true
  | String a p', String b s' => Ascii.eqb a b && starts_with p' s'
  | String _ _, EmptyString => false
  end.

(** The text with which a URL begins: the whole of it, or the literal
    part before the first value that is formatted into it. *)
Definition url_head (u : out) : string :=
  match u with
  | OStr s => s
  | OFmt (OStr s :: _) => s
  | _ => ""
  end.

(** The request goes to the API of [source]. *)
Definition goes_to (source : DataSource) (q : request) : Prop :=
  starts_with (base_url source) (url_head (url q)) = true.

(** ** Statements about the registry over time *)

(** The configuration of a source: what [_load_sources] sets and no method
    assigns afterwards. *)
Definition static (s : DataSource)
  : string * DataSourceType * string * option string * Z :=
  (name s, type s, base_url s, api_key s, rate_limit s).

(** The names under which [_load_sources] may register a source. *)
Definition source_names : list string :=
  ["metno"; "openweathermap"; "weatherapi"; "accuweather"].

(** Every disabled source has a re-enable thread pending that wakes within
    300 seconds. *)
Definition recovery_pending (rt : runtime) : Prop :=
  forall k s, sources rt !! k = Some s -> enabled s = false ->
              exists due, In (k, due) (sleepers rt) /\
                          (due <= clock rt + 300)%Q.

(** The codes of the wttr.in (WWO) code space that the OpenWeatherMap table
    produces. *)
Definition wwo_codes : list Z :=
  [113; 116; 119; 122; 143; 176; 200; 230; 266; 281; 284; 293; 299; 302;
   305; 308; 317; 320; 332; 368; 371; 386; 389].

(** The number of commas in a string. *)
Fixpoint comma_count (s : string) : nat :=
  match s with
  | EmptyString => O
  | String c s' => if Ascii.eqb c "," then S (comma_count s') else comma_count s'
  end.

(** The keys that [_convert_accuweather_to_standard] pops from the first
    day to make the current conditions. *)
Definition daily_only_keys : list string :=
  ["date"; "maxtempC"; "maxtempF"; "mintempC"; "mintempF"; "avgtempC";
   "avgtempF"].

(** A network that answers every request with status 503. *)
Definition unavailable : requests :=
  fun _ _ => Ok (mkResponse 503 (Ok JNull)).




(** * Properties *)

(** ** Rounding *)

Lemma Qfloor_unique (x : Q) (n : Z) :
  (inject_Z n <= x)%Q -> (x < inject_Z (n + 1))%Q -> Qfloor x = n.
Proof.
  intros Hle Hlt.
  pose proof (Qfloor_le x) as Hf.
  pose proof (Qlt_floor x) as Hc.
  rewrite inject_Z_plus in Hlt, Hc. change (inject_Z 1) with 1%Q in Hlt, Hc.
  assert (Qfloor x < n + 1).
  { rewrite Zlt_Qlt, inject_Z_plus. change (inject_Z 1) with 1%Q. lra. }
  assert (n < Qfloor x + 1).
  { rewrite Zlt_Qlt, inject_Z_plus. change (inject_Z 1) with 1%Q. lra. }
  lia.
Qed.

Lemma round_half_even_comp (x y : Q) :
  x == y -> round_half_even x = round_half_even y.
Proof.
  intros E. unfold round_half_even.
  rewrite (Qfloor_comp x y E).
  assert (C : Qcompare (x - inject_Z (Qfloor y)) (1 # 2)
              = Qcompare (y - inject_Z (Qfloor y)) (1 # 2)).
  { apply Qcompare_comp; [rewrite E|]; reflexivity. }
  rewrite C. reflexivity.
Qed.

(** The rounding is to a nearest integer. *)
Lemma round_half_even_nearest (x : Q) :
  (x - (1 # 2) <= inject_Z (round_half_even x))%Q /\
  (inject_Z (round_half_even x) <= x + (1 # 2))%Q.
Proof.
  unfold round_half_even.
  pose proof (Qfloor_le x) as Hf.
  pose proof (Qlt_floor x) as Hc.
  rewrite inject_Z_plus in Hc. change (inject_Z 1) with 1%Q in Hc.
  destruct (Qcompare_spec (x - inject_Z (Qfloor x)) (1 # 2)) as [E|L|G].
  - destruct (Z.even (Qfloor x)); rewrite ?inject_Z_plus;
      change (inject_Z 1) with 1%Q; split; lra.
  - split; lra.
  - rewrite inject_Z_plus. change (inject_Z 1) with 1%Q. split; lra.
Qed.

(** On a tie the even neighbour wins. *)
Lemma round_half_even_tie (k : Z) :
  round_half_even (inject_Z k + (1 # 2)) = if Z.even k then k else k + 1.
Proof.
  unfold round_half_even.
  assert (F : Qfloor (inject_Z k + (1 # 2)) = k).
  { apply Qfloor_unique; rewrite ?inject_Z_plus;
      change (inject_Z 1) with 1%Q; lra. }
  rewrite F.
  assert (C : Qcompare (inject_Z k + (1 # 2) - inject_Z k) (1 # 2) = Eq).
  { rewrite <- Qeq_alt. lra. }
  rewrite C. reflexivity.
Qed.

(** ** Compass points *)

(** C9.  In [_degrees_to_16_point] a direction that is an odd multiple of
    11.25 degrees falls halfway between two compass points, and the index is
    the even one of the two neighbours (round-half-to-even), not always the
    upper one: 11.25 gives "N" (index 0), 33.75 gives "NE" (index 2), and
    348.75 gives "N" (index 16, which is 0 modulo 16). *)
Theorem degrees_half_ties_round_to_even :
  (forall k : Z,
      let index := (if Z.even k then k else k + 1) mod 16 in
      compass_index (inject_Z (2 * k + 1) * 11.25) = index /\
      _degrees_to_16_point (inject_Z (2 * k + 1) * 11.25)
      = nth (Z.to_nat index) directions "") /\
  compass_index 11.25 = 0 /\ _degrees_to_16_point 11.25 = "N" /\
  compass_index 33.75 = 2 /\ _degrees_to_16_point 33.75 = "NE" /\
  round_half_even (348.75 / 22.5) = 16 /\ _degrees_to_16_point 348.75 = "N".
Proof.
  split.
  - intros k index.
    assert (E : compass_index (inject_Z (2 * k + 1) * 11.25) = index).
    { unfold compass_index, index. f_equal.
      rewrite <- round_half_even_tie.
      apply round_half_even_comp.
      rewrite inject_Z_plus, inject_Z_mult. field. }
    split; [exact E|]. unfold _degrees_to_16_point. rewrite E. reflexivity.
  - repeat split; reflexivity.
Qed.

(** ** Float arithmetic *)

Lemma two_pow_pos (e : Z) : (0 < 2 ^ e)%Q.
Proof. apply Qpower_0_lt. reflexivity. Qed.

Lemma binade_le (x : Q) : ~ x == 0 -> (2 ^ binade x <= Qabs x)%Q.
Proof.
  intros Hx. unfold binade.
  set (n := Z.abs (Qnum x)). set (d := Z.pos (Qden x)).
  destruct (Qle_bool (2 ^ (Z.log2 n - Z.log2 d)) (Qabs x)) eqn:B.
  - apply Qle_bool_iff. exact B.
  - assert (Hn : 0 < n).
    { unfold n. destruct x as [[|p|p] q]; cbn; try lia.
      exfalso. apply Hx. reflexivity. }
    assert (Hd : 0 < d) by (unfold d; lia).
    destruct (Z.log2_spec n Hn) as [Ln _].
    destruct (Z.log2_spec d Hd) as [_ Ud].
    pose proof (Z.log2_nonneg n) as Nn. pose proof (Z.log2_nonneg d) as Nd.
    assert (E : (Qabs x == inject_Z n / inject_Z d)%Q).
    { unfold n, d. destruct x as [a b]. cbn [Qabs Qnum Qden].
      rewrite (Qmake_Qdiv (Z.abs a) b). reflexivity. }
    rewrite E.
    replace (Z.log2 n - Z.log2 d - 1) with (Z.log2 n - Z.succ (Z.log2 d)) by lia.
    rewrite Qpower_minus by discriminate.
    rewrite <- !(Zpower_Qpower 2) by lia.
    assert (P1 : (0 < inject_Z (2 ^ Z.succ (Z.log2 d)))%Q).
    { rewrite <- (Zlt_Qlt 0). lia. }
    assert (P2 : (0 < inject_Z d)%Q) by (rewrite <- (Zlt_Qlt 0); exact Hd).
    assert (A : (inject_Z (2 ^ Z.log2 n) <= inject_Z n)%Q)
      by (rewrite <- Zle_Qle; exact Ln).
    assert (C : (inject_Z d <= inject_Z (2 ^ Z.succ (Z.log2 d)))%Q)
      by (rewrite <- Zle_Qle; lia).
    assert (P0 : (0 <= inject_Z (2 ^ Z.log2 n))%Q)
      by (rewrite <- (Zle_Qle 0); lia).
    apply Qle_shift_div_l; [exact P2|].
    unfold Qdiv. rewrite <- Qmult_assoc.
    rewrite (Qmult_comm (/ _)).
    change (inject_Z (2 ^ Z.log2 n)
            * (inject_Z d / inject_Z (2 ^ Z.succ (Z.log2 d))) <= inject_Z n)%Q.
    assert (F : (inject_Z d / inject_Z (2 ^ Z.succ (Z.log2 d)) <= 1)%Q).
    { apply Qle_shift_div_r; [exact P1|]. lra. }
    nra.
Qed.

(** Rounding to the nearest double is off by at most half a unit in the
    last place: 2^-53 of the value, or 2^-1075 among the subnormal
    numbers. *)
Lemma nearest_double_error (x : Q) :
  (Qabs (nearest_double x - x)
   <= Qabs x * (1 # 9007199254740992) + 2 ^ (-1075))%Q.
Proof.
  unfold nearest_double.
  destruct (Qeq_bool x 0) eqn:Z0.
  - apply Qeq_bool_iff in Z0. rewrite Z0.
    pose proof (two_pow_pos (-1075)).
    assert (Qabs (0 - 0) == 0)%Q by reflexivity.
    assert (Qabs 0 == 0)%Q by reflexivity.
    set (t := (2 ^ (-1075))%Q) in *. lra.
  - assert (Hx : ~ x == 0).
    { intros E. apply Qeq_bool_iff in E. congruence. }
    rewrite Qred_correct.
    pose proof (binade_le x Hx) as B.
    pose proof (two_pow_pos (Z.max (binade x - 52) (-1074))) as U.
    fold (ulp x) in U.
    pose proof (round_half_even_nearest (x / ulp x)) as [R1 R2].
    set (r := inject_Z (round_half_even (x / ulp x))) in *.
    assert (D : (x == (x / ulp x) * ulp x)%Q) by (field; lra).
    assert (H : (Qabs (r * ulp x - x) <= ulp x * (1 # 2))%Q).
    { apply Qabs_Qle_condition. split; nra. }
    assert (V : (ulp x * (1 # 2)
                 <= Qabs x * (1 # 9007199254740992) + 2 ^ (-1075))%Q).
    { unfold ulp. pose proof (two_pow_pos (-1075)) as T.
      pose proof (Qabs_nonneg x) as A.
      destruct (Z.max_spec (binade x - 52) (-1074)) as [[L ->]|[L ->]].
      - assert (E : (2 ^ (-1074) == 2 * 2 ^ (-1075))%Q)
          by (vm_compute; reflexivity).
        rewrite E. set (t := (2 ^ (-1075))%Q) in *.
        assert (0 <= Qabs x * (1 # 9007199254740992))%Q by nra. lra.
      - rewrite Qpower_minus by discriminate.
        set (b := (2 ^ binade x)%Q) in *.
        assert (E : (b / 2 ^ 52 * (1 # 2) == b * (1 # 9007199254740992))%Q).
        { assert (E52 : (2 ^ 52 == 4503599627370496)%Q) by reflexivity.
          rewrite E52. field. }
        rewrite E. set (t := (2 ^ (-1075))%Q) in *. nra. }
    set (t := (2 ^ (-1075))%Q) in *. lra.
Qed.

(** A float operation on values of moderate size does not overflow, and its
    result is within 2^-53 of the size bound (and 2^-60) of the exact
    value. *)
Lemma fl_close (x B : Q) :
  (Qabs x <= B)%Q -> (B <= 1000000000000)%Q ->
  exists r, fl x = Finite r /\
            (x - (B * (1 # 9007199254740992) + (1 # 1152921504606846976)) <= r)%Q /\
            (r <= x + (B * (1 # 9007199254740992) + (1 # 1152921504606846976)))%Q.
Proof.
  intros Hx HB.
  pose proof (nearest_double_error x) as E.
  assert (T : (2 ^ (-1075) <= 1 # 1152921504606846976)%Q)
    by (vm_compute; discriminate).
  pose proof (Qabs_nonneg x) as A.
  set (t := (2 ^ (-1075))%Q) in *.
  apply Qabs_Qle_condition in E. destruct E as [E1 E2].
  apply Qabs_Qle_condition in Hx. destruct Hx as [X1 X2].
  assert (A' : (Qabs x <= B)%Q) by (apply Qabs_Qle_condition; split; lra).
  assert (R : (x - (B * (1 # 9007199254740992) + (1 # 1152921504606846976))
               <= nearest_double x)%Q /\
              (nearest_double x
               <= x + (B * (1 # 9007199254740992) + (1 # 1152921504606846976)))%Q).
  { split; nra. }
  exists (nearest_double x). split; [|exact R].
  unfold fl. destruct (Qle_bool (2 ^ 1024) (Qabs (nearest_double x))) eqn:O;
    [|reflexivity].
  exfalso. apply Qle_bool_iff in O.
  assert (K : (3000000000000 < 2 ^ 1024)%Q) by (vm_compute; reflexivity).
  assert (N : (Qabs (nearest_double x) <= 3000000000000)%Q).
  { apply Qabs_Qle_condition. destruct R as [R1 R2]. split; nra. }
  set (p := (2 ^ 1024)%Q) in *. lra.
Qed.

Lemma to_float_close (n : num) (B : Q) :
  (Qabs (num_Q n) <= B)%Q -> (B <= 1000000000000)%Q ->
  exists x, to_float n = Ok x /\
            (num_Q n - (B * (1 # 9007199254740992) + (1 # 1152921504606846976)) <= x)%Q /\
            (x <= num_Q n + (B * (1 # 9007199254740992) + (1 # 1152921504606846976)))%Q.
Proof.
  intros Hx HB. destruct n as [z|q]; cbn [to_float num_Q] in *.
  - destruct (fl_close (inject_Z z) B Hx HB) as (r & -> & R). exists r.
    split; [reflexivity|exact R].
  - exists q. split; [reflexivity|].
    apply Qabs_Qle_condition in Hx. split; nra.
Qed.

Lemma Qdiv_5 (m : Q) : (m / 5 == m * (1 # 5))%Q.
Proof. field. Qed.

Lemma Qdiv_2 (m : Q) : (m / 2 == m * (1 # 2))%Q.
Proof. field. Qed.

(** F = C × 9/5 + 32: for a temperature of at most a million degrees the
    float computation does not overflow and is within 10^-9 of the exact
    value. *)
Lemma c_to_f_float_close (x : Q) :
  (Qabs x <= 1000000)%Q ->
  exists f, c_to_f_float (Finite x) = Finite f /\
            (Qabs (f - fahrenheit x) <= 1 # 1000000000)%Q.
Proof.
  intros Hx. apply Qabs_Qle_condition in Hx. destruct Hx as [X1 X2].
  unfold c_to_f_float. cbn [fmul].
  destruct (fl_close (x * 9) 9000000) as (m & -> & M1 & M2);
    [apply Qabs_Qle_condition; split; lra|lra|].
  cbn [fdiv].
  destruct (fl_close (m / 5) 2000000) as (d & -> & D1 & D2);
    [rewrite Qdiv_5; apply Qabs_Qle_condition; split; lra|lra|].
  rewrite Qdiv_5 in D1, D2. cbn [fadd].
  destruct (fl_close (d + 32) 2000100) as (f & -> & F1 & F2);
    [apply Qabs_Qle_condition; split; lra|lra|].
  exists f. split; [reflexivity|].
  unfold fahrenheit. rewrite Qdiv_5. apply Qabs_Qle_condition. split; lra.
Qed.

Lemma c_to_f_num_close (n : num) :
  (Qabs (num_Q n) <= 1000000)%Q ->
  exists f, c_to_f_num n = Ok (Finite f) /\
            (Qabs (f - fahrenheit (num_Q n)) <= 1 # 1000000000)%Q.
Proof.
  intros Hx. destruct n as [z|x]; cbn [c_to_f_num num_Q] in *.
  - apply Qabs_Qle_condition in Hx. destruct Hx as [X1 X2].
    unfold int_truediv.
    assert (E : (inject_Z (z * 9) / inject_Z 5 == inject_Z z * 9 * (1 # 5))%Q).
    { rewrite inject_Z_mult. apply Qdiv_5. }
    destruct (fl_close (inject_Z (z * 9) / inject_Z 5) 2000000)
      as (d & -> & D1 & D2); [rewrite E; apply Qabs_Qle_condition; split; lra|lra|].
    rewrite E in D1, D2. cbn [finite bind].
    destruct (fl_close (d + 32) 2000100) as (f & -> & F1 & F2);
      [apply Qabs_Qle_condition; split; lra|lra|].
    exists f. split; [reflexivity|].
    unfold fahrenheit. rewrite Qdiv_5. apply Qabs_Qle_condition. split; lra.
  - destruct (c_to_f_float_close x Hx) as (f & -> & F). eauto.
Qed.

(** The mean of two temperatures. *)
Lemma mean2_num_close (x y : num) :
  (Qabs (num_Q x) <= 1000000)%Q -> (Qabs (num_Q y) <= 1000000)%Q ->
  exists avg, mean2_num x y = Ok (Finite avg) /\
              (Qabs (avg - (num_Q x + num_Q y) / 2) <= 1 # 1000000000)%Q.
Proof.
  intros Hx Hy.
  assert (G : forall p q : Q,
             (num_Q x - (1000000 * (1 # 9007199254740992) + (1 # 1152921504606846976)) <= p)%Q /\
             (p <= num_Q x + (1000000 * (1 # 9007199254740992) + (1 # 1152921504606846976)))%Q ->
             (num_Q y - (1000000 * (1 # 9007199254740992) + (1 # 1152921504606846976)) <= q)%Q /\
             (q <= num_Q y + (1000000 * (1 # 9007199254740992) + (1 # 1152921504606846976)))%Q ->
             exists avg, fdiv (fl (p + q)) 2 = Finite avg /\
                         (Qabs (avg - (num_Q x + num_Q y) / 2) <= 1 # 1000000000)%Q).
  { intros p q [P1 P2] [Q1 Q2].
    apply Qabs_Qle_condition in Hx, Hy. destruct Hx as [X1 X2], Hy as [Y1 Y2].
    destruct (fl_close (p + q) 2000001) as (s & -> & S1 & S2);
      [apply Qabs_Qle_condition; split; lra|lra|].
    cbn [fdiv].
    destruct (fl_close (s / 2) 1000001) as (a & -> & A1 & A2);
      [rewrite Qdiv_2; apply Qabs_Qle_condition; split; lra|lra|].
    rewrite Qdiv_2 in A1, A2.
    exists a. split; [reflexivity|]. rewrite Qdiv_2.
    apply Qabs_Qle_condition. split; lra. }
  destruct (to_float_close x 1000000 Hx) as (p & Ep & P); [lra|].
  destruct (to_float_close y 1000000 Hy) as (q & Eq & Q); [lra|].
  destruct (G p q P Q) as (avg & Ea & A).
  destruct x as [a|a], y as [b|b]; cbn [mean2_num];
    try (rewrite Ep, Eq; cbn [bind]; rewrite Ea; eauto).
  cbn [num_Q] in *. unfold int_truediv.
  apply Qabs_Qle_condition in Hx, Hy. destruct Hx as [X1 X2], Hy as [Y1 Y2].
  assert (E : (inject_Z (a + b) / inject_Z 2
               == (inject_Z a + inject_Z b) * (1 # 2))%Q).
  { rewrite inject_Z_plus. apply Qdiv_2. }
  destruct (fl_close (inject_Z (a + b) / inject_Z 2) 1000000)
    as (d & -> & D1 & D2); [rewrite E; apply Qabs_Qle_condition; split; lra|lra|].
  rewrite E in D1, D2. cbn [finite bind].
  exists d. split; [reflexivity|]. rewrite Qdiv_2.
  apply Qabs_Qle_condition. split; lra.
Qed.

(** A product with one of the conversion factors, on a float that is within
    [delta] of the exact value [y]. *)
Lemma fmul_factor_close (x c y delta : Q) :
  (0 <= c)%Q -> (c <= 4)%Q -> (Qabs y <= 4000000)%Q ->
  (delta <= 1 # 1000000)%Q -> (Qabs (x - y) <= delta)%Q ->
  exists r, fmul (Finite x) (nearest_double c) = Finite r /\
            (Qabs (r - y * c) <= 5 * delta + (1 # 200000000))%Q.
Proof.
  intros C0 C4 Hy Hd Hxy.
  apply Qabs_Qle_condition in Hy, Hxy. destruct Hy as [Y1 Y2], Hxy as [D1 D2].
  destruct (fl_close c 4) as (c' & Ec & C1 & C2);
    [apply Qabs_Qle_condition; split; lra|lra|].
  assert (Nc : nearest_double c = c').
  { unfold fl in Ec. destruct (Qle_bool _ _); [discriminate Ec|].
    injection Ec as ->. reflexivity. }
  rewrite Nc. cbn [fmul].
  assert (P : (0 <= delta)%Q) by lra.
  assert (B1 : (- (5 # 1) <= c')%Q) by lra.
  assert (B2 : (c' <= 5)%Q) by lra.
  assert (X1 : (- (4000001 # 1) <= x)%Q) by lra.
  assert (X2 : (x <= 4000001)%Q) by lra.
  destruct (fl_close (x * c') 21000000) as (r & -> & R1 & R2);
    [apply Qabs_Qle_condition; split; nra|lra|].
  exists r. split; [reflexivity|].
  assert (K1 : (- (5 * delta) <= (x - y) * c')%Q) by nra.
  assert (K2 : ((x - y) * c' <= 5 * delta)%Q) by nra.
  assert (K3 : (- (1 # 500000000) <= y * (c' - c))%Q) by nra.
  assert (K4 : (y * (c' - c) <= 1 # 500000000)%Q) by nra.
  apply Qabs_Qle_condition. split; nra.
Qed.

(** Metres per second to km/h, km/h to miles per hour, miles per hour to
    km/h: for a speed of at most a million the float product is within
    10^-8 of the exact one. *)
Lemma mul_num_close (n : num) (c : Q) :
  (0 <= c)%Q -> (c <= 4)%Q -> (Qabs (num_Q n) <= 1000000)%Q ->
  exists r, mul_num n c = Ok (Finite r) /\
            (Qabs (r - num_Q n * c) <= 1 # 100000000)%Q.
Proof.
  intros C0 C4 Hn. unfold mul_num.
  destruct (to_float_close n 1000000 Hn) as (x & -> & X1 & X2); [lra|].
  cbn [bind].
  destruct (fmul_factor_close x c (num_Q n) (1 # 1000000000) C0 C4)
    as (r & E & R).
  - apply Qabs_Qle_condition in Hn. apply Qabs_Qle_condition. split; lra.
  - lra.
  - apply Qabs_Qle_condition. split; lra.
  - exists r. split; [cbn [fmul] in E; rewrite E; reflexivity|].
    apply Qabs_Qle_condition in R. apply Qabs_Qle_condition. split; lra.
Qed.

(** Two factors in a row, as for the miles per hour of OpenWeatherMap. *)
Lemma mul_num_twice_close (n : num) (c1 c2 : Q) (k : Q) :
  (0 <= c1)%Q -> (c1 <= 4)%Q -> (0 <= c2)%Q -> (c2 <= 1)%Q ->
  (Qabs (num_Q n) <= 1000000)%Q ->
  mul_num n c1 = Ok (Finite k) ->
  exists r, fmul (Finite k) (nearest_double c2) = Finite r /\
            (Qabs (r - num_Q n * c1 * c2) <= 1 # 10000000)%Q.
Proof.
  intros A0 A4 B0 B1 Hn Hk.
  destruct (mul_num_close n c1 A0 A4 Hn) as (k' & E & K).
  rewrite Hk in E. injection E as <-.
  destruct (fmul_factor_close k c2 (num_Q n * c1) (1 # 100000000))
    as (r & E & R); [exact B0|lra| |lra|exact K|].
  - apply Qabs_Qle_condition in Hn. apply Qabs_Qle_condition. split; nra.
  - exists r. split; [exact E|].
    apply Qabs_Qle_condition in R. apply Qabs_Qle_condition. split; lra.
Qed.

(** ** Inversion of the converters *)

Ltac bind_inv H :=
  repeat match type of H with
  | bind ?e _ = Ok _ =>
      let E := fresh "E" in
      destruct e eqn:E; cbn [bind] in H; [|discriminate H]
  end.

Lemma int_round_Ok (v : json) (z : Z) :
  int_round v = Ok z -> exists n, as_num v = Some n /\ z = round_num n.
Proof.
  unfold int_round. destruct (as_num v); [|discriminate].
  intros [= <-]. eauto.
Qed.

Lemma round_float_Ok (x : float) (z : Z) :
  round_float x = Ok z -> exists q, x = Finite q /\ z = round_half_even q.
Proof. destruct x as [q|]; [|discriminate]. intros [= <-]. eauto. Qed.

Lemma c_to_f_Ok (v : json) (x : float) :
  c_to_f v = Ok x -> exists n, as_num v = Some n /\ c_to_f_num n = Ok x.
Proof.
  unfold c_to_f. destruct (as_num v); [|discriminate]. eauto.
Qed.

Lemma mul_float_Ok (v : json) (c : Q) (x : float) :
  mul_float v c = Ok x -> exists n, as_num v = Some n /\ mul_num n c = Ok x.
Proof.
  unfold mul_float. destruct (as_num v); [|discriminate]. eauto.
Qed.

Lemma mean2_Ok (a b : json) (r : float) :
  mean2 a b = Ok r ->
  exists x y, as_num a = Some x /\ as_num b = Some y /\ mean2_num x y = Ok r.
Proof.
  unfold mean2. destruct (as_num a), (as_num b); try discriminate. eauto.
Qed.

Lemma fmul_Finite (x : float) (c r : Q) :
  fmul x c = Finite r -> exists q, x = Finite q.
Proof. destruct x; [eauto|discriminate]. Qed.

Lemma degrees_to_16_point_of_Ok (v : json) (s : string) :
  degrees_to_16_point_of v = Ok s ->
  exists n, as_num v = Some n /\ s = _degrees_to_16_point (num_Q n).
Proof.
  unfold degrees_to_16_point_of. destruct (as_num v); [|discriminate].
  intros [= <-]. eauto.
Qed.

Lemma number_in_here (v x : json) (k : string) (default : json) :
  py_get v k default = Ok x -> number_in v [] k default = as_num x.
Proof. intros E. unfold number_in. simpl. rewrite E. reflexivity. Qed.

Lemma number_in_1 (v d x : json) (k1 k : string) (default : json) :
  py_get v k1 (JDict []) = Ok d -> py_get d k default = Ok x ->
  number_in v [k1] k default = as_num x.
Proof.
  intros E1 E2. unfold number_in. simpl. rewrite E1. simpl. rewrite E2.
  reflexivity.
Qed.

Lemma number_in_2 (v d1 d2 x : json) (k1 k2 k : string) (default : json) :
  py_get v k1 (JDict []) = Ok d1 -> py_get d1 k2 (JDict []) = Ok d2 ->
  py_get d2 k default = Ok x ->
  number_in v [k1; k2] k default = as_num x.
Proof.
  intros E1 E2 E3. unfold number_in. simpl. rewrite E1. simpl. rewrite E2.
  simpl. rewrite E3. reflexivity.
Qed.

Ltac numbers :=
  repeat match goal with
  | H : int_round _ = Ok _ |- _ =>
      apply int_round_Ok in H; destruct H as (? & ? & ->)
  | H : round_float _ = Ok _ |- _ =>
      apply round_float_Ok in H; destruct H as (? & ? & ->)
  | H : c_to_f _ = Ok _ |- _ =>
      apply c_to_f_Ok in H; destruct H as (? & ? & ?)
  | H : mul_float _ _ = Ok _ |- _ =>
      apply mul_float_Ok in H; destruct H as (? & ? & ?)
  | H : degrees_to_16_point_of _ = Ok _ |- _ =>
      apply degrees_to_16_point_of_Ok in H; destruct H as (? & ? & ->)
  | H1 : as_num ?v = Some ?a, H2 : as_num ?v = Some ?b |- _ =>
      rewrite H1 in H2; injection H2 as <-
  end;
  subst.

Lemma openweather_temp_number (hour_data a a0 : json) :
  py_get hour_data "temp" (JInt 0) = Ok a ->
  match a with
  | JDict _ => py_get a "day" (JInt 0)
  | _ => Ok a
  end = Ok a0 ->
  openweather_temp hour_data = as_num a0.
Proof.
  intros E E0. unfold openweather_temp. rewrite E.
  destruct a; try (injection E0 as ->; reflexivity).
  unfold number_in. cbn [get_path]. rewrite E0. reflexivity.
Qed.

Lemma openweather_hourly_units (hour_data : json) (o : out) :
  _convert_openweather_hourly hour_data = Ok o ->
  exists (c mps deg : num) (f kmph miles : Q),
    openweather_temp hour_data = Some c /\
    number_in hour_data [] "wind_speed" (JInt 0) = Some mps /\
    number_in hour_data [] "wind_deg" (JInt 0) = Some deg /\
    c_to_f_num c = Ok (Finite f) /\
    mul_num mps 3.6 = Ok (Finite kmph) /\
    fmul (Finite kmph) (nearest_double 0.621371) = Finite miles /\
    field "temp_C" o = rounded_num c /\
    field "temp_F" o = rounded f /\
    field "windspeedKmph" o = rounded kmph /\
    field "windspeedMiles" o = rounded miles /\
    field "winddir16Point" o = Some (OStr (_degrees_to_16_point (num_Q deg))).
Proof.
  intros H. unfold _convert_openweather_hourly in H.
  bind_inv H. injection H as <-. numbers.
  match goal with
  | Ht : c_to_f_num ?c = Ok (Finite ?f),
    Hw : mul_num ?m 3.6 = Ok (Finite ?k),
    Hm : fmul (Finite ?k) _ = Finite ?mi,
    Hg : py_get hour_data "wind_deg" _ = Ok ?v,
    Hd : as_num ?v = Some ?d |- _ => exists c, m, d, f, k, mi
  end.
  repeat split; try reflexivity; try assumption.
  - rewrite (openweather_temp_number _ _ _ E E0). assumption.
  - rewrite (number_in_here _ _ _ _ E6). assumption.
  - rewrite (number_in_here _ _ _ _ E14). assumption.
Qed.

Lemma openweather_daily_units (day_data : json) (o : out) :
  _convert_openweather_daily day_data = Ok o ->
  exists (tmax tmin tday : num) (fmax fmin fday : Q),
    number_in day_data ["temp"] "max" (JInt 0) = Some tmax /\
    number_in day_data ["temp"] "min" (JInt 0) = Some tmin /\
    number_in day_data ["temp"] "day" (JInt 0) = Some tday /\
    c_to_f_num tmax = Ok (Finite fmax) /\
    c_to_f_num tmin = Ok (Finite fmin) /\
    c_to_f_num tday = Ok (Finite fday) /\
    field "maxtempC" o = rounded_num tmax /\
    field "maxtempF" o = rounded fmax /\
    field "mintempC" o = rounded_num tmin /\
    field "mintempF" o = rounded fmin /\
    field "avgtempC" o = rounded_num tday /\
    field "avgtempF" o = rounded fday.
Proof.
  intros H. unfold _convert_openweather_daily in H.
  bind_inv H. injection H as <-. numbers.
  match goal with
  | G1 : py_get _ "max" _ = Ok ?v1, N1 : as_num ?v1 = Some ?x,
    F1 : c_to_f_num ?x = Ok (Finite ?fx),
    G2 : py_get _ "min" _ = Ok ?v2, N2 : as_num ?v2 = Some ?y,
    F2 : c_to_f_num ?y = Ok (Finite ?fy),
    G3 : py_get _ "day" _ = Ok ?v3, N3 : as_num ?v3 = Some ?z,
    F3 : c_to_f_num ?z = Ok (Finite ?fz) |- _ =>
      exists x, y, z, fx, fy, fz;
      rewrite (number_in_1 _ _ _ _ _ _ E G1), (number_in_1 _ _ _ _ _ _ E G2),
        (number_in_1 _ _ _ _ _ _ E G3)
  end.
  repeat split; try reflexivity; assumption.
Qed.

Lemma py_get_float_Ok (v : json) (k : string) (default : float) (r : value) :
  py_get_float v k default = Ok r ->
  match entry v k with
  | Some x => r = Entry x
  | None => r = Computed default
  end.
Proof.
  destruct v; try discriminate. cbn.
  destruct (assoc k d); intros [= <-]; reflexivity.
Qed.

Lemma int_round_value_Ok (v : json) (k : string) (default : float) (r : value)
  (z : Z) :
  py_get_float v k default = Ok r -> int_round_value r = Ok z ->
  supplied_or v k default (Some (OStr (str_int z))).
Proof.
  intros G R. apply py_get_float_Ok in G. unfold supplied_or.
  destruct (entry v k); subst r; cbn in R.
  - apply int_round_Ok in R. destruct R as (n & N & ->). eauto.
  - apply round_float_Ok in R. destruct R as (q & -> & ->). eauto.
Qed.

Lemma weatherapi_hourly_units (hour_data : json) (o : out) :
  _convert_weatherapi_hourly hour_data = Ok o ->
  exists (c kph : num) (f miles : float) (wind_dir : json),
    number_in hour_data [] "temp_c" (JInt 0) = Some c /\
    number_in hour_data [] "wind_kph" (JInt 0) = Some kph /\
    c_to_f_num c = Ok f /\
    mul_num kph 0.621371 = Ok miles /\
    py_get hour_data "wind_dir" (JStr "N") = Ok wind_dir /\
    field "temp_C" o = rounded_num c /\
    supplied_or hour_data "temp_f" f (field "temp_F" o) /\
    field "windspeedKmph" o = rounded_num kph /\
    supplied_or hour_data "wind_mph" miles (field "windspeedMiles" o) /\
    field "winddir16Point" o = Some (OVal wind_dir).
Proof.
  intros H. unfold _convert_weatherapi_hourly in H.
  bind_inv H. injection H as <-.
  repeat match goal with
  | G : py_get_float ?v ?k ?d = Ok ?r, R : int_round_value ?r = Ok ?z |- _ =>
      pose proof (int_round_value_Ok v k d r z G R); clear R
  end.
  numbers.
  match goal with
  | G1 : py_get hour_data "temp_c" _ = Ok ?v1, N1 : as_num ?v1 = Some ?x,
    G2 : py_get hour_data "wind_kph" _ = Ok ?v2, N2 : as_num ?v2 = Some ?y,
    F1 : c_to_f_num ?x = Ok ?f, F2 : mul_num ?y _ = Ok ?m,
    G3 : py_get hour_data "wind_dir" _ = Ok ?w |- _ =>
      exists x, y, f, m, w;
      rewrite (number_in_here _ _ _ _ G1), (number_in_here _ _ _ _ G2)
  end.
  repeat split; try reflexivity; assumption.
Qed.

Lemma accuweather_daily_units (day_data : json) (o : out) :
  _convert_accuweather_daily day_data = Ok o ->
  exists (tmax tmin mph : num) (fmax fmin avg favg kmph : Q),
    number_in day_data ["Temperature"; "Maximum"] "Value" (JInt 0) = Some tmax /\
    number_in day_data ["Temperature"; "Minimum"] "Value" (JInt 0) = Some tmin /\
    number_in day_data ["Wind"; "Speed"] "Value" (JInt 0) = Some mph /\
    c_to_f_num tmax = Ok (Finite fmax) /\
    c_to_f_num tmin = Ok (Finite fmin) /\
    mean2_num tmax tmin = Ok (Finite avg) /\
    c_to_f_float (Finite avg) = Finite favg /\
    mul_num mph 1.60934 = Ok (Finite kmph) /\
    field "maxtempC" o = rounded_num tmax /\
    field "maxtempF" o = rounded fmax /\
    field "mintempC" o = rounded_num tmin /\
    field "mintempF" o = rounded fmin /\
    field "avgtempC" o = rounded avg /\
    field "avgtempF" o = rounded favg /\
    field "temp_C" o = rounded avg /\
    field "temp_F" o = rounded favg /\
    field "windspeedKmph" o = rounded kmph /\
    field "windspeedMiles" o = rounded_num mph /\
    field "winddir16Point" o = Some (OStr "N").
Proof.
  intros H. unfold _convert_accuweather_daily in H.
  bind_inv H. injection H as <-.
  match goal with
  | M : mean2 _ _ = Ok _ |- _ =>
      apply mean2_Ok in M; destruct M as (tmax & tmin & Hmax & Hmin & M)
  end.
  numbers.
  match goal with
  | F1 : c_to_f_num tmax = Ok (Finite ?fx), F2 : c_to_f_num tmin = Ok (Finite ?fy),
    M : mean2_num tmax tmin = Ok (Finite ?avg),
    F3 : c_to_f_float (Finite ?avg) = Finite ?favg,
    N : as_num ?w = Some ?mph, K : mul_num ?mph _ = Ok (Finite ?k) |- _ =>
      exists tmax, tmin, mph, fx, fy, avg, favg, k
  end.
  rewrite (number_in_2 _ _ _ _ _ _ _ _ E E3 E4),
    (number_in_2 _ _ _ _ _ _ _ _ E E5 E6),
    (number_in_2 _ _ _ _ _ _ _ _ E1 E2 E20).
  repeat split; try reflexivity; assumption.
Qed.

(** ** Units *)

(** The float arithmetic of the model is that of the code: the mean of 7.3
    and -12.3 is the double just below -2.5, which is shown as -3 degrees
    Celsius, and its conversion is the double 27.5, shown as 28 degrees
    Fahrenheit; a temperature of 2^1023 degrees overflows in the
    conversion and the converter raises. *)
Lemma double_arithmetic_examples :
  text_of (_convert_accuweather_daily accuweather_frosty_day) "avgtempC"
  = Some "-3" /\
  text_of (_convert_accuweather_daily accuweather_frosty_day) "avgtempF"
  = Some "28" /\
  c_to_f (JFloat (2 ^ 1023)) = Ok Infinite /\
  _convert_openweather_hourly openweather_overflowing_hour = Raise /\
  nearest_double 3.6 = (8106479329266893 # 2251799813685248)%Q /\
  nearest_double 0.621371 = (5596812408117665 # 9007199254740992)%Q /\
  nearest_double 1.60934 = (3623911512156217 # 2251799813685248)%Q.
Proof. repeat split; vm_compute; reflexivity. Qed.

(** C6, as stated, fails: the OpenWeatherMap converter does not derive
    miles per hour with 1 mph = 1.60934 km/h but with the factor 0.621371.
    At 27.94 m/s (100.584 km/h) it reports 62 mph, where 1 mph = 1.60934
    km/h gives 62.5002 and thus 63. *)
Lemma openweather_miles_factor_differs :
  text_of (_convert_openweather_hourly openweather_storm_hour) "windspeedKmph"
  = Some "101" /\
  text_of (_convert_openweather_hourly openweather_storm_hour) "windspeedMiles"
  = Some "62" /\
  round_half_even (27.94 * 3.6 / 1.60934) = 63 /\
  round_float (fdiv (fl (nearest_double 27.94 * nearest_double 3.6))
                    (nearest_double 1.60934)) = Ok 63.
Proof. repeat split; vm_compute; reflexivity. Qed.

(** C6 (amended).  The OpenWeatherMap converter turns m/s into km/h with
    the factor 3.6 and km/h into mph with the factor 0.621371; the
    AccuWeather converter turns mph into km/h with the factor 1.60934; the
    WeatherAPI converter takes km/h from the payload and derives mph (factor
    0.621371) and temp_F only when the payload does not supply them.  The
    OpenWeatherMap and AccuWeather converters compute every Fahrenheit
    field on its own by F = C × 9/5 + 32.  All of this is float arithmetic:
    for temperatures and speeds of at most a million it stays within 10^-7
    of the exact value.  The temperature and wind speed fields show the
    float rounded to a nearest integer.  10 m/s gives 36 km/h and 22 mph,
    0 °C gives 32 °F and 100 °C gives 212 °F. *)
Theorem unit_conversions
  (ow_hour ow_day wa_hour aw_day : json) (o1 o2 o3 o4 : out) :
  _convert_openweather_hourly ow_hour = Ok o1 ->
  _convert_openweather_daily ow_day = Ok o2 ->
  _convert_weatherapi_hourly wa_hour = Ok o3 ->
  _convert_accuweather_daily aw_day = Ok o4 ->
  (exists (c mps : num) (f kmph miles : Q),
      openweather_temp ow_hour = Some c /\
      number_in ow_hour [] "wind_speed" (JInt 0) = Some mps /\
      c_to_f_num c = Ok (Finite f) /\
      mul_num mps 3.6 = Ok (Finite kmph) /\
      fmul (Finite kmph) (nearest_double 0.621371) = Finite miles /\
      field "temp_C" o1 = rounded_num c /\
      field "temp_F" o1 = rounded f /\
      field "windspeedKmph" o1 = rounded kmph /\
      field "windspeedMiles" o1 = rounded miles) /\
  (exists (tmax tmin tday : num) (fmax fmin fday : Q),
      number_in ow_day ["temp"] "max" (JInt 0) = Some tmax /\
      number_in ow_day ["temp"] "min" (JInt 0) = Some tmin /\
      number_in ow_day ["temp"] "day" (JInt 0) = Some tday /\
      c_to_f_num tmax = Ok (Finite fmax) /\
      c_to_f_num tmin = Ok (Finite fmin) /\
      c_to_f_num tday = Ok (Finite fday) /\
      field "maxtempC" o2 = rounded_num tmax /\
      field "maxtempF" o2 = rounded fmax /\
      field "mintempC" o2 = rounded_num tmin /\
      field "mintempF" o2 = rounded fmin /\
      field "avgtempC" o2 = rounded_num tday /\
      field "avgtempF" o2 = rounded fday) /\
  (exists (c kph : num) (f miles : float),
      number_in wa_hour [] "temp_c" (JInt 0) = Some c /\
      number_in wa_hour [] "wind_kph" (JInt 0) = Some kph /\
      c_to_f_num c = Ok f /\
      mul_num kph 0.621371 = Ok miles /\
      field "temp_C" o3 = rounded_num c /\
      supplied_or wa_hour "temp_f" f (field "temp_F" o3) /\
      field "windspeedKmph" o3 = rounded_num kph /\
      supplied_or wa_hour "wind_mph" miles (field "windspeedMiles" o3)) /\
  (exists (tmax tmin mph : num) (fmax fmin avg favg kmph : Q),
      number_in aw_day ["Temperature"; "Maximum"] "Value" (JInt 0) = Some tmax /\
      number_in aw_day ["Temperature"; "Minimum"] "Value" (JInt 0) = Some tmin /\
      number_in aw_day ["Wind"; "Speed"] "Value" (JInt 0) = Some mph /\
      c_to_f_num tmax = Ok (Finite fmax) /\
      c_to_f_num tmin = Ok (Finite fmin) /\
      mean2_num tmax tmin = Ok (Finite avg) /\
      c_to_f_float (Finite avg) = Finite favg /\
      mul_num mph 1.60934 = Ok (Finite kmph) /\
      field "maxtempC" o4 = rounded_num tmax /\
      field "maxtempF" o4 = rounded fmax /\
      field "mintempC" o4 = rounded_num tmin /\
      field "mintempF" o4 = rounded fmin /\
      field "avgtempC" o4 = rounded avg /\
      field "avgtempF" o4 = rounded favg /\
      field "windspeedKmph" o4 = rounded kmph /\
      field "windspeedMiles" o4 = rounded_num mph) /\
  (forall n : num,
      (Qabs (num_Q n) <= 1000000)%Q ->
      exists f, c_to_f_num n = Ok (Finite f) /\
                (Qabs (f - fahrenheit (num_Q n)) <= 1 # 1000000000)%Q) /\
  (forall x : Q,
      (Qabs x <= 1000000)%Q ->
      exists f, c_to_f_float (Finite x) = Finite f /\
                (Qabs (f - fahrenheit x) <= 1 # 1000000000)%Q) /\
  (forall x y : num,
      (Qabs (num_Q x) <= 1000000)%Q -> (Qabs (num_Q y) <= 1000000)%Q ->
      exists avg, mean2_num x y = Ok (Finite avg) /\
                  (Qabs (avg - (num_Q x + num_Q y) / 2) <= 1 # 1000000000)%Q) /\
  (forall (n : num) (c : Q),
      In c [3.6; 0.621371; 1.60934]%Q -> (Qabs (num_Q n) <= 1000000)%Q ->
      exists r, mul_num n c = Ok (Finite r) /\
                (Qabs (r - num_Q n * c) <= 1 # 100000000)%Q) /\
  (forall (n : num) (kmph : Q),
      (Qabs (num_Q n) <= 1000000)%Q ->
      mul_num n 3.6 = Ok (Finite kmph) ->
      exists miles,
        fmul (Finite kmph) (nearest_double 0.621371) = Finite miles /\
        (Qabs (miles - num_Q n * 3.6 * 0.621371) <= 1 # 10000000)%Q) /\
  (forall q : Q,
      (q - (1 # 2) <= inject_Z (round_half_even q))%Q /\
      (inject_Z (round_half_even q) <= q + (1 # 2))%Q) /\
  text_of (_convert_openweather_hourly openweather_freezing_hour) "windspeedKmph"
  = Some "36" /\
  text_of (_convert_openweather_hourly openweather_freezing_hour) "windspeedMiles"
  = Some "22" /\
  text_of (_convert_openweather_hourly openweather_freezing_hour) "temp_F"
  = Some "32" /\
  text_of (_convert_openweather_hourly openweather_boiling_hour) "temp_F"
  = Some "212".
Proof.
  intros H1 H2 H3 H4.
  apply openweather_hourly_units in H1.
  destruct H1 as (c & mps & deg & f & kmph & miles & H1).
  apply openweather_daily_units in H2.
  destruct H2 as (tmax & tmin & tday & fmax & fmin & fday & H2).
  apply weatherapi_hourly_units in H3.
  destruct H3 as (c' & kph & f' & miles' & dir & H3).
  apply accuweather_daily_units in H4.
  destruct H4 as (amax & amin & amph & afmax & afmin & avg & favg & akmph & H4).
  split; [exists c, mps, f, kmph, miles; tauto|].
  split; [exists tmax, tmin, tday, fmax, fmin, fday; tauto|].
  split; [exists c', kph, f', miles'; tauto|].
  split; [exists amax, amin, amph, afmax, afmin, avg, favg, akmph; tauto|].
  split; [exact c_to_f_num_close|].
  split; [exact c_to_f_float_close|].
  split; [exact mean2_num_close|].
  split.
  { intros n k Hk Hn. apply mul_num_close; [| |exact Hn];
      cbn in Hk; destruct Hk as [<-|[<-|[<-|[]]]]; vm_compute; discriminate. }
  split.
  { intros n k Hn Hk.
    apply (mul_num_twice_close n 3.6 0.621371 k); try assumption;
      vm_compute; discriminate. }
  split; [exact round_half_even_nearest|].
  repeat split; vm_compute; reflexivity.
Qed.

Lemma unit_conversions_witness :
  exists o1 o2 o3 o4 : out,
    _convert_openweather_hourly openweather_freezing_hour = Ok o1 /\
    _convert_openweather_daily (JDict []) = Ok o2 /\
    _convert_weatherapi_hourly weatherapi_east_wind_hour = Ok o3 /\
    _convert_accuweather_daily accuweather_frosty_day = Ok o4 /\
    exists (c mps : num) (f kmph miles : Q),
      openweather_temp openweather_freezing_hour = Some c /\
      number_in openweather_freezing_hour [] "wind_speed" (JInt 0) = Some mps /\
      c_to_f_num c = Ok (Finite f) /\
      mul_num mps 3.6 = Ok (Finite kmph) /\
      fmul (Finite kmph) (nearest_double 0.621371) = Finite miles /\
      field "temp_C" o1 = rounded_num c /\
      field "temp_F" o1 = rounded f /\
      field "windspeedKmph" o1 = rounded kmph /\
      field "windspeedMiles" o1 = rounded miles.
Proof.
  eexists _, _, _, _.
  do 4 (split; [vm_compute; reflexivity|]).
  refine (proj1 (unit_conversions openweather_freezing_hour (JDict [])
                   weatherapi_east_wind_hour accuweather_frosty_day _ _ _ _
                   _ _ _ _)); vm_compute; reflexivity.
Defined.

(** ** Wind direction *)

(** C7, as stated, fails: the WeatherAPI converter does not compute the
    compass label from the degrees.  It copies [wind_dir] from the payload,
    "N" when there is none: wind from 90 degrees is labelled "N", where the
    conversion gives "E". *)
Lemma weatherapi_label_not_from_degrees :
  text_of (_convert_weatherapi_hourly weatherapi_east_wind_hour) "winddirDegree"
  = Some "90" /\
  (exists o, _convert_weatherapi_hourly weatherapi_east_wind_hour = Ok o /\
             field "winddir16Point" o = Some (OVal (JStr "N"))) /\
  _degrees_to_16_point 90 = "E".
Proof.
  split; [reflexivity|]. split; [|reflexivity].
  eexists. split; [vm_compute; reflexivity|]. reflexivity.
Qed.

(** C7 (amended).  [_degrees_to_16_point] divides the degrees by 22.5,
    rounds to a nearest integer (ties to the even one) and takes that index
    modulo 16 into the list N, NNE, NE, ENE, E, ESE, SE, SSE, S, SSW, SW,
    WSW, W, WNW, NW, NNW; the index is always inside the list.  0 maps to
    "N", 22.5 to "NNE", 360 to "N" and 348.75 to "N".  The OpenWeatherMap
    converter labels the wind direction with this function; the WeatherAPI
    converter copies the label that the payload supplies, "N" when it
    supplies none. *)
Theorem wind_direction_labels
  (degrees : Q) (ow_hour wa_hour : json) (o1 o3 : out) :
  _convert_openweather_hourly ow_hour = Ok o1 ->
  _convert_weatherapi_hourly wa_hour = Ok o3 ->
  let index := round_half_even (degrees / 22.5) mod 16 in
  (0 <= index < 16 /\
   nth_error directions (Z.to_nat index) = Some (_degrees_to_16_point degrees) /\
   (degrees / 22.5 - (1 # 2) <= inject_Z (round_half_even (degrees / 22.5)))%Q /\
   (inject_Z (round_half_even (degrees / 22.5)) <= degrees / 22.5 + (1 # 2))%Q) /\
  directions = ["N"; "NNE"; "NE"; "ENE"; "E"; "ESE"; "SE"; "SSE";
                "S"; "SSW"; "SW"; "WSW"; "W"; "WNW"; "NW"; "NNW"] /\
  (exists deg : num,
      number_in ow_hour [] "wind_deg" (JInt 0) = Some deg /\
      field "winddir16Point" o1
      = Some (OStr (_degrees_to_16_point (num_Q deg)))) /\
  (exists wind_dir : json,
      py_get wa_hour "wind_dir" (JStr "N") = Ok wind_dir /\
      field "winddir16Point" o3 = Some (OVal wind_dir)) /\
  _degrees_to_16_point 0 = "N" /\
  _degrees_to_16_point 22.5 = "NNE" /\
  _degrees_to_16_point 360 = "N" /\
  _degrees_to_16_point 348.75 = "N".
Proof.
  intros H1 H3 index.
  assert (R : 0 <= index < 16) by (apply Z.mod_pos_bound; lia).
  split.
  { split; [exact R|]. split.
    - unfold _degrees_to_16_point, compass_index. fold index.
      apply nth_error_nth'. simpl. lia.
    - apply round_half_even_nearest. }
  split; [reflexivity|].
  apply openweather_hourly_units in H1.
  destruct H1 as (c & mps & deg & f & kmph & miles & H1).
  apply weatherapi_hourly_units in H3.
  destruct H3 as (c' & kph & f' & miles' & dir & H3).
  split; [exists deg; tauto|].
  split; [exists dir; tauto|].
  repeat split; reflexivity.
Qed.

Lemma wind_direction_labels_witness :
  exists o1 o3 : out,
    _convert_openweather_hourly (JDict [("wind_deg", JInt 90)]) = Ok o1 /\
    _convert_weatherapi_hourly weatherapi_east_wind_hour = Ok o3 /\
    exists deg : num,
      number_in (JDict [("wind_deg", JInt 90)]) [] "wind_deg" (JInt 0) = Some deg /\
      field "winddir16Point" o1
      = Some (OStr (_degrees_to_16_point (num_Q deg))).
Proof.
  eexists _, _.
  do 2 (split; [vm_compute; reflexivity|]).
  exact (proj1 (proj2 (proj2
           (wind_direction_labels 90 (JDict [("wind_deg", JInt 90)])
              weatherapi_east_wind_hour _ _ eq_refl eq_refl)))).
Defined.

(** ** Absent results *)








(** ** Daily forecasts *)

Lemma mapM_length {A B : Type} (f : A -> result B) (l : list A) (w : list B) :
  mapM f l = Ok w -> length w = length l.
Proof.
  revert w. induction l as [|a l IH]; intros w H; cbn in H.
  - injection H as <-. reflexivity.
  - destruct (f a); cbn in H; [|discriminate].
    destruct (mapM f l); cbn in H; [|discriminate].
    injection H as <-. cbn. f_equal. apply IH. reflexivity.
Qed.




Lemma openweather_weather (d : list (string * json)) (l : list json)
  (days : Z) (o : out) :
  assoc "daily" d = Some (JList l) ->
  _convert_openweather_to_standard (JDict d) days = Ok (Some o) ->
  exists w, weather_of o = Some w /\
            mapM _convert_openweather_daily (slice_to l days) = Ok w.
Proof.
  intros D H. unfold _convert_openweather_to_standard in H.
  destruct (falsy (JDict d)); [discriminate H|].
  cbn [py_in bind] in H. rewrite D in H.
  destruct (assoc "current" d) as [current|] eqn:C; cbn in H; [|discriminate H].
  repeat (rewrite ?C, ?D in H; cbn [bind py_slice_to py_in py_item] in H).
  bind_inv H. injection H as <-.
  eexists. split; [reflexivity|]. reflexivity.
Qed.

Lemma weatherapi_weather (d f : list (string * json)) (l : list json)
  (days : Z) (o : out) :
  assoc "forecast" d = Some (JDict f) ->
  assoc "forecastday" f = Some (JList l) ->
  _convert_weatherapi_to_standard (JDict d) days = Ok (Some o) ->
  exists w, weather_of o = Some w /\
            mapM _convert_weatherapi_daily (slice_to l days) = Ok w.
Proof.
  intros F D H. unfold _convert_weatherapi_to_standard in H.
  destruct (falsy (JDict d)); [discriminate H|].
  cbn [py_in bind] in H. rewrite F in H.
  destruct (assoc "current" d) as [current|] eqn:C; cbn in H; [|discriminate H].
  destruct (assoc "location" d) as [location|] eqn:L; cbn in H; [|discriminate H].
  repeat (rewrite ?C, ?L, ?F, ?D in H; cbn [bind py_slice_to py_in py_item] in H).
  bind_inv H. injection H as <-.
  eexists. split; [reflexivity|]. reflexivity.
Qed.

Lemma accuweather_weather (l : list json) (days : Z) (o : out) :
  _convert_accuweather_to_standard (JList l) days = Ok (Some o) ->
  exists w, weather_of o = Some w /\
            mapM _convert_accuweather_daily (slice_to l days) = Ok w.
Proof.
  intros H. unfold _convert_accuweather_to_standard in H.
  destruct l as [|first l]; [discriminate H|].
  cbn [falsy truthy negb is_list py_len bind py_slice_to] in H.
  destruct (Z.of_nat (length (first :: l)) =? 0); [discriminate H|].
  bind_inv H. injection H as <-.
  eexists. split; [reflexivity|]. reflexivity.
Qed.

Lemma to_standard_weather (a : forecast_adapter) (data : json)
  (l : list json) (days : Z) (o : out) :
  daily_forecasts a data = Some l ->
  to_standard a data days = Ok (Some o) ->
  exists w, weather_of o = Some w /\
            mapM (daily_converter a) (slice_to l days) = Ok w.
Proof.
  intros D H. destruct a; cbn in D, H |- *.
  - destruct data as [| | | | | |d]; try discriminate D.
    destruct (assoc "daily" d) as [[| | | | |l'|]|] eqn:E; try discriminate D.
    injection D as ->. eapply openweather_weather; eassumption.
  - destruct data as [| | | | | |d]; try discriminate D.
    destruct (assoc "forecast" d) as [[| | | | | |f]|] eqn:F; try discriminate D.
    destruct (assoc "forecastday" f) as [[| | | | |l'|]|] eqn:E;
      try discriminate D.
    injection D as ->. eapply weatherapi_weather; eassumption.
  - destruct data as [| | | | |l'|]; try discriminate D.
    injection D as ->. apply accuweather_weather. assumption.
Qed.

(** The converters return a result whenever the current conditions and the
    forecasts they keep convert. *)
Lemma openweather_returns (d : list (string * json)) (current : json)
  (l : list json) (days : Z) (c : out) (w : list out) :
  assoc "current" d = Some current ->
  assoc "daily" d = Some (JList l) ->
  _convert_openweather_hourly current = Ok c ->
  mapM _convert_openweather_daily (slice_to l days) = Ok w ->
  exists o, _convert_openweather_to_standard (JDict d) days = Ok (Some o) /\
            weather_of o = Some w /\ current_condition_of o = Some c.
Proof.
  intros C D Hc Hw. unfold _convert_openweather_to_standard.
  assert (F : falsy (JDict d) = false) by (destruct d; [discriminate C|reflexivity]).
  rewrite F. cbn [py_in py_item py_get bind]. rewrite C, D. cbn [negb bind].
  rewrite Hc. cbn [bind py_slice_to]. rewrite Hw. cbn [bind].
  eexists. split; [reflexivity|]. split; reflexivity.
Qed.

Lemma weatherapi_returns (d f loc : list (string * json)) (current : json)
  (l : list json) (days : Z) (c : out) (w : list out) :
  assoc "current" d = Some current ->
  assoc "location" d = Some (JDict loc) ->
  assoc "forecast" d = Some (JDict f) ->
  assoc "forecastday" f = Some (JList l) ->
  _convert_weatherapi_hourly current = Ok c ->
  mapM _convert_weatherapi_daily (slice_to l days) = Ok w ->
  exists o, _convert_weatherapi_to_standard (JDict d) days = Ok (Some o) /\
            weather_of o = Some w /\ current_condition_of o = Some c.
Proof.
  intros C L Fo D Hc Hw. unfold _convert_weatherapi_to_standard.
  assert (F : falsy (JDict d) = false) by (destruct d; [discriminate C|reflexivity]).
  rewrite F. cbn [py_in py_item py_get bind]. rewrite C, L, Fo.
  cbn [negb bind py_in py_item]. rewrite Hc, D. cbn [bind py_slice_to].
  rewrite Hw. cbn [bind py_get].
  eexists. split; [reflexivity|]. split; reflexivity.
Qed.

Lemma accuweather_returns (first : json) (l : list json) (days : Z)
  (c : out) (w : list out) :
  _convert_accuweather_daily first = Ok c ->
  mapM _convert_accuweather_daily (slice_to (first :: l) days) = Ok w ->
  exists o, _convert_accuweather_to_standard (JList (first :: l)) days
            = Ok (Some o) /\
            weather_of o = Some w.
Proof.
  intros Hc Hw. unfold _convert_accuweather_to_standard.
  cbn [falsy truthy negb is_list py_len bind py_slice_to py_item0].
  destruct (Z.of_nat (length (first :: l)) =? 0) eqn:Z0;
    [apply Z.eqb_eq in Z0; cbn in Z0; lia|].
  rewrite Hw. cbn [bind]. rewrite Hc. cbn [bind].
  eexists. split; reflexivity.
Qed.




(** ** Selection *)

Lemma available_sources_spec (m : gmap string DataSource) (s : DataSource) :
  In s (available_sources m) <->
  (exists k, m !! k = Some s) /\ is_available s = true.
Proof.
  unfold available_sources. rewrite filter_In.
  rewrite <- list_elem_of_In, list_elem_of_fmap.
  split.
  - intros [([k s'] & -> & Hin) Ha]. split; [|exact Ha].
    exists k. apply elem_of_map_to_list in Hin. exact Hin.
  - intros [[k Hk] Ha]. split; [|exact Ha].
    exists (k, s). split; [reflexivity|]. apply elem_of_map_to_list. exact Hk.
Qed.

Lemma is_available_spec (s : DataSource) :
  is_available s = true <-> enabled s = true /\ current_usage s < rate_limit s.
Proof.
  unfold is_available. rewrite andb_true_iff, Z.ltb_lt. reflexivity.
Qed.

Lemma random_choice_In {A : Type} (rnd : nat) (l : list A) (x : A) :
  random_choice rnd l = Some x -> In x l.
Proof. unfold random_choice. apply nth_error_In. Qed.

Lemma random_choice_Some {A : Type} (rnd : nat) (l : list A) :
  l <> [] -> exists x, random_choice rnd l = Some x.
Proof.
  intros Hl. unfold random_choice.
  destruct (nth_error l (rnd mod length l)) eqn:E; [eauto|].
  apply nth_error_None in E.
  assert (length l <> 0%nat) by (destruct l; [congruence|discriminate]).
  pose proof (Nat.mod_upper_bound rnd (length l)). lia.
Qed.

Lemma random_choice_reaches {A : Type} (l : list A) (x : A) :
  In x l -> exists rnd, random_choice rnd l = Some x.
Proof.
  intros Hin. apply In_nth_error in Hin. destruct Hin as [i Hi].
  exists i. unfold random_choice.
  assert (i < length l)%nat by (apply nth_error_Some; congruence).
  rewrite Nat.mod_small by assumption. exact Hi.
Qed.

Lemma get_available_source_choice (rnd : nat) (m : gmap string DataSource) :
  get_available_source rnd m
  = match available_sources m with
    | [] => None
    | _ :: _ => random_choice rnd (available_sources m)
    end.
Proof.
  unfold get_available_source. destruct (available_sources m); reflexivity.
Qed.

Lemma get_available_source_Some (rnd : nat) (m : gmap string DataSource)
  (s : DataSource) :
  get_available_source rnd m = Some s ->
  (exists k, m !! k = Some s) /\ enabled s = true /\
  current_usage s < rate_limit s.
Proof.
  rewrite get_available_source_choice. intros H.
  assert (Hin : In s (available_sources m)).
  { destruct (available_sources m) eqn:E; [discriminate H|].
    apply (random_choice_In rnd). exact H. }
  apply available_sources_spec in Hin. destruct Hin as [Hk Ha].
  apply is_available_spec in Ha. tauto.
Qed.

(** C2.  [get_available_source] returns no source if and only if no
    registered source is both enabled and under its quota; otherwise it
    returns a registered source that is enabled and under its quota, and
    every such source is returned for some random draw. *)
Theorem get_available_source_correct (rnd : nat) (m : gmap string DataSource) :
  (get_available_source rnd m = None <->
   forall k s, m !! k = Some s ->
               ~ (enabled s = true /\ current_usage s < rate_limit s)) /\
  (forall s, get_available_source rnd m = Some s ->
             (exists k, m !! k = Some s) /\ enabled s = true /\
             current_usage s < rate_limit s) /\
  (forall k s, m !! k = Some s -> enabled s = true ->
               current_usage s < rate_limit s ->
               exists rnd', get_available_source rnd' m = Some s).
Proof.
  split; [|split].
  - rewrite get_available_source_choice. split.
    + intros H k s Hk Ha.
      assert (Hin : In s (available_sources m)).
      { apply available_sources_spec. split; [eauto|].
        apply is_available_spec. exact Ha. }
      destruct (available_sources m) eqn:E; [exact Hin|].
      destruct (random_choice_Some rnd (d :: l)) as [x Hx]; [discriminate|].
      congruence.
    + intros H. destruct (available_sources m) as [|s l] eqn:E; [reflexivity|].
      exfalso.
      assert (Hin : In s (available_sources m)) by (rewrite E; left; reflexivity).
      apply available_sources_spec in Hin. destruct Hin as [[k Hk] Ha].
      apply is_available_spec in Ha. exact (H k s Hk Ha).
  - apply get_available_source_Some.
  - intros k s Hk He Hu.
    assert (Hin : In s (available_sources m)).
    { apply available_sources_spec. split; [eauto|].
      apply is_available_spec. split; assumption. }
    destruct (random_choice_reaches _ _ Hin) as [rnd' Hr].
    exists rnd'. rewrite get_available_source_choice.
    destruct (available_sources m); [destruct Hin|exact Hr].
Qed.

(** ** Unknown names *)

(** C10.  [disable_source] and [mark_source_used] with a name that is not
    registered leave the manager as it is: no source changes its enabled
    flag, its usage counter or its last-reset time, and no re-enable thread
    is started. *)
Theorem unknown_source_is_ignored (source_name : string) (rt : runtime) :
  sources rt !! source_name = None ->
  disable_source source_name rt = rt /\
  mark_source_used source_name rt = rt /\
  sources (disable_source source_name rt) = sources rt /\
  sleepers (disable_source source_name rt) = sleepers rt /\
  sources (mark_source_used source_name rt) = sources rt.
Proof.
  intros H. unfold disable_source, mark_source_used. rewrite H.
  repeat split; reflexivity.
Qed.

Lemma unknown_source_is_ignored_witness :
  sources (init no_keys 0) !! "accuweather" = None /\
  disable_source "accuweather" (init no_keys 0) = init no_keys 0 /\
  mark_source_used "accuweather" (init no_keys 0) = init no_keys 0 /\
  sources (disable_source "accuweather" (init no_keys 0))
  = sources (init no_keys 0) /\
  sleepers (disable_source "accuweather" (init no_keys 0))
  = sleepers (init no_keys 0) /\
  sources (mark_source_used "accuweather" (init no_keys 0))
  = sources (init no_keys 0).
Proof.
  split; [reflexivity|].
  apply (unknown_source_is_ignored "accuweather" (init no_keys 0)).
  reflexivity.
Defined.

(** ** The registry after start-up *)

Lemma well_keyed_insert (m : gmap string DataSource) (k : string)
  (s : DataSource) :
  well_keyed m -> name s = k -> well_keyed (<[k := s]> m).
Proof.
  intros W N k' s' H. destruct (decide (k' = k)) as [->|Hne].
  - rewrite lookup_insert_eq in H. congruence.
  - rewrite lookup_insert_ne in H by congruence. apply W. exact H.
Qed.

Lemma quota_ok_insert (m : gmap string DataSource) (k : string)
  (s : DataSource) :
  quota_ok m -> 0 <= current_usage s <= rate_limit s ->
  quota_ok (<[k := s]> m).
Proof.
  intros Q N k' s' H. destruct (decide (k' = k)) as [->|Hne].
  - rewrite lookup_insert_eq in H. injection H as <-. exact N.
  - rewrite lookup_insert_ne in H by congruence. apply (Q k'). exact H.
Qed.

Lemma _load_sources_well_keyed (environ : string -> option string) :
  well_keyed (_load_sources environ).
Proof.
  unfold _load_sources.
  repeat match goal with
  | |- context [if ?b then _ else _] => destruct b
  end;
  repeat (apply well_keyed_insert; [|reflexivity]);
  intros k s H; rewrite lookup_empty in H; discriminate.
Qed.

Lemma _load_sources_quota_ok (environ : string -> option string) :
  quota_ok (_load_sources environ).
Proof.
  unfold _load_sources.
  repeat match goal with
  | |- context [if ?b then _ else _] => destruct b
  end;
  repeat (apply quota_ok_insert; [|cbn; lia]);
  intros k s H; rewrite lookup_empty in H; discriminate.
Qed.

Lemma load_sources_lookup (environ : string -> option string) (k : string)
  (s : DataSource) :
  _load_sources environ !! k = Some s ->
  (k = "metno" /\
   s = mkDataSource "metno" METNO "https://api.met.no" None 5000 0 0 true) \/
  (k = "openweathermap" /\
   present (environ "OPENWEATHERMAP_API_KEY") = true /\
   s = mkDataSource "openweathermap" OPENWEATHERMAP
         "https://api.openweathermap.org/data/2.5"
         (environ "OPENWEATHERMAP_API_KEY") 1000 0 0 true) \/
  (k = "weatherapi" /\
   present (environ "WEATHERAPI_KEY") = true /\
   s = mkDataSource "weatherapi" WEATHERAPI "https://api.weatherapi.com/v1"
         (environ "WEATHERAPI_KEY") 1000000 0 0 true) \/
  (k = "accuweather" /\
   present (environ "ACCUWEATHER_API_KEY") = true /\
   s = mkDataSource "accuweather" ACCUWEATHER
         "https://dataservice.accuweather.com"
         (environ "ACCUWEATHER_API_KEY") 50 0 0 true).
Proof.
  unfold _load_sources. intros H.
  destruct (present (environ "OPENWEATHERMAP_API_KEY")) eqn:P1;
  destruct (present (environ "WEATHERAPI_KEY")) eqn:P2;
  destruct (present (environ "ACCUWEATHER_API_KEY")) eqn:P3;
  repeat match type of H with
  | <[_ := _]> _ !! _ = Some _ =>
      apply lookup_insert_Some in H; destruct H as [[<- <-]|[_ H]]
  end;
  try (rewrite lookup_empty in H; discriminate H);
  auto 10.
Qed.

(** ** One call of [fetch_weather_data] *)

Lemma openweather_result_truthy (data : json) (days : Z) (o : out) :
  _convert_openweather_to_standard data days = Ok (Some o) ->
  out_truthy o = true.
Proof.
  unfold _convert_openweather_to_standard. intros H.
  destruct (falsy data); [discriminate H|].
  destruct (py_in "current" data) as [[|]|]; cbn in H; try discriminate H.
  bind_inv H. injection H as <-. reflexivity.
Qed.

Lemma weatherapi_result_truthy (data : json) (days : Z) (o : out) :
  _convert_weatherapi_to_standard data days = Ok (Some o) ->
  out_truthy o = true.
Proof.
  unfold _convert_weatherapi_to_standard. intros H.
  destruct (falsy data); [discriminate H|].
  destruct (py_in "current" data) as [[|]|]; cbn in H; try discriminate H.
  destruct (py_in "location" data) as [[|]|]; cbn in H; try discriminate H.
  bind_inv H. injection H as <-. reflexivity.
Qed.

Lemma accuweather_result_truthy (data : json) (days : Z) (o : out) :
  _convert_accuweather_to_standard data days = Ok (Some o) ->
  out_truthy o = true.
Proof.
  unfold _convert_accuweather_to_standard. intros H.
  destruct (falsy data); [discriminate H|].
  destruct (negb (is_list data)); [discriminate H|].
  bind_inv H.
  destruct (a =? 0); [discriminate H|].
  bind_inv H. injection H as <-. reflexivity.
Qed.

Lemma metno_result_truthy (data : json) (days : Z) (o : out) :
  _convert_metno_to_standard data days = Ok o -> out_truthy o = true.
Proof.
  unfold _convert_metno_to_standard. intros H.
  bind_inv H. injection H as <-. reflexivity.
Qed.

(** The outcome of a traced computation is that of its steps in turn. *)
Lemma outcome_tbind {A B : Type} (c : traced A) (k : A -> traced B) :
  outcome (tbind c k) = bind (outcome c) (fun a => outcome (k a)).
Proof. unfold tbind. destruct (outcome c); reflexivity. Qed.

Lemma sent_tbind {A B : Type} (c : traced A) (k : A -> traced B) :
  sent (tbind c k)
  = (sent c ++ match outcome c with
               | Ok a => sent (k a)
               | Raise => []
               end)%list.
Proof.
  unfold tbind. destruct (outcome c); cbn; [reflexivity|].
  rewrite app_nil_r. reflexivity.
Qed.

Ltac trace_inv H :=
  repeat match type of H with
  | outcome (tbind ?c _) = Ok _ =>
      rewrite outcome_tbind in H;
      let E := fresh "E" in
      destruct (outcome c) eqn:E; cbn [bind] in H; [|discriminate H]
  end;
  cbn [outcome lift requests_get snd] in *.

(** Whatever a fetch returns is a non-empty dict. *)
Lemma fetched_data_truthy (get : requests) (m : gmap string DataSource)
  (source : DataSource) (location : string) (days : Z) (data : out) :
  outcome (_fetch_from_source get m source location days) = Ok (Some data) ->
  out_truthy data = true.
Proof.
  unfold _fetch_from_source. destruct (type source).
  - unfold _fetch_metno. intros H. trace_inv H.
    destruct (status_code a1 =? 200); [|discriminate H].
    bind_inv H. injection H as <-. eapply metno_result_truthy; eassumption.
  - unfold _fetch_openweathermap. intros H. trace_inv H.
    destruct (no_key a); [discriminate H|].
    destruct (split_comma location) as [|lat [|lng [|]]]; try discriminate H.
    trace_inv H.
    destruct (status_code a2 =? 200); [|discriminate H].
    bind_inv H. eapply openweather_result_truthy; eassumption.
  - unfold _fetch_weatherapi. intros H. trace_inv H.
    destruct (no_key a); [discriminate H|].
    trace_inv H.
    destruct (status_code a2 =? 200); [|discriminate H].
    bind_inv H. eapply weatherapi_result_truthy; eassumption.
  - unfold _fetch_accuweather. intros H. trace_inv H.
    destruct (no_key a); [discriminate H|].
    trace_inv H.
    destruct (negb (status_code a2 =? 200)); [discriminate H|].
    trace_inv H.
    destruct (status_code a7 =? 200); [|discriminate H].
    bind_inv H. eapply accuweather_result_truthy; eassumption.
Qed.

Lemma selected_is_registered (rnd : nat) (m : gmap string DataSource)
  (source : DataSource) :
  well_keyed m -> get_available_source rnd m = Some source ->
  m !! name source = Some source.
Proof.
  intros W H. apply get_available_source_Some in H.
  destruct H as [[k Hk] _]. rewrite (W k source Hk). exact Hk.
Qed.

Lemma well_keyed_disable (source_name : string) (rt : runtime) :
  well_keyed (sources rt) ->
  well_keyed (sources (disable_source source_name rt)).
Proof.
  intros W. unfold disable_source.
  destruct (sources rt !! source_name) as [s|] eqn:E; [|exact W].
  cbn. apply well_keyed_insert; [exact W|]. exact (W _ _ E).
Qed.

Lemma well_keyed_mark (source_name : string) (rt : runtime) :
  well_keyed (sources rt) ->
  well_keyed (sources (mark_source_used source_name rt)).
Proof.
  intros W. unfold mark_source_used.
  destruct (sources rt !! source_name) as [s|] eqn:E; [|exact W].
  cbn. apply well_keyed_insert; [exact W|]. exact (W _ _ E).
Qed.

Lemma well_keyed_reenable (source_name : string) (m : gmap string DataSource) :
  well_keyed m -> well_keyed (reenable source_name m).
Proof.
  intros W. unfold reenable.
  destruct (m !! source_name) as [s|] eqn:E; [|exact W].
  apply well_keyed_insert; [exact W|]. exact (W _ _ E).
Qed.

Lemma well_keyed_reset (t : Q) (m : gmap string DataSource) :
  well_keyed m -> well_keyed (reset_usage t m).
Proof.
  intros W k s H. unfold reset_usage in H. rewrite lookup_fmap in H.
  destruct (m !! k) as [s0|] eqn:E; [|discriminate H].
  injection H as <-. rewrite <- (W k s0 E).
  unfold reset_source. destruct (Qle_bool _ _); reflexivity.
Qed.

Lemma fetch_after_cases (get : requests) (rnd : nat) (location : string)
  (days : Z) (rt : runtime) :
  let rt' := after (fetch_weather_data get rnd location days rt) in
  rt' = rt \/
  (exists n, rt' = mark_source_used n rt) \/
  (exists n, rt' = disable_source n rt).
Proof.
  unfold fetch_weather_data.
  destruct (get_available_source rnd (sources rt)) as [source|]; [|auto].
  cbn zeta.
  destruct (outcome (_fetch_from_source get (sources rt) source location days))
    as [[data|]|]; [destruct (out_truthy data)| |]; cbn; eauto.
Qed.

Lemma well_keyed_step (e : event) (rt rt' : runtime) :
  well_keyed (sources rt) -> step e rt = Some rt' -> well_keyed (sources rt').
Proof.
  intros W H. destruct e as [dt|i| |m|m|get rnd location days]; cbn in H.
  - destruct (Qle_bool 0 dt); [|discriminate H]. injection H as <-. exact W.
  - destruct (nth_error (sleepers rt) i) as [[m due]|]; [|discriminate H].
    destruct (Qle_bool due (clock rt)); [|discriminate H].
    injection H as <-. cbn. apply well_keyed_reenable. exact W.
  - injection H as <-. cbn. apply well_keyed_reset. exact W.
  - injection H as <-. apply well_keyed_mark. exact W.
  - injection H as <-. apply well_keyed_disable. exact W.
  - injection H as <-.
    destruct (fetch_after_cases get rnd location days rt) as [->|[[m ->]|[m ->]]].
    + exact W.
    + apply well_keyed_mark. exact W.
    + apply well_keyed_disable. exact W.
Qed.

(** A running manager stores every source under its own name. *)
Lemma well_keyed_run (es : list event) :
  forall rt rt', well_keyed (sources rt) -> run es rt = Some rt' ->
                 well_keyed (sources rt').
Proof.
  induction es as [|e es IH]; intros rt rt' W H; cbn in H.
  - injection H as <-. exact W.
  - destruct (step e rt) as [rt1|] eqn:S; [|discriminate H].
    apply (IH rt1); [|exact H]. apply (well_keyed_step e rt); assumption.
Qed.

Lemma static_mark (source_name k : string) (rt : runtime) :
  static <$> sources (mark_source_used source_name rt) !! k
  = static <$> sources rt !! k.
Proof.
  unfold mark_source_used.
  destruct (sources rt !! source_name) as [s|] eqn:E; [|reflexivity].
  cbn. destruct (decide (k = source_name)) as [->|Hne].
  - rewrite lookup_insert_eq, E. reflexivity.
  - rewrite lookup_insert_ne by congruence. reflexivity.
Qed.

Lemma static_disable (source_name k : string) (rt : runtime) :
  static <$> sources (disable_source source_name rt) !! k
  = static <$> sources rt !! k.
Proof.
  unfold disable_source.
  destruct (sources rt !! source_name) as [s|] eqn:E; [|reflexivity].
  cbn. destruct (decide (k = source_name)) as [->|Hne].
  - rewrite lookup_insert_eq, E. reflexivity.
  - rewrite lookup_insert_ne by congruence. reflexivity.
Qed.

Lemma static_reenable (source_name k : string) (m : gmap string DataSource) :
  static <$> reenable source_name m !! k = static <$> m !! k.
Proof.
  unfold reenable.
  destruct (m !! source_name) as [s|] eqn:E; [|reflexivity].
  destruct (decide (k = source_name)) as [->|Hne].
  - rewrite lookup_insert_eq, E. reflexivity.
  - rewrite lookup_insert_ne by congruence. reflexivity.
Qed.

Lemma static_reset (t : Q) (k : string) (m : gmap string DataSource) :
  static <$> reset_usage t m !! k = static <$> m !! k.
Proof.
  unfold reset_usage. rewrite lookup_fmap.
  destruct (m !! k) as [s|]; [|reflexivity]. cbn.
  unfold reset_source. destruct (Qle_bool _ _); reflexivity.
Qed.

Lemma static_step (e : event) (rt rt' : runtime) (k : string) :
  step e rt = Some rt' ->
  static <$> sources rt' !! k = static <$> sources rt !! k.
Proof.
  intros H. destruct e as [dt|i| |m|m|get rnd location days]; cbn in H.
  - destruct (Qle_bool 0 dt); [|discriminate H]. injection H as <-. reflexivity.
  - destruct (nth_error (sleepers rt) i) as [[m due]|]; [|discriminate H].
    destruct (Qle_bool due (clock rt)); [|discriminate H].
    injection H as <-. cbn. apply static_reenable.
  - injection H as <-. cbn. apply static_reset.
  - injection H as <-. apply static_mark.
  - injection H as <-. apply static_disable.
  - injection H as <-.
    destruct (fetch_after_cases get rnd location days rt) as [->|[[m ->]|[m ->]]].
    + reflexivity.
    + apply static_mark.
    + apply static_disable.
Qed.

Lemma static_run (es : list event) :
  forall rt rt' k, run es rt = Some rt' ->
                   static <$> sources rt' !! k = static <$> sources rt !! k.
Proof.
  induction es as [|e es IH]; intros rt rt' k H; cbn in H.
  - injection H as <-. reflexivity.
  - destruct (step e rt) as [rt1|] eqn:S; [|discriminate H].
    rewrite (IH rt1 rt' k H). apply (static_step e). exact S.
Qed.

(** A source taken from a running manager is registered under the fixed
    name that the fetcher for its type looks up, and has a key if its type
    needs one. *)
Lemma running_source_configured (environ : string -> option string) (t0 : Q)
  (es : list event) (rt : runtime) (k : string) (s : DataSource) :
  run es (init environ t0) = Some rt ->
  sources rt !! k = Some s ->
  name s = k /\
  match type s with
  | METNO => k = "metno"
  | OPENWEATHERMAP => k = "openweathermap" /\ present (api_key s) = true
  | WEATHERAPI => k = "weatherapi" /\ present (api_key s) = true
  | ACCUWEATHER => k = "accuweather" /\ present (api_key s) = true
  end.
Proof.
  intros H Hs.
  pose proof (static_run es _ _ k H) as S. cbn in S. rewrite Hs in S.
  destruct (_load_sources environ !! k) as [s0|] eqn:L; [|discriminate S].
  cbn in S. injection S as En Et _ Ek _.
  rewrite En, Et, Ek.
  destruct (load_sources_lookup environ k s0 L)
    as [[-> ->]|[[-> [P ->]]|[[-> [P ->]]|[-> [P ->]]]]]; cbn; auto.
Qed.

Lemma starts_with_app (p s : string) : starts_with p (p +:+ s) = true.
Proof.
  induction p as [|c p IH]; [reflexivity|].
  change (String c p +:+ s) with (String c (p +:+ s)).
  cbn [starts_with]. rewrite Ascii.eqb_refl. exact IH.
Qed.

(** The configuration of a registered source is the one that
    [_load_sources] gave it. *)
Lemma running_source_loaded (environ : string -> option string) (t0 : Q)
  (es : list event) (rt : runtime) (k : string) (s : DataSource) :
  run es (init environ t0) = Some rt ->
  sources rt !! k = Some s ->
  exists s0, _load_sources environ !! k = Some s0 /\ static s = static s0.
Proof.
  intros H Hs.
  pose proof (static_run es _ _ k H) as S. cbn in S. rewrite Hs in S.
  destruct (_load_sources environ !! k) as [s0|] eqn:L; [|discriminate S].
  cbn in S. injection S as En Et Eb Ek Er.
  exists s0. split; [reflexivity|]. unfold static. congruence.
Qed.

(** The requests that a fetch sends: at most two, all of them to the API
    of the source that is fetched from, and none of them to the API of
    another registered source. *)
Lemma fetch_requests (environ : string -> option string) (t0 : Q)
  (es : list event) (rt : runtime) (get : requests) (k : string)
  (source : DataSource) (location : string) (days : Z) :
  run es (init environ t0) = Some rt ->
  sources rt !! k = Some source ->
  let fetch := _fetch_from_source get (sources rt) source location days in
  (length (sent fetch) <= 2)%nat /\
  (forall q, In q (sent fetch) -> goes_to source q) /\
  (forall q k' other, In q (sent fetch) -> sources rt !! k' = Some other ->
                      k' <> k -> ~ goes_to other q).
Proof.
  intros H Hs fetch.
  destruct (running_source_loaded _ _ _ _ _ _ H Hs) as (s0 & L & St).
  assert (O : forall k' other, sources rt !! k' = Some other -> k' <> k ->
                base_url other <> base_url source /\
                In (base_url other)
                   ["https://api.met.no";
                    "https://api.openweathermap.org/data/2.5";
                    "https://api.weatherapi.com/v1";
                    "https://dataservice.accuweather.com"]).
  { intros k' other Ho Hne.
    destruct (running_source_loaded _ _ _ _ _ _ H Ho) as (o0 & Lo & So).
    injection St as _ _ Eb _ _. injection So as _ _ Ebo _ _.
    rewrite Eb, Ebo.
    destruct (load_sources_lookup environ k s0 L)
      as [[-> ->]|[[-> [_ ->]]|[[-> [_ ->]]|[-> [_ ->]]]]];
    destruct (load_sources_lookup environ k' o0 Lo)
      as [[-> ->]|[[-> [_ ->]]|[[-> [_ ->]]|[-> [_ ->]]]]];
    try congruence; cbn; split; try discriminate; tauto. }
  assert (G : forall rest q,
             url_head (url q) = base_url source +:+ rest ->
             goes_to source q /\
             forall k' other, sources rt !! k' = Some other -> k' <> k ->
                              ~ goes_to other q).
  { intros rest q Hq. split.
    - unfold goes_to. rewrite Hq. apply starts_with_app.
    - intros k' other Ho Hne. destruct (O k' other Ho Hne) as [D I].
      unfold goes_to. rewrite Hq.
      injection St as _ _ Eb _ _. rewrite Eb in D |- *.
      destruct (load_sources_lookup environ k s0 L)
        as [[-> ->]|[[-> [_ ->]]|[[-> [_ ->]]|[-> [_ ->]]]]];
      cbn in I, D |- *;
      destruct I as [I|[I|[I|[I|[]]]]]; rewrite <- I in D |- *;
      try congruence;
      intros X; vm_compute in X; discriminate X. }
  assert (R : forall l,
             (length l <= 2)%nat ->
             (forall q, In q l -> exists rest,
                          url_head (url q) = base_url source +:+ rest) ->
             (length l <= 2)%nat /\
             (forall q, In q l -> goes_to source q) /\
             (forall q k' other, In q l -> sources rt !! k' = Some other ->
                                 k' <> k -> ~ goes_to other q)).
  { intros l Hl Hq. split; [exact Hl|]. split.
    - intros q I. destruct (Hq q I) as [rest E]. apply (G rest q E).
    - intros q k' other I. destruct (Hq q I) as [rest E]. apply (G rest q E). }
  apply R; subst fetch; unfold _fetch_from_source;
    injection St as En Et Eb Ek Er;
    destruct (load_sources_lookup environ k s0 L)
      as [[-> ->]|[[-> [P ->]]|[[-> [P ->]]|[-> [P ->]]]]];
    cbn in En, Et, Eb, Ek, Er; rewrite Et;
    unfold _fetch_metno, _fetch_openweathermap, _fetch_weatherapi,
      _fetch_accuweather, source_item, no_key;
    rewrite ?Hs, ?Ek, ?P, ?sent_tbind;
    repeat first
      [ progress cbn [sent outcome lift requests_get tbind fst snd negb
                      app length In url url_head]
      | progress rewrite ?sent_tbind, ?Hs, ?Ek, ?P
      | match goal with
        | |- context [match ?x with _ => _ end] => destruct x
        end ];
    try lia;
    intros q I;
    repeat (destruct I as [<-|I]);
    try destruct I;
    cbn [url url_head]; rewrite ?Eb;
    try (eexists; reflexivity).
  all: eexists; cbn; reflexivity.
Qed.

(** What one call of [fetch_weather_data] does, in a registry that stores
    every source under its own name. *)
Lemma fetch_outcome_well_keyed (get : requests) (rnd : nat)
  (location : string) (days : Z) (rt : runtime) :
  well_keyed (sources rt) ->
  let r := fetch_weather_data get rnd location days rt in
  (get_available_source rnd (sources rt) = None ->
   returned r = None /\ after r = rt /\ requested r = []) /\
  (forall source,
      get_available_source rnd (sources rt) = Some source ->
      let fetch := _fetch_from_source get (sources rt) source location days in
      requested r = sent fetch /\
      (forall data,
          outcome fetch = Ok (Some data) ->
          out_truthy data = true /\
          returned r = Some data /\
          after r = mark_source_used (name source) rt /\
          (exists s',
              sources (after r) !! name source = Some s' /\
              current_usage s' = current_usage source + 1 /\
              enabled s' = enabled source /\
              last_reset s' = last_reset source /\
              static s' = static source) /\
          (forall k, k <> name source ->
                     sources (after r) !! k = sources rt !! k) /\
          sleepers (after r) = sleepers rt /\
          clock (after r) = clock rt) /\
      (outcome fetch = Ok None \/ outcome fetch = Raise ->
       returned r = None /\
       after r = disable_source (name source) rt /\
       (exists s',
           sources (after r) !! name source = Some s' /\
           enabled s' = false /\
           current_usage s' = current_usage source /\
           last_reset s' = last_reset source /\
           static s' = static source) /\
       (forall k, k <> name source ->
                  sources (after r) !! k = sources rt !! k) /\
       sleepers (after r)
       = (sleepers rt ++ [(name source, (clock rt + 300)%Q)])%list /\
       clock (after r) = clock rt)).
Proof.
  intros W r. subst r. unfold fetch_weather_data.
  destruct (get_available_source rnd (sources rt)) as [source|] eqn:S.
  - pose proof (selected_is_registered _ _ _ W S) as R.
    split; [discriminate|].
    intros source' [= <-]. cbn zeta.
    destruct (outcome (_fetch_from_source get (sources rt) source location days))
      as [[data|]|] eqn:F.
    + rewrite (fetched_data_truthy _ _ _ _ _ _ F). cbn.
      split; [reflexivity|]. split.
      * intros data' [= <-].
        split; [exact (fetched_data_truthy _ _ _ _ _ _ F)|].
        split; [reflexivity|]. split; [reflexivity|].
        unfold mark_source_used. rewrite R. cbn.
        split.
        { eexists. split; [apply lookup_insert_eq|]. repeat split. }
        split; [|split; reflexivity].
        intros k Hk. apply lookup_insert_ne. congruence.
      * intros [E|E]; discriminate E.
    + cbn. split; [reflexivity|]. split; [discriminate|].
      intros _. split; [reflexivity|]. split; [reflexivity|].
      unfold disable_source. rewrite R. cbn.
      split.
      { eexists. split; [apply lookup_insert_eq|]. repeat split. }
      split; [|split; reflexivity].
      intros k Hk. apply lookup_insert_ne. congruence.
    + cbn. split; [reflexivity|]. split; [discriminate|].
      intros _. split; [reflexivity|]. split; [reflexivity|].
      unfold disable_source. rewrite R. cbn.
      split.
      { eexists. split; [apply lookup_insert_eq|]. repeat split. }
      split; [|split; reflexivity].
      intros k Hk. apply lookup_insert_ne. congruence.
  - cbn. split; [auto|]. discriminate.
Qed.

(** C1.  In a running manager, one call of [fetch_weather_data] attempts at
    most one provider: with no source available it sends no request, and
    otherwise every request it sends (there are at most two) goes to the
    API of the selected source and to that of no other registered source.
    When the fetch from the selected source returns a result, that result
    is a non-empty dict, it is returned, and the usage counter of that
    source grows by one while its other fields, the other sources and the
    pending threads stay as they were.  When the fetch returns nothing or
    raises, the call returns nothing and the enabled flag of that source
    becomes false, with one re-enable thread started and nothing else
    changed. *)
Theorem fetch_weather_data_outcome (environ : string -> option string)
  (t0 : Q) (es : list event) (get : requests) (rnd : nat)
  (location : string) (days : Z) (rt : runtime) :
  run es (init environ t0) = Some rt ->
  let r := fetch_weather_data get rnd location days rt in
  (get_available_source rnd (sources rt) = None ->
   returned r = None /\ after r = rt /\ requested r = []) /\
  (forall source,
      get_available_source rnd (sources rt) = Some source ->
      let fetch := _fetch_from_source get (sources rt) source location days in
      requested r = sent fetch /\
      (length (requested r) <= 2)%nat /\
      (forall q, In q (requested r) -> goes_to source q) /\
      (forall q k other,
          In q (requested r) -> sources rt !! k = Some other ->
          k <> name source -> ~ goes_to other q) /\
      (forall data,
          outcome fetch = Ok (Some data) ->
          out_truthy data = true /\
          returned r = Some data /\
          (exists s',
              sources (after r) !! name source = Some s' /\
              current_usage s' = current_usage source + 1 /\
              enabled s' = true /\
              last_reset s' = last_reset source /\
              static s' = static source) /\
          (forall k, k <> name source ->
                     sources (after r) !! k = sources rt !! k) /\
          sleepers (after r) = sleepers rt /\
          clock (after r) = clock rt) /\
      (outcome fetch = Ok None \/ outcome fetch = Raise ->
       returned r = None /\
       (exists s',
           sources (after r) !! name source = Some s' /\
           enabled s' = false /\
           current_usage s' = current_usage source /\
           last_reset s' = last_reset source /\
           static s' = static source) /\
       (forall k, k <> name source ->
                  sources (after r) !! k = sources rt !! k) /\
       sleepers (after r)
       = (sleepers rt ++ [(name source, (clock rt + 300)%Q)])%list /\
       clock (after r) = clock rt)).
Proof.
  intros H r.
  assert (W : well_keyed (sources rt)).
  { apply (well_keyed_run es (init environ t0)); [|exact H].
    apply _load_sources_well_keyed. }
  destruct (fetch_outcome_well_keyed get rnd location days rt W) as [N U].
  fold r in N, U. split; [exact N|].
  intros source S fetch.
  destruct (U source S) as (Q & D & F). fold fetch in Q, D, F.
  pose proof (selected_is_registered _ _ _ W S) as R.
  destruct (fetch_requests environ t0 es rt get (name source) source location
              days H R) as (L & G & O).
  fold fetch in L, G, O.
  split; [exact Q|]. rewrite Q.
  split; [exact L|]. split; [exact G|]. split; [exact O|].
  split.
  - intros data Hd.
    destruct (D data Hd) as (T & Rt & _ & (s' & Hs & Hu & He & Hl & Hst) & K & Sl & C).
    split; [exact T|]. split; [exact Rt|].
    split; [|tauto].
    exists s'. apply get_available_source_Some in S.
    destruct S as (_ & En & _). rewrite En in He. tauto.
  - intros Hf. destruct (F Hf) as (Rt & _ & E & K & Sl & C). tauto.
Qed.

Lemma fetch_weather_data_outcome_witness :
  exists rt source data s',
    run [Advance 60; CallFetch answering 0 "52.5,13.4" 3] (init no_keys 0)
    = Some rt /\
    get_available_source 0 (sources rt) = Some source /\
    outcome (_fetch_from_source answering (sources rt) source "52.5,13.4" 3)
    = Ok (Some data) /\
    let r := fetch_weather_data answering 0 "52.5,13.4" 3 rt in
    current_usage source = 1 /\
    length (requested r) = 1%nat /\
    (forall q, In q (requested r) -> goes_to source q) /\
    returned r = Some data /\
    sources (after r) !! name source = Some s' /\
    current_usage s' = 2.
Proof.
  pose (rt := mkRuntime
                (<["metno" := mkDataSource "metno" METNO "https://api.met.no"
                                None 5000 1 0 true]> ∅)
                (0 + 60)%Q []).
  pose (source := mkDataSource "metno" METNO "https://api.met.no" None 5000 1 0
                    true).
  assert (R : run [Advance 60; CallFetch answering 0 "52.5,13.4" 3]
                (init no_keys 0) = Some rt) by (vm_compute; reflexivity).
  assert (S : get_available_source 0 (sources rt) = Some source)
    by (vm_compute; reflexivity).
  destruct (fetch_weather_data_outcome no_keys 0 _ answering 0 "52.5,13.4" 3
              rt R) as (_ & U).
  destruct (U source S) as (_ & _ & G & _ & D & _).
  eexists rt, source, _, _.
  split; [exact R|]. split; [exact S|].
  split; [vm_compute; reflexivity|].
  cbn zeta.
  split; [reflexivity|]. split; [vm_compute; reflexivity|].
  split; [exact G|].
  split; [vm_compute; reflexivity|].
  split; vm_compute; reflexivity.
Defined.

(** ** Quota *)

Lemma quota_ok_reset (t : Q) (m : gmap string DataSource) :
  quota_ok m -> quota_ok (reset_usage t m).
Proof.
  intros Q k s H. unfold reset_usage in H. rewrite lookup_fmap in H.
  destruct (m !! k) as [s0|] eqn:E; [|discriminate H].
  injection H as <-. pose proof (Q k s0 E).
  unfold reset_source. destruct (Qle_bool _ _); cbn; lia.
Qed.


Lemma quota_ok_mark (source_name : string) (rt : runtime) :
  quota_ok (sources rt) ->
  grant_ok (Some source_name) (sources rt) ->
  quota_ok (sources (mark_source_used source_name rt)).
Proof.
  intros Q (s & Hs & Hu). unfold mark_source_used. rewrite Hs. cbn.
  apply quota_ok_insert; [exact Q|]. pose proof (Q _ _ Hs). cbn. lia.
Qed.





(** ** Disabling *)

Lemma is_enabled_mark (k source_name : string) (rt : runtime) :
  is_enabled k (mark_source_used source_name rt) = is_enabled k rt.
Proof.
  unfold is_enabled, mark_source_used.
  destruct (sources rt !! source_name) as [s|] eqn:E; [|reflexivity].
  cbn. destruct (decide (k = source_name)) as [->|Hne].
  - rewrite lookup_insert_eq, E. reflexivity.
  - rewrite lookup_insert_ne by congruence. reflexivity.
Qed.

Lemma is_enabled_disable_same (source_name : string) (rt : runtime) :
  is_enabled source_name (disable_source source_name rt)
  = (fun _ => false) <$> is_enabled source_name rt.
Proof.
  unfold is_enabled, disable_source.
  destruct (sources rt !! source_name) as [s|] eqn:E.
  - cbn. rewrite lookup_insert_eq. reflexivity.
  - rewrite E. reflexivity.
Qed.

Lemma is_enabled_disable_other (k source_name : string) (rt : runtime) :
  k <> source_name ->
  is_enabled k (disable_source source_name rt) = is_enabled k rt.
Proof.
  intros Hne. unfold is_enabled, disable_source.
  destruct (sources rt !! source_name) as [s|] eqn:E; [|reflexivity].
  cbn. rewrite lookup_insert_ne by congruence. reflexivity.
Qed.

Lemma enabled_reenable_same (source_name : string)
  (m : gmap string DataSource) :
  enabled <$> reenable source_name m !! source_name
  = (fun _ => true) <$> (enabled <$> m !! source_name).
Proof.
  unfold reenable. destruct (m !! source_name) as [s|] eqn:E.
  - rewrite lookup_insert_eq. reflexivity.
  - rewrite E. reflexivity.
Qed.

Lemma enabled_reenable_other (k source_name : string)
  (m : gmap string DataSource) :
  k <> source_name ->
  enabled <$> reenable source_name m !! k = enabled <$> m !! k.
Proof.
  intros Hne. unfold reenable.
  destruct (m !! source_name) as [s|] eqn:E; [|reflexivity].
  rewrite lookup_insert_ne by congruence. reflexivity.
Qed.

Lemma enabled_reset (k : string) (t : Q) (m : gmap string DataSource) :
  enabled <$> reset_usage t m !! k = enabled <$> m !! k.
Proof.
  unfold reset_usage. rewrite lookup_fmap.
  destruct (m !! k) as [s|]; [|reflexivity]. cbn.
  unfold reset_source. destruct (Qle_bool _ _); reflexivity.
Qed.

Lemma sleepers_disable (source_name : string) (rt : runtime)
  (x : string * Q) :
  In x (sleepers (disable_source source_name rt)) ->
  In x (sleepers rt) \/ x = (source_name, (clock rt + 300)%Q).
Proof.
  unfold disable_source.
  destruct (sources rt !! source_name); [|auto].
  cbn. intros H. apply in_app_or in H. destruct H as [H|[H|[]]]; auto.
Qed.

Lemma clock_disable (source_name : string) (rt : runtime) :
  clock (disable_source source_name rt) = clock rt.
Proof.
  unfold disable_source. destruct (sources rt !! source_name); reflexivity.
Qed.

Lemma sleepers_mark (source_name : string) (rt : runtime) :
  sleepers (mark_source_used source_name rt) = sleepers rt /\
  clock (mark_source_used source_name rt) = clock rt.
Proof.
  unfold mark_source_used. destruct (sources rt !! source_name); auto.
Qed.

Lemma remove_nth_In {A : Type} (i : nat) (l : list A) (x : A) :
  In x (remove_nth i l) -> In x l.
Proof.
  revert i. induction l as [|a l IH]; intros i H; [destruct i; exact H|].
  destruct i as [|i]; cbn in H.
  - right. exact H.
  - destruct H as [H|H]; [left; exact H|right; apply (IH i); exact H].
Qed.

Lemma disabled_until_mark (n source_name : string) (D : Q) (rt : runtime) :
  disabled_until n D rt -> disabled_until n D (mark_source_used source_name rt).
Proof.
  intros (E & S & C). unfold disabled_until.
  destruct (sleepers_mark source_name rt) as [-> ->].
  rewrite is_enabled_mark. auto.
Qed.

Lemma disabled_until_disable (n source_name : string) (D : Q) (rt : runtime) :
  disabled_until n D rt -> disabled_until n D (disable_source source_name rt).
Proof.
  intros ((b & E & B) & S & C). unfold disabled_until.
  rewrite clock_disable. split; [|split; [|exact C]].
  - destruct (decide (n = source_name)) as [->|Hne].
    + rewrite is_enabled_disable_same, E. exists false. auto.
    + rewrite is_enabled_disable_other by assumption. eauto.
  - intros due H. apply sleepers_disable in H. destruct H as [H|H].
    + apply S. exact H.
    + injection H as _ ->. exact C.
Qed.

Lemma disabled_until_step (n : string) (D : Q) (e : event) (rt rt' : runtime) :
  disabled_until n D rt -> step e rt = Some rt' -> disabled_until n D rt'.
Proof.
  intros J H. destruct e as [dt|i| |m|m|get rnd location days]; cbn in H.
  - destruct (Qle_bool 0 dt) eqn:P; [|discriminate H]. injection H as <-.
    apply Qle_bool_iff in P.
    destruct J as ((b & E & B) & S & C). unfold disabled_until. cbn.
    split; [|split; [exact S|lra]].
    exists b. split; [exact E|]. intros L. apply B. lra.
  - destruct (nth_error (sleepers rt) i) as [[m due]|] eqn:N; [|discriminate H].
    destruct (Qle_bool due (clock rt)) eqn:P; [|discriminate H].
    injection H as <-. apply Qle_bool_iff in P.
    destruct J as ((b & E & B) & S & C). unfold disabled_until. cbn.
    split; [|split; [|exact C]].
    + unfold is_enabled in *. cbn.
      destruct (decide (n = m)) as [->|Hne].
      * rewrite enabled_reenable_same, E. exists true. split; [reflexivity|].
        intros L. apply nth_error_In in N. apply S in N. lra.
      * rewrite enabled_reenable_other by assumption. eauto.
    + intros due' H. apply S. apply (remove_nth_In i). exact H.
  - injection H as <-.
    destruct J as ((b & E & B) & S & C). unfold disabled_until. cbn.
    split; [|split; assumption].
    unfold is_enabled in *. cbn. rewrite enabled_reset. eauto.
  - injection H as <-. apply disabled_until_mark. exact J.
  - injection H as <-. apply disabled_until_disable. exact J.
  - injection H as <-.
    destruct (fetch_after_cases get rnd location days rt) as [->|[[m ->]|[m ->]]].
    + exact J.
    + apply disabled_until_mark. exact J.
    + apply disabled_until_disable. exact J.
Qed.

Lemma disabled_until_run (n : string) (D : Q) (es : list event) :
  forall rt rt', disabled_until n D rt -> run es rt = Some rt' ->
                 disabled_until n D rt'.
Proof.
  induction es as [|e es IH]; intros rt rt' J H; cbn in H.
  - injection H as <-. exact J.
  - destruct (step e rt) as [rt1|] eqn:S; [|discriminate H].
    apply (IH rt1); [|exact H]. apply (disabled_until_step n D e rt); assumption.
Qed.

(** C4, as stated, fails when a source is disabled again while a re-enable
    thread from an earlier disable is still asleep: that thread wakes 300
    seconds after the first disable and enables the source, less than 300
    seconds after the second.  Here "metno" is disabled at time 0 and again
    at time 200, and is enabled at time 300. *)
Lemma second_disable_is_cut_short :
  exists rt1 rt2,
    run [CallDisable "metno"; Advance 200] (init no_keys 0) = Some rt1 /\
    is_enabled "metno" (disable_source "metno" rt1) = Some false /\
    run [Advance 100; Wake 0] (disable_source "metno" rt1) = Some rt2 /\
    (clock rt2 < clock (disable_source "metno" rt1) + 300)%Q /\
    is_enabled "metno" rt2 = Some true.
Proof.
  eexists _, _.
  split; [vm_compute; reflexivity|].
  split; [vm_compute; reflexivity|].
  split; [vm_compute; reflexivity|].
  split; vm_compute; reflexivity.
Qed.

Lemma disabled_after_disable (source_name : string) (source : DataSource)
  (rt : runtime) (D : Q) :
  sources rt !! source_name = Some source ->
  (forall due, In (source_name, due) (sleepers rt) -> (D <= due)%Q) ->
  (D <= clock rt + 300)%Q ->
  forall es rt2, run es (disable_source source_name rt) = Some rt2 ->
                 (clock rt2 < D)%Q ->
                 is_enabled source_name rt2 = Some false.
Proof.
  intros R S C es rt2 H L.
  assert (J : disabled_until source_name D (disable_source source_name rt)).
  { unfold disabled_until. split; [|split].
    - exists false. rewrite is_enabled_disable_same.
      unfold is_enabled. rewrite R. auto.
    - intros due Hin. apply sleepers_disable in Hin.
      destruct Hin as [Hin|Hin]; [apply S; exact Hin|].
      injection Hin as ->. exact C.
    - rewrite clock_disable. exact C. }
  destruct (disabled_until_run _ _ _ _ _ J H) as ((b & E & B) & _ & _).
  rewrite E, (B L). reflexivity.
Qed.

(** C4 (amended).  [disable_source] on a registered source sets its enabled
    flag to false at once, changes nothing else in the registry, and starts
    exactly one re-enable thread, due 300 seconds later whatever the
    history of the source.  A re-enable thread that wakes sets the flag to
    true unconditionally.  After the disable the source stays disabled
    until the earliest wake-up time [D] among the re-enable threads pending
    for it: when no thread from an earlier disable is pending, that is for
    the full 300 seconds. *)
Theorem disable_source_cools_down (source_name : string) (source : DataSource)
  (rt : runtime) (D : Q) :
  sources rt !! source_name = Some source ->
  (forall due, In (source_name, due) (sleepers rt) -> (D <= due)%Q) ->
  (D <= clock rt + 300)%Q ->
  let rt1 := disable_source source_name rt in
  sources rt1 !! source_name = Some (set_enabled false source) /\
  (forall k, k <> source_name -> sources rt1 !! k = sources rt !! k) /\
  sleepers rt1 = (sleepers rt ++ [(source_name, (clock rt + 300)%Q)])%list /\
  clock rt1 = clock rt /\
  (forall es rt2, run es rt1 = Some rt2 -> (clock rt2 < D)%Q ->
                  is_enabled source_name rt2 = Some false) /\
  (forall rt2 i due,
      nth_error (sleepers rt2) i = Some (source_name, due) ->
      (due <= clock rt2)%Q ->
      is_enabled source_name rt2 <> None ->
      exists rt3, step (Wake i) rt2 = Some rt3 /\
                  is_enabled source_name rt3 = Some true).
Proof.
  intros R S C rt1.
  assert (E1 : sources rt1 !! source_name = Some (set_enabled false source)).
  { subst rt1. unfold disable_source. rewrite R. cbn. apply lookup_insert_eq. }
  split; [exact E1|].
  split.
  { intros k Hk. subst rt1. unfold disable_source. rewrite R. cbn.
    apply lookup_insert_ne. congruence. }
  split; [subst rt1; unfold disable_source; rewrite R; reflexivity|].
  split; [apply clock_disable|].
  split.
  - subst rt1. apply (disabled_after_disable source_name source); assumption.
  - intros rt2 i due N P Reg. cbn. rewrite N.
    apply Qle_bool_iff in P. rewrite P.
    eexists. split; [reflexivity|].
    unfold is_enabled in *. cbn. rewrite enabled_reenable_same.
    destruct (enabled <$> sources rt2 !! source_name); [reflexivity|congruence].
Qed.

Lemma disable_source_cools_down_witness :
  exists source,
    sources (init no_keys 0) !! "metno" = Some source /\
    (forall due, In ("metno", due) (sleepers (init no_keys 0)) -> (300 <= due)%Q) /\
    (300 <= clock (init no_keys 0) + 300)%Q /\
    let rt1 := disable_source "metno" (init no_keys 0) in
    sources rt1 !! "metno" = Some (set_enabled false source) /\
    (forall k, k <> "metno" ->
               sources rt1 !! k = sources (init no_keys 0) !! k) /\
    sleepers rt1
    = (sleepers (init no_keys 0)
         ++ [("metno", (clock (init no_keys 0) + 300)%Q)])%list /\
    clock rt1 = clock (init no_keys 0) /\
    (forall es rt2, run es rt1 = Some rt2 -> (clock rt2 < 300)%Q ->
                    is_enabled "metno" rt2 = Some false) /\
    (forall rt2 i due,
        nth_error (sleepers rt2) i = Some ("metno", due) ->
        (due <= clock rt2)%Q ->
        is_enabled "metno" rt2 <> None ->
        exists rt3, step (Wake i) rt2 = Some rt3 /\
                    is_enabled "metno" rt3 = Some true).
Proof.
  eexists.
  split; [vm_compute; reflexivity|].
  split; [intros due []|].
  split; [vm_compute; discriminate|].
  apply (disable_source_cools_down "metno" _ (init no_keys 0) 300).
  - vm_compute; reflexivity.
  - intros due [].
  - vm_compute; discriminate.
Defined.

(** ** Disabling through [fetch_weather_data] only *)









(** * Further properties *)

(** ** Start-up *)

Lemma load_sources_registers (environ : string -> option string) :
  is_Some (_load_sources environ !! "metno") /\
  (present (environ "OPENWEATHERMAP_API_KEY") = true ->
   is_Some (_load_sources environ !! "openweathermap")) /\
  (present (environ "WEATHERAPI_KEY") = true ->
   is_Some (_load_sources environ !! "weatherapi")) /\
  (present (environ "ACCUWEATHER_API_KEY") = true ->
   is_Some (_load_sources environ !! "accuweather")).
Proof.
  unfold _load_sources.
  destruct (present (environ "OPENWEATHERMAP_API_KEY"));
  destruct (present (environ "WEATHERAPI_KEY"));
  destruct (present (environ "ACCUWEATHER_API_KEY"));
  repeat split; intros; try discriminate;
  repeat first [ rewrite lookup_insert_eq; eexists; reflexivity
               | rewrite lookup_insert_ne by discriminate ].
Qed.

(** X1.  [_load_sources] always registers MET Norway, without a key and
    with a quota of 5000.  Each of OpenWeatherMap, WeatherAPI and
    AccuWeather is registered exactly when its environment variable is set
    to a non-empty string, with that string as its key and its own quota
    (1000, 1000000, 50).  Nothing else is registered, and every source
    starts enabled, unused, and under its own name. *)
Theorem load_sources_contents (environ : string -> option string) :
  let m := _load_sources environ in
  m !! "metno"
  = Some (mkDataSource "metno" METNO "https://api.met.no" None 5000 0 0 true) /\
  (is_Some (m !! "openweathermap") <->
   present (environ "OPENWEATHERMAP_API_KEY") = true) /\
  (is_Some (m !! "weatherapi") <-> present (environ "WEATHERAPI_KEY") = true) /\
  (is_Some (m !! "accuweather") <->
   present (environ "ACCUWEATHER_API_KEY") = true) /\
  (forall s, m !! "openweathermap" = Some s ->
             type s = OPENWEATHERMAP /\ rate_limit s = 1000 /\
             api_key s = environ "OPENWEATHERMAP_API_KEY") /\
  (forall s, m !! "weatherapi" = Some s ->
             type s = WEATHERAPI /\ rate_limit s = 1000000 /\
             api_key s = environ "WEATHERAPI_KEY") /\
  (forall s, m !! "accuweather" = Some s ->
             type s = ACCUWEATHER /\ rate_limit s = 50 /\
             api_key s = environ "ACCUWEATHER_API_KEY") /\
  (forall k s, m !! k = Some s ->
               In k source_names /\ name s = k /\ current_usage s = 0 /\
               last_reset s = 0%Q /\ enabled s = true).
Proof.
  intros m. subst m.
  pose proof (load_sources_registers environ) as (R0 & R1 & R2 & R3).
  assert (L := load_sources_lookup environ).
  split.
  { destruct R0 as [s Hs]. rewrite Hs. f_equal.
    destruct (L _ _ Hs) as [[_ ->]|[[E _]|[[E _]|[E _]]]];
      [reflexivity|discriminate E..]. }
  split.
  { split; [|exact R1]. intros [s Hs].
    destruct (L _ _ Hs) as [[E _]|[[_ [P _]]|[[E _]|[E _]]]];
      [discriminate E|exact P|discriminate E..]. }
  split.
  { split; [|exact R2]. intros [s Hs].
    destruct (L _ _ Hs) as [[E _]|[[E _]|[[_ [P _]]|[E _]]]];
      [discriminate E..|exact P|discriminate E]. }
  split.
  { split; [|exact R3]. intros [s Hs].
    destruct (L _ _ Hs) as [[E _]|[[E _]|[[E _]|[_ [P _]]]]];
      [discriminate E..|exact P]. }
  split.
  { intros s Hs.
    destruct (L _ _ Hs) as [[E _]|[[_ [_ ->]]|[[E _]|[E _]]]];
      [discriminate E|auto|discriminate E..]. }
  split.
  { intros s Hs.
    destruct (L _ _ Hs) as [[E _]|[[E _]|[[_ [_ ->]]|[E _]]]];
      [discriminate E..|auto|discriminate E]. }
  split.
  { intros s Hs.
    destruct (L _ _ Hs) as [[E _]|[[E _]|[[E _]|[_ [_ ->]]]]];
      [discriminate E..|auto]. }
  intros k s Hs. unfold source_names.
  destruct (L _ _ Hs) as [[-> ->]|[[-> [_ ->]]|[[-> [_ ->]]|[-> [_ ->]]]]];
    cbn; auto 10.
Qed.

(** ** The hourly reset *)

Lemma reset_source_cases (t : Q) (s : DataSource) :
  ((3600 <= t - last_reset s)%Q /\
   reset_source t s = set_last_reset t (set_current_usage 0 s)) \/
  ((t - last_reset s < 3600)%Q /\ reset_source t s = s).
Proof.
  unfold reset_source.
  destruct (Qle_bool 3600 (t - last_reset s)) eqn:E.
  - left. split; [apply Qle_bool_iff; exact E|reflexivity].
  - right. split; [|reflexivity].
    apply Qnot_le_lt. intros H. apply Qle_bool_iff in H. congruence.
Qed.

(** X2.  One sweep of [reset_usage] at time [t] treats every source on its
    own: a source whose last reset is 3600 seconds or more ago gets usage 0
    and last reset [t]; any other source is left exactly as it is.  The
    sweep never changes the configuration or the enabled flag, and never
    adds or removes a source.  Afterwards every source was reset less than
    3600 seconds before [t], so a second sweep at a time [t'] less than 3600
    seconds after the last reset of a source leaves that source alone. *)
Theorem reset_usage_window (t : Q) (m : gmap string DataSource) (k : string)
  (s : DataSource) :
  m !! k = Some s ->
  exists s',
    reset_usage t m !! k = Some s' /\
    static s' = static s /\
    enabled s' = enabled s /\
    ((3600 <= t - last_reset s)%Q ->
     current_usage s' = 0 /\ last_reset s' = t) /\
    ((t - last_reset s < 3600)%Q -> s' = s) /\
    (t - last_reset s' < 3600)%Q /\
    (forall t', (t' - last_reset s' < 3600)%Q ->
                reset_usage t' (reset_usage t m) !! k = Some s') /\
    (forall k', reset_usage t m !! k' = None <-> m !! k' = None).
Proof.
  intros H. exists (reset_source t s).
  assert (L : reset_usage t m !! k = Some (reset_source t s)).
  { unfold reset_usage. rewrite lookup_fmap, H. reflexivity. }
  split; [exact L|].
  destruct (reset_source_cases t s) as [[C E0]|[C E0]]; rewrite E0 in *.
  - split; [reflexivity|]. split; [reflexivity|].
    split; [intros _; split; reflexivity|].
    split; [intros C'; lra|].
    split; [cbn; lra|].
    split.
    + intros t' Ht'. unfold reset_usage at 1. rewrite lookup_fmap, L. cbn.
      f_equal. destruct (reset_source_cases t'
                           (set_last_reset t (set_current_usage 0 s)))
        as [[C' _]|[_ E]]; [cbn in C', Ht'; lra|exact E].
    + intros k'. unfold reset_usage. rewrite lookup_fmap.
      destruct (m !! k'); cbn; split; congruence.
  - split; [reflexivity|]. split; [reflexivity|].
    split; [intros C'; lra|].
    split; [reflexivity|].
    split; [exact C|].
    split.
    + intros t' Ht'. unfold reset_usage at 1. rewrite lookup_fmap, L. cbn.
      f_equal. destruct (reset_source_cases t' s) as [[C' _]|[_ E]];
        [lra|exact E].
    + intros k'. unfold reset_usage. rewrite lookup_fmap.
      destruct (m !! k'); cbn; split; congruence.
Qed.

Lemma reset_usage_window_witness :
  exists s s',
    _load_sources no_keys !! "metno" = Some s /\
    reset_usage 7200 (_load_sources no_keys) !! "metno" = Some s' /\
    static s' = static s /\
    enabled s' = enabled s /\
    ((3600 <= 7200 - last_reset s)%Q ->
     current_usage s' = 0 /\ last_reset s' = 7200%Q) /\
    ((7200 - last_reset s < 3600)%Q -> s' = s) /\
    (7200 - last_reset s' < 3600)%Q /\
    (forall t', (t' - last_reset s' < 3600)%Q ->
                reset_usage t' (reset_usage 7200 (_load_sources no_keys))
                  !! "metno" = Some s') /\
    (forall k', reset_usage 7200 (_load_sources no_keys) !! k' = None <->
                _load_sources no_keys !! k' = None).
Proof.
  assert (H : _load_sources no_keys !! "metno"
              = Some (mkDataSource "metno" METNO "https://api.met.no" None
                                   5000 0 0 true))
    by (vm_compute; reflexivity).
  destruct (reset_usage_window 7200 (_load_sources no_keys) "metno" _ H)
    as (s' & W).
  eexists _, s'. split; [exact H|]. exact W.
Defined.

(** ** Weather codes *)

Lemma mapping_get_range (k : Z) (m : list (Z * Z)) (default : Z) :
  In (mapping_get k m default) (default :: map snd m).
Proof.
  induction m as [|[k' v] m IH]; cbn; [left; reflexivity|].
  destruct (k =? k'); [right; left; reflexivity|].
  destruct IH as [E|I]; [left; exact E|right; right; exact I].
Qed.

Lemma mapping_get_default (k : Z) (m : list (Z * Z)) (default : Z) :
  ~ In k (map fst m) -> mapping_get k m default = default.
Proof.
  induction m as [|[k' v] m IH]; cbn; [reflexivity|]. intros N.
  destruct (k =? k') eqn:E.
  - apply Z.eqb_eq in E. exfalso. apply N. left. congruence.
  - apply IH. intros I. apply N. right. exact I.
Qed.

Lemma mapping_get_entry (k v : Z) (m : list (Z * Z)) (default : Z) :
  List.NoDup (map fst m) -> In (k, v) m -> mapping_get k m default = v.
Proof.
  induction m as [|[k' v'] m IH]; cbn; [intros _ []|]. intros N I.
  apply List.NoDup_cons_iff in N. destruct N as [Nk Nm].
  destruct I as [E|I].
  - injection E as -> ->. rewrite Z.eqb_refl. reflexivity.
  - destruct (k =? k') eqn:E.
    + apply Z.eqb_eq in E. subst k'. exfalso. apply Nk.
      apply (in_map fst) in I. exact I.
    + apply IH; assumption.
Qed.

Lemma mapping_keys_distinct : List.NoDup (map fst mapping).
Proof.
  apply (NoDup_count_occ' Z.eq_dec). intros x Hx.
  cbn in Hx.
  repeat (destruct Hx as [<-|Hx]; [vm_compute; reflexivity|]).
  destruct Hx.
Qed.

(** X3.  [_openweather_to_wwo_code] never raises on an int: it returns the
    table entry of the code, which is unique, and 113 (clear sky) for every
    code that the table does not list.  The result is always one of the 23
    codes the table can produce. *)
Theorem openweather_to_wwo_code_total (owm_code : Z) :
  exists wwo,
    _openweather_to_wwo_code (JInt owm_code) = Ok wwo /\
    In wwo wwo_codes /\
    (forall v, In (owm_code, v) mapping -> wwo = v) /\
    (~ In owm_code (map fst mapping) -> wwo = 113) /\
    _openweather_to_wwo_code (JFloat (inject_Z owm_code)) = Ok wwo.
Proof.
  exists (mapping_get owm_code mapping 113).
  split; [reflexivity|]. split.
  { pose proof (mapping_get_range owm_code mapping 113) as R.
    assert (A : forall c, In c (113 :: map snd mapping) -> In c wwo_codes).
    { intros c Hc. cbn in Hc.
      repeat (destruct Hc as [<-|Hc]; [vm_compute; tauto|]). destruct Hc. }
    apply A. exact R. }
  split.
  { intros v I. apply mapping_get_entry; [exact mapping_keys_distinct|exact I]. }
  split; [apply mapping_get_default|].
  unfold _openweather_to_wwo_code, int_key. rewrite Qfloor_Z.
  rewrite Qeq_bool_refl. reflexivity.
Qed.

(** ** The registry over time *)

(** X4.  The registry is fixed at start-up: whatever methods are called and
    whatever threads run afterwards, the same names stay registered, and the
    name, type, base URL, API key and quota of every source stay what
    [_load_sources] made them.  Only usage, last reset and the enabled flag
    ever change. *)
Theorem registry_is_static (environ : string -> option string) (t0 : Q)
  (es : list event) (rt : runtime) :
  run es (init environ t0) = Some rt ->
  forall k,
    static <$> sources rt !! k = static <$> _load_sources environ !! k /\
    (is_Some (sources rt !! k) <-> is_Some (_load_sources environ !! k)).
Proof.
  intros H k.
  pose proof (static_run es _ _ k H) as S. cbn in S. split; [exact S|].
  destruct (sources rt !! k), (_load_sources environ !! k);
    cbn in S; try discriminate S; split; intros [x Hx];
    first [eexists; reflexivity|discriminate Hx].
Qed.

Lemma registry_is_static_witness :
  exists rt,
    run [CallDisable "metno"; Advance 400; Wake 0; CallMarkUsed "metno";
         ResetSweep] (init no_keys 0) = Some rt /\
    forall k,
      static <$> sources rt !! k = static <$> _load_sources no_keys !! k /\
      (is_Some (sources rt !! k) <-> is_Some (_load_sources no_keys !! k)).
Proof.
  eexists. split; [vm_compute; reflexivity|].
  apply (registry_is_static no_keys 0
           [CallDisable "metno"; Advance 400; Wake 0; CallMarkUsed "metno";
            ResetSweep]).
  vm_compute; reflexivity.
Defined.

(** X5.  In a running manager the fetchers never fail on their own
    bookkeeping: for a source of a keyed type taken from the registry, the
    lookup [self.sources[...]] under the fixed name of that type finds this
    very source, and its API key is present, so the [if not api_key] guards
    never fire. *)
Theorem fetcher_guards_never_fire (environ : string -> option string)
  (t0 : Q) (es : list event) (rt : runtime) (rnd : nat)
  (source : DataSource) :
  run es (init environ t0) = Some rt ->
  get_available_source rnd (sources rt) = Some source ->
  match type source with
  | METNO => name source = "metno"
  | OPENWEATHERMAP =>
      source_item (sources rt) "openweathermap" = Ok source /\
      no_key source = false
  | WEATHERAPI =>
      source_item (sources rt) "weatherapi" = Ok source /\
      no_key source = false
  | ACCUWEATHER =>
      source_item (sources rt) "accuweather" = Ok source /\
      no_key source = false
  end.
Proof.
  intros H S. apply get_available_source_Some in S.
  destruct S as [[k Hk] _].
  destruct (running_source_configured environ t0 es rt k source H Hk)
    as [N C].
  unfold source_item, no_key.
  destruct (type source); [congruence|..];
    destruct C as [-> P]; rewrite Hk, P; split; reflexivity.
Qed.

Lemma fetcher_guards_never_fire_witness :
  exists rt source,
    run [CallFetch unavailable 1 "52.5,13.4" 3; Advance 10]
        (init (fun _ => Some "secret") 0) = Some rt /\
    get_available_source 0 (sources rt) = Some source /\
    type source = OPENWEATHERMAP /\
    source_item (sources rt) "openweathermap" = Ok source /\
    no_key source = false.
Proof.
  eexists _, _.
  split; [vm_compute; reflexivity|].
  split; [vm_compute; reflexivity|].
  split; [reflexivity|].
  match goal with
  | |- source_item (sources ?rt) _ = Ok ?s /\ _ =>
      assert (R : run [CallFetch unavailable 1 "52.5,13.4" 3; Advance 10]
                    (init (fun _ => Some "secret") 0) = Some rt)
        by (vm_compute; reflexivity);
      assert (S : get_available_source 0 (sources rt) = Some s)
        by (vm_compute; reflexivity);
      exact (fetcher_guards_never_fire (fun _ => Some "secret") 0 _ rt 0 s R S)
  end.
Defined.

(** ** Quota over time *)

Lemma quota_ok_disable (source_name : string) (rt : runtime) :
  quota_ok (sources rt) -> quota_ok (sources (disable_source source_name rt)).
Proof.
  intros Q. unfold disable_source.
  destruct (sources rt !! source_name) as [s|] eqn:E; [|exact Q].
  cbn. apply quota_ok_insert; [exact Q|]. exact (Q _ _ E).
Qed.

Lemma quota_ok_reenable (source_name : string) (m : gmap string DataSource) :
  quota_ok m -> quota_ok (reenable source_name m).
Proof.
  intros Q. unfold reenable.
  destruct (m !! source_name) as [s|] eqn:E; [|exact Q].
  apply quota_ok_insert; [exact Q|]. exact (Q _ _ E).
Qed.

Lemma quota_ok_step (e : event) (rt rt' : runtime) :
  through_fetch e = true ->
  well_keyed (sources rt) -> quota_ok (sources rt) ->
  step e rt = Some rt' -> quota_ok (sources rt').
Proof.
  intros T W Q H.
  destruct e as [dt|i| |m|m|get rnd location days]; cbn in H;
    try discriminate T.
  - destruct (Qle_bool 0 dt); [|discriminate H]. injection H as <-. exact Q.
  - destruct (nth_error (sleepers rt) i) as [[m due]|]; [|discriminate H].
    destruct (Qle_bool due (clock rt)); [|discriminate H].
    injection H as <-. cbn. apply quota_ok_reenable. exact Q.
  - injection H as <-. cbn. apply quota_ok_reset. exact Q.
  - injection H as <-. unfold fetch_weather_data.
    destruct (get_available_source rnd (sources rt)) as [source|] eqn:S;
      [|exact Q].
    pose proof (selected_is_registered _ _ _ W S) as R.
    apply get_available_source_Some in S. destruct S as (_ & _ & U).
    cbn zeta.
    destruct (outcome (_fetch_from_source get (sources rt) source location days))
      as [[data|]|]; [destruct (out_truthy data)| |]; cbn;
      try (apply quota_ok_disable; exact Q).
    apply quota_ok_mark; [exact Q|]. exists source. split; assumption.
Qed.

(** X6.  While the manager is used through [fetch_weather_data] only, in
    calls that do not overlap, [0 <= usage <= quota] holds for every source
    at all times, whatever the network answers, whenever the reset sweep
    runs and whenever re-enable threads wake up. *)
Theorem usage_within_quota_always (environ : string -> option string)
  (t0 : Q) (es : list event) (rt : runtime) :
  forallb through_fetch es = true ->
  run es (init environ t0) = Some rt ->
  forall k s, sources rt !! k = Some s ->
              0 <= current_usage s <= rate_limit s.
Proof.
  intros T H.
  assert (G : forall es rt0 rt1,
             forallb through_fetch es = true ->
             well_keyed (sources rt0) -> quota_ok (sources rt0) ->
             run es rt0 = Some rt1 -> quota_ok (sources rt1)).
  { clear. induction es as [|e es IH]; intros rt0 rt1 T W Q H; cbn in H.
    - injection H as <-. exact Q.
    - cbn in T. apply andb_true_iff in T. destruct T as [Te Tes].
      destruct (step e rt0) as [rt'|] eqn:S; [|discriminate H].
      apply (IH rt'); [exact Tes| | |exact H].
      + apply (well_keyed_step e rt0); assumption.
      + apply (quota_ok_step e rt0); assumption. }
  apply (G es (init environ t0) rt T); [| |exact H].
  - apply _load_sources_well_keyed.
  - apply _load_sources_quota_ok.
Qed.

Lemma usage_within_quota_always_witness :
  exists rt,
    forallb through_fetch
      [CallFetch answering 0 "52.5,13.4" 3; CallFetch unavailable 0 "52.5,13.4" 3;
       Advance 4000; Wake 0; ResetSweep; CallFetch answering 0 "52.5,13.4" 3]
    = true /\
    run [CallFetch answering 0 "52.5,13.4" 3; CallFetch unavailable 0 "52.5,13.4" 3;
         Advance 4000; Wake 0; ResetSweep; CallFetch answering 0 "52.5,13.4" 3]
        (init no_keys 0) = Some rt /\
    (current_usage <$> sources rt !! "metno") = Some 1 /\
    forall k s, sources rt !! k = Some s ->
                0 <= current_usage s <= rate_limit s.
Proof.
  eexists. split; [reflexivity|].
  split; [vm_compute; reflexivity|].
  split; [vm_compute; reflexivity|].
  apply (usage_within_quota_always no_keys 0
           [CallFetch answering 0 "52.5,13.4" 3;
            CallFetch unavailable 0 "52.5,13.4" 3;
            Advance 4000; Wake 0; ResetSweep;
            CallFetch answering 0 "52.5,13.4" 3]).
  - reflexivity.
  - vm_compute; reflexivity.
Defined.

(** ** Recovery *)

Lemma remove_nth_keeps {A : Type} (i : nat) (l : list A) (x y : A) :
  nth_error l i = Some y -> x <> y -> In x l -> In x (remove_nth i l).
Proof.
  revert i. induction l as [|a l IH]; intros i N D I; [destruct I|].
  destruct i as [|i]; cbn in N |- *.
  - injection N as ->. destruct I as [E|I]; [congruence|exact I].
  - destruct I as [E|I]; [left; exact E|right; apply IH; assumption].
Qed.

Lemma recovery_pending_mark (source_name : string) (rt : runtime) :
  recovery_pending rt -> recovery_pending (mark_source_used source_name rt).
Proof.
  intros P k s Hs En. unfold mark_source_used in *.
  destruct (sources rt !! source_name) as [s0|] eqn:E; [|exact (P k s Hs En)].
  cbn in *. destruct (decide (k = source_name)) as [->|Hne].
  - rewrite lookup_insert_eq in Hs. injection Hs as <-. cbn in En.
    exact (P _ _ E En).
  - rewrite lookup_insert_ne in Hs by congruence. exact (P k s Hs En).
Qed.

Lemma recovery_pending_disable (source_name : string) (rt : runtime) :
  recovery_pending rt -> recovery_pending (disable_source source_name rt).
Proof.
  intros P k s Hs En. unfold disable_source in *.
  destruct (sources rt !! source_name) as [s0|] eqn:E; [|exact (P k s Hs En)].
  cbn in *. destruct (decide (k = source_name)) as [->|Hne].
  - exists (clock rt + 300)%Q. split; [|lra].
    apply in_or_app. right. left. reflexivity.
  - rewrite lookup_insert_ne in Hs by congruence.
    destruct (P k s Hs En) as (due & I & D). exists due.
    split; [apply in_or_app; left; exact I|exact D].
Qed.

Lemma recovery_pending_step (e : event) (rt rt' : runtime) :
  recovery_pending rt -> step e rt = Some rt' -> recovery_pending rt'.
Proof.
  intros P H. destruct e as [dt|i| |m|m|get rnd location days]; cbn in H.
  - destruct (Qle_bool 0 dt) eqn:D0; [|discriminate H]. injection H as <-.
    apply Qle_bool_iff in D0. intros k s Hs En. cbn in *.
    destruct (P k s Hs En) as (due & I & D). exists due.
    split; [exact I|lra].
  - destruct (nth_error (sleepers rt) i) as [[m due]|] eqn:N; [|discriminate H].
    destruct (Qle_bool due (clock rt)); [|discriminate H].
    injection H as <-. intros k s Hs En. cbn in *.
    destruct (decide (k = m)) as [->|Hne].
    + exfalso. unfold reenable in Hs.
      destruct (sources rt !! m) as [s0|] eqn:E.
      * rewrite lookup_insert_eq in Hs. injection Hs as <-. discriminate En.
      * congruence.
    + assert (Hs' : sources rt !! k = Some s).
      { unfold reenable in Hs. destruct (sources rt !! m);
          [rewrite lookup_insert_ne in Hs by congruence|]; exact Hs. }
      destruct (P k s Hs' En) as (due' & I & D). exists due'.
      split; [|exact D].
      apply (remove_nth_keeps i _ _ (m, due)); [exact N|congruence|exact I].
  - injection H as <-. intros k s Hs En. cbn in *.
    unfold reset_usage in Hs. rewrite lookup_fmap in Hs.
    destruct (sources rt !! k) as [s0|] eqn:E; [|discriminate Hs].
    injection Hs as <-. apply (P k s0 E).
    unfold reset_source in En. destruct (Qle_bool _ _); exact En.
  - injection H as <-. apply recovery_pending_mark. exact P.
  - injection H as <-. apply recovery_pending_disable. exact P.
  - injection H as <-.
    destruct (fetch_after_cases get rnd location days rt) as [->|[[m ->]|[m ->]]].
    + exact P.
    + apply recovery_pending_mark. exact P.
    + apply recovery_pending_disable. exact P.
Qed.

(** X7.  No source is left disabled without a way back: in every state of
    a running manager, however its methods were called, each disabled
    source has a re-enable thread pending that is due within 300 seconds,
    and 300 seconds later that thread can wake and enables the source. *)
Theorem disabled_source_recovers (environ : string -> option string)
  (t0 : Q) (es : list event) (rt : runtime) (k : string) (s : DataSource) :
  run es (init environ t0) = Some rt ->
  sources rt !! k = Some s ->
  enabled s = false ->
  exists i due,
    nth_error (sleepers rt) i = Some (k, due) /\
    (due <= clock rt + 300)%Q /\
    exists rt1, run [Advance 300; Wake i] rt = Some rt1 /\
                is_enabled k rt1 = Some true.
Proof.
  intros H Hs En.
  assert (P : recovery_pending rt).
  { assert (G : forall es rt0 rt1, recovery_pending rt0 ->
                  run es rt0 = Some rt1 -> recovery_pending rt1).
    { clear. induction es as [|e es IH]; intros rt0 rt1 P H; cbn in H.
      - injection H as <-. exact P.
      - destruct (step e rt0) as [rt'|] eqn:S; [|discriminate H].
        apply (IH rt'); [|exact H].
        apply (recovery_pending_step e rt0); assumption. }
    apply (G es (init environ t0)); [|exact H].
    intros k' s' Hs' En'. exfalso. cbn in Hs'.
    destruct (load_sources_lookup environ k' s' Hs')
      as [[_ ->]|[[_ [_ ->]]|[[_ [_ ->]]|[_ [_ ->]]]]]; discriminate En'. }
  destruct (P k s Hs En) as (due & I & D).
  apply In_nth_error in I. destruct I as [i Hi].
  exists i, due. split; [exact Hi|]. split; [exact D|].
  cbn. change (Qle_bool 0 300) with true. cbn. rewrite Hi.
  apply Qle_bool_iff in D. rewrite D.
  eexists. split; [reflexivity|]. unfold is_enabled. cbn.
  rewrite enabled_reenable_same, Hs. reflexivity.
Qed.

Lemma disabled_source_recovers_witness :
  exists rt s,
    run [CallFetch unavailable 0 "52.5,13.4" 3; Advance 120]
        (init no_keys 0) = Some rt /\
    sources rt !! "metno" = Some s /\
    enabled s = false /\
    exists i due,
      nth_error (sleepers rt) i = Some ("metno", due) /\
      (due <= clock rt + 300)%Q /\
      exists rt1, run [Advance 300; Wake i] rt = Some rt1 /\
                  is_enabled "metno" rt1 = Some true.
Proof.
  eexists _, _.
  split; [vm_compute; reflexivity|].
  split; [vm_compute; reflexivity|].
  split; [reflexivity|].
  match goal with
  | |- exists i due, nth_error (sleepers ?rt) i = _ /\ _ =>
      assert (R : run [CallFetch unavailable 0 "52.5,13.4" 3; Advance 120]
                    (init no_keys 0) = Some rt)
        by (vm_compute; reflexivity);
      eapply (disabled_source_recovers no_keys 0 _ rt "metno" _ R);
      [vm_compute; reflexivity|reflexivity]
  end.
Defined.

(** ** Failures of the network and of the caller *)

Lemma no_200_no_data (get : requests) (m : gmap string DataSource)
  (source : DataSource) (location : string) (days : Z) (data : out) :
  (forall url headers r, get url headers = Ok r -> status_code r <> 200) ->
  outcome (_fetch_from_source get m source location days) <> Ok (Some data).
Proof.
  intros N H. unfold _fetch_from_source in H. destruct (type source).
  - unfold _fetch_metno in H. trace_inv H.
    destruct (status_code a1 =? 200) eqn:S; [|discriminate H].
    apply Z.eqb_eq in S. exact (N _ _ _ E1 S).
  - unfold _fetch_openweathermap in H. trace_inv H.
    destruct (no_key a); [discriminate H|].
    destruct (split_comma location) as [|lat [|lng [|]]]; try discriminate H.
    trace_inv H.
    destruct (status_code a2 =? 200) eqn:S; [|discriminate H].
    apply Z.eqb_eq in S. exact (N _ _ _ E2 S).
  - unfold _fetch_weatherapi in H. trace_inv H.
    destruct (no_key a); [discriminate H|].
    trace_inv H.
    destruct (status_code a2 =? 200) eqn:S; [|discriminate H].
    apply Z.eqb_eq in S. exact (N _ _ _ E2 S).
  - unfold _fetch_accuweather in H. trace_inv H.
    destruct (no_key a); [discriminate H|].
    trace_inv H.
    destruct (status_code a2 =? 200) eqn:S; [|discriminate H].
    apply Z.eqb_eq in S. exact (N _ _ _ E2 S).
Qed.

(** X8.  Data only ever comes from a response with status 200: in a
    running manager, on a network whose responses all have another status
    (or that fails), every call of [fetch_weather_data] returns nothing,
    whatever the bodies of the responses hold.  The source that was
    selected, if any, is disabled: its enabled flag is false afterwards,
    its usage is unchanged and one re-enable thread is started; with no
    source selected nothing changes. *)
Theorem no_data_without_status_200 (environ : string -> option string)
  (t0 : Q) (es : list event) (get : requests) (rnd : nat)
  (location : string) (days : Z) (rt : runtime) :
  run es (init environ t0) = Some rt ->
  (forall url headers r, get url headers = Ok r -> status_code r <> 200) ->
  let r := fetch_weather_data get rnd location days rt in
  returned r = None /\
  (forall source,
      get_available_source rnd (sources rt) = Some source ->
      is_enabled (name source) rt = Some true /\
      is_enabled (name source) (after r) = Some false /\
      (exists s', sources (after r) !! name source = Some s' /\
                  enabled s' = false /\
                  current_usage s' = current_usage source) /\
      sleepers (after r)
      = (sleepers rt ++ [(name source, (clock rt + 300)%Q)])%list) /\
  (get_available_source rnd (sources rt) = None -> after r = rt).
Proof.
  intros H N r.
  assert (W : well_keyed (sources rt)).
  { apply (well_keyed_run es (init environ t0)); [|exact H].
    apply _load_sources_well_keyed. }
  destruct (fetch_outcome_well_keyed get rnd location days rt W) as [Z0 U].
  fold r in Z0, U.
  assert (F : forall source,
             get_available_source rnd (sources rt) = Some source ->
             outcome (_fetch_from_source get (sources rt) source location days)
             = Ok None \/
             outcome (_fetch_from_source get (sources rt) source location days)
             = Raise).
  { intros source _.
    pose proof (no_200_no_data get (sources rt) source location days) as D.
    destruct (outcome (_fetch_from_source get (sources rt) source location days))
      as [[data|]|]; [|auto|auto].
    exfalso. exact (D data N eq_refl). }
  split; [|split].
  - destruct (get_available_source rnd (sources rt)) as [source|] eqn:S.
    + destruct (U source eq_refl) as (_ & _ & D).
      destruct (D (F source eq_refl)) as (Rt & _). exact Rt.
    + destruct (Z0 eq_refl) as (Rt & _). exact Rt.
  - intros source S.
    destruct (U source S) as (_ & _ & D).
    destruct (D (F source S)) as (_ & _ & (s' & Hs & He & Hu & _) & _ & Sl & _).
    pose proof (selected_is_registered _ _ _ W S) as R.
    apply get_available_source_Some in S. destruct S as (_ & En & _).
    split; [unfold is_enabled; rewrite R; cbn; congruence|].
    split; [unfold is_enabled; rewrite Hs; cbn; congruence|].
    split; [exists s'; auto|exact Sl].
  - intros S. destruct (Z0 S) as (_ & A & _). exact A.
Qed.

Lemma no_data_without_status_200_witness :
  exists rt source,
    run [Advance 5] (init no_keys 0) = Some rt /\
    (forall url headers r,
        unavailable url headers = Ok r -> status_code r <> 200) /\
    get_available_source 0 (sources rt) = Some source /\
    let r := fetch_weather_data unavailable 0 "52.5,13.4" 3 rt in
    returned r = None /\
    is_enabled (name source) rt = Some true /\
    is_enabled (name source) (after r) = Some false.
Proof.
  pose (rt := mkRuntime (_load_sources no_keys) (0 + 5)%Q []).
  pose (source := mkDataSource "metno" METNO "https://api.met.no" None
                               5000 0 0 true).
  assert (R : run [Advance 5] (init no_keys 0) = Some rt)
    by (vm_compute; reflexivity).
  assert (S : get_available_source 0 (sources rt) = Some source)
    by (vm_compute; reflexivity).
  assert (N : forall url headers r,
             unavailable url headers = Ok r -> status_code r <> 200).
  { intros url headers r [= <-]. discriminate. }
  exists rt, source.
  split; [exact R|]. split; [exact N|]. split; [exact S|].
  destruct (no_data_without_status_200 no_keys 0 [Advance 5] unavailable 0
              "52.5,13.4" 3 rt R N) as (Rt & D & _).
  destruct (D source S) as (E1 & E2 & _).
  cbn zeta. split; [exact Rt|]. split; [exact E1|exact E2].
Defined.

Lemma split_comma_length (s : string) :
  length (split_comma s) = S (comma_count s).
Proof.
  induction s as [|c s IH]; [reflexivity|]. cbn.
  destruct (Ascii.eqb c ","); cbn; [rewrite IH; reflexivity|].
  destruct (split_comma s); [discriminate IH|exact IH].
Qed.

Lemma metno_needs_comma (get : requests) (location : string) (days : Z) :
  comma_count location = 0%nat ->
  outcome (_fetch_metno get location days) = Raise /\
  sent (_fetch_metno get location days) = [].
Proof.
  intros C. unfold _fetch_metno, nth_part.
  pose proof (split_comma_length location) as L. rewrite C in L.
  destruct (split_comma location) as [|p [|q ps]]; try discriminate L.
  split; reflexivity.
Qed.

Lemma openweathermap_needs_one_comma (get : requests)
  (m : gmap string DataSource) (location : string) (days : Z) :
  comma_count location <> 1%nat ->
  forall data,
    outcome (_fetch_openweathermap get m location days) <> Ok (Some data).
Proof.
  intros C data H. unfold _fetch_openweathermap in H. trace_inv H.
  destruct (no_key a); [discriminate H|].
  pose proof (split_comma_length location) as L.
  destruct (split_comma location) as [|lat [|lng [|]]]; try discriminate H.
  cbn in L. congruence.
Qed.

(** X9.  A location that is not of the form "lat,lon" costs the provider
    its place: when the selected source is MET Norway and the location has
    no comma, or the selected source is OpenWeatherMap and the location does
    not have exactly one comma, [fetch_weather_data] returns nothing and
    disables the source, whatever the network would answer. *)
Theorem bad_location_disables_source (environ : string -> option string)
  (t0 : Q) (es : list event) (get : requests) (rnd : nat)
  (location : string) (days : Z) (rt : runtime) (source : DataSource) :
  run es (init environ t0) = Some rt ->
  get_available_source rnd (sources rt) = Some source ->
  (type source = METNO /\ comma_count location = 0%nat) \/
  (type source = OPENWEATHERMAP /\ comma_count location <> 1%nat) ->
  let r := fetch_weather_data get rnd location days rt in
  returned r = None /\
  after r = disable_source (name source) rt /\
  is_enabled (name source) (after r) = Some false.
Proof.
  intros H S B r. subst r.
  assert (W : well_keyed (sources rt)).
  { apply (well_keyed_run es (init environ t0)); [|exact H].
    apply _load_sources_well_keyed. }
  pose proof (selected_is_registered _ _ _ W S) as R.
  assert (F : forall data,
             outcome (_fetch_from_source get (sources rt) source location days)
             <> Ok (Some data)).
  { intros data. unfold _fetch_from_source.
    destruct B as [[-> C]|[-> C]].
    - rewrite (proj1 (metno_needs_comma get location days C)). discriminate.
    - apply openweathermap_needs_one_comma. exact C. }
  assert (D : is_enabled (name source) (disable_source (name source) rt)
              = Some false).
  { rewrite is_enabled_disable_same. unfold is_enabled. rewrite R. reflexivity. }
  unfold fetch_weather_data. rewrite S.
  cbn zeta.
  destruct (outcome (_fetch_from_source get (sources rt) source location days))
    as [[data|]|].
  - exfalso. exact (F data eq_refl).
  - cbn. auto.
  - cbn. auto.
Qed.

Lemma bad_location_disables_source_witness :
  exists rt source,
    run [Advance 5] (init no_keys 0) = Some rt /\
    get_available_source 0 (sources rt) = Some source /\
    ((type source = METNO /\ comma_count "Berlin" = 0%nat) \/
     (type source = OPENWEATHERMAP /\ comma_count "Berlin" <> 1%nat)) /\
    let r := fetch_weather_data answering 0 "Berlin" 3 rt in
    returned r = None /\
    after r = disable_source (name source) rt /\
    is_enabled (name source) (after r) = Some false.
Proof.
  eexists _, _.
  split; [vm_compute; reflexivity|].
  split; [vm_compute; reflexivity|].
  split; [left; split; reflexivity|].
  match goal with
  | |- let r := fetch_weather_data _ _ _ _ ?rt in
       _ /\ _ = disable_source (name ?s) _ /\ _ =>
      assert (R : run [Advance 5] (init no_keys 0) = Some rt)
        by (vm_compute; reflexivity);
      assert (S : get_available_source 0 (sources rt) = Some s)
        by (vm_compute; reflexivity);
      exact (bad_location_disables_source no_keys 0 _ answering 0 "Berlin" 3
               rt s R S (or_introl (conj eq_refl eq_refl)))
  end.
Defined.



(** ** Edges of the converters *)

(** X11.  In the converters a missing entry and an empty list are not the
    same.  Without a [weather] entry [_convert_openweather_hourly] reports
    clear sky (code 113, "Clear"), but with an empty [weather] list it
    raises; without [properties] [_convert_metno_to_standard] reports a
    temperature of 0, but with an empty [timeseries] list it raises. *)
Theorem empty_list_raises_missing_defaults (d p : list (string * json))
  (days : Z) :
  (assoc "weather" d = Some (JList []) ->
   _convert_openweather_hourly (JDict d) = Raise) /\
  (assoc "weather" d = None ->
   forall o, _convert_openweather_hourly (JDict d) = Ok o ->
             field "weatherCode" o = Some (OStr "113") /\
             field "weatherDesc" o
             = Some (OList [ODict [("value", OStr "Clear")]])) /\
  (assoc "properties" d = Some (JDict p) ->
   assoc "timeseries" p = Some (JList []) ->
   _convert_metno_to_standard (JDict d) days = Raise) /\
  (assoc "properties" d = None ->
   exists o c, _convert_metno_to_standard (JDict d) days = Ok o /\
               current_condition_of o = Some c /\
               field "temp_C" c = Some (OStr "0")).
Proof.
  split; [|split; [|split]].
  - intros W. unfold _convert_openweather_hourly.
    cbn [py_get bind]. rewrite W.
    destruct (match assoc "temp" d with Some x => x | None => JInt 0 end);
      reflexivity.
  - intros W o H. unfold _convert_openweather_hourly in H.
    cbn [py_get] in H. rewrite W in H.
    bind_inv H. cbn in E1. injection E1 as <-.
    cbn in E2, E4. injection E2 as <-. injection E4 as <-.
    cbn in E3. injection E3 as <-.
    match goal with
    | C : py_capitalize _ = Ok _ |- _ => cbn in C; injection C as <-
    end.
    injection H as <-. split; reflexivity.
  - intros P T. unfold _convert_metno_to_standard.
    cbn [py_get bind]. rewrite P. cbn [py_get bind]. rewrite T. reflexivity.
  - intros P. unfold _convert_metno_to_standard.
    cbn [py_get bind]. rewrite P. cbn.
    eexists _, _. split; [reflexivity|]. split; reflexivity.
Qed.



(** ** Current conditions of AccuWeather *)

Lemma assoc_pop_ne (k k' : string) (d : list (string * out)) :
  k <> k' -> assoc k (pop k' d) = assoc k d.
Proof.
  intros N. induction d as [|[k0 v] d IH]; [reflexivity|]. cbn.
  destruct (String.eqb k' k0) eqn:E.
  - apply String.eqb_eq in E. subst k0.
    destruct (String.eqb k k') eqn:E'; [|reflexivity].
    apply String.eqb_eq in E'. congruence.
  - cbn. rewrite IH. reflexivity.
Qed.

Lemma assoc_pop_all_ne (k : string) (ks : list string)
  (d : list (string * out)) :
  ~ In k ks -> assoc k (fold_left (fun d k => pop k d) ks d) = assoc k d.
Proof.
  revert d. induction ks as [|k' ks IH]; intros d N; [reflexivity|]. cbn.
  rewrite IH by (intros I; apply N; right; exact I).
  apply assoc_pop_ne. intros E. apply N. left. congruence.
Qed.

Lemma accuweather_daily_keys (day_data : json) (o : out) :
  _convert_accuweather_daily day_data = Ok o ->
  exists d, o = ODict d /\
            map fst d
            = ["date"; "maxtempC"; "maxtempF"; "mintempC"; "mintempF";
               "avgtempC"; "avgtempF"; "totalSnow_cm"; "sunHour"; "uvIndex";
               "hourly"; "temp_C"; "temp_F"; "weatherCode"; "weatherDesc";
               "windspeedKmph"; "windspeedMiles"; "winddirDegree";
               "winddir16Point"; "precipMM"; "humidity"; "pressure";
               "visibility"; "cloudcover"; "FeelsLikeC"].
Proof.
  intros H. unfold _convert_accuweather_daily in H.
  bind_inv H. injection H as <-. eexists. split; reflexivity.
Qed.

(** X13.  The current conditions that [_convert_accuweather_to_standard]
    returns are the record of the first day without the seven entries that
    only a day has (date and the maximum, minimum and average temperatures):
    every other entry is the same as in the first day, for every horizon
    [days], also when [days] keeps no day at all; and when [days >= 1] the
    first day is the first daily forecast returned. *)
Theorem accuweather_current_is_first_day (first : json) (l : list json)
  (days : Z) (o : out) :
  _convert_accuweather_to_standard (JList (first :: l)) days = Ok (Some o) ->
  exists day c,
    _convert_accuweather_daily first = Ok day /\
    current_condition_of o = Some c /\
    (forall k, In k daily_only_keys -> field k c = None) /\
    (forall k, ~ In k daily_only_keys -> field k c = field k day) /\
    (1 <= days -> exists w, weather_of o = Some (day :: w)).
Proof.
  intros H. unfold _convert_accuweather_to_standard in H.
  cbn [falsy truthy negb is_list py_len bind py_slice_to py_item0] in H.
  destruct (Z.of_nat (length (first :: l)) =? 0); [discriminate H|].
  bind_inv H. injection H as <-.
  exists a0. eexists. split; [reflexivity|]. split; [reflexivity|].
  destruct (accuweather_daily_keys first a0 E0) as (d & -> & K).
  split; [|split].
  - intros k I. destruct d as [|[k0 v0] d]; [discriminate K|].
    repeat (destruct d as [|[? ?] d]; [discriminate K|]).
    destruct d; [|discriminate K].
    cbn in K. injection K as -> -> -> -> -> -> -> -> -> -> -> -> -> -> ->
                              -> -> -> -> -> -> -> -> -> ->.
    cbn in I.
    repeat (destruct I as [<-|I]; [reflexivity|]). destruct I.
  - intros k N. cbn [pop_all field]. apply assoc_pop_all_ne. exact N.
  - intros D. unfold slice_to in E.
    destruct (0 <=? days) eqn:P; [|apply Z.leb_gt in P; lia].
    destruct (Z.to_nat days) as [|n] eqn:Zn; [lia|].
    cbn in E. rewrite E0 in E. cbn [bind] in E.
    destruct (mapM _convert_accuweather_daily (firstn n l)) as [w|];
      [|discriminate E].
    cbn in E. injection E as <-. exists w. reflexivity.
Qed.

Lemma accuweather_current_is_first_day_witness :
  exists o,
    _convert_accuweather_to_standard
      (JList [JDict [("Date", JStr "2024-05-01");
                     ("Temperature",
                      JDict [("Maximum", JDict [("Value", JInt 30)]);
                             ("Minimum", JDict [("Value", JInt 21)])])];
              JDict []]) 0
    = Ok (Some o) /\
    exists day c,
      _convert_accuweather_daily
        (JDict [("Date", JStr "2024-05-01");
                ("Temperature",
                 JDict [("Maximum", JDict [("Value", JInt 30)]);
                        ("Minimum", JDict [("Value", JInt 21)])])])
      = Ok day /\
      current_condition_of o = Some c /\
      (forall k, In k daily_only_keys -> field k c = None) /\
      (forall k, ~ In k daily_only_keys -> field k c = field k day) /\
      (1 <= 0 -> exists w, weather_of o = Some (day :: w)).
Proof.
  eexists. split; [vm_compute; reflexivity|].
  apply (accuweather_current_is_first_day _ [JDict []] 0).
  vm_compute; reflexivity.
Defined.

(** ** Daily temperatures of WeatherAPI *)

(** X14.  [_convert_weatherapi_daily] takes every temperature of a day
    from its own entry of the payload: the Celsius fields from
    [maxtemp_c], [mintemp_c] and [avgtemp_c], the Fahrenheit fields from
    [maxtemp_f], [mintemp_f] and [avgtemp_f], each rounded and each 0 when
    its entry is missing.  No Fahrenheit field is derived from a Celsius
    entry: a day with [maxtemp_c] but without [maxtemp_f] gets
    [maxtempF = "0"]. *)
Theorem weatherapi_daily_temperatures (day_data : json) (o : out) :
  _convert_weatherapi_daily day_data = Ok o ->
  (exists cmax fmax cmin fmin cavg favg : num,
      number_in day_data ["day"] "maxtemp_c" (JInt 0) = Some cmax /\
      number_in day_data ["day"] "maxtemp_f" (JInt 0) = Some fmax /\
      number_in day_data ["day"] "mintemp_c" (JInt 0) = Some cmin /\
      number_in day_data ["day"] "mintemp_f" (JInt 0) = Some fmin /\
      number_in day_data ["day"] "avgtemp_c" (JInt 0) = Some cavg /\
      number_in day_data ["day"] "avgtemp_f" (JInt 0) = Some favg /\
      field "maxtempC" o = rounded_num cmax /\
      field "maxtempF" o = rounded_num fmax /\
      field "mintempC" o = rounded_num cmin /\
      field "mintempF" o = rounded_num fmin /\
      field "avgtempC" o = rounded_num cavg /\
      field "avgtempF" o = rounded_num favg) /\
  (forall d day,
      day_data = JDict d -> assoc "day" d = Some (JDict day) ->
      (assoc "maxtemp_f" day = None -> field "maxtempF" o = Some (OStr "0")) /\
      (assoc "mintemp_f" day = None -> field "mintempF" o = Some (OStr "0")) /\
      (assoc "avgtemp_f" day = None -> field "avgtempF" o = Some (OStr "0"))).
Proof.
  intros H. unfold _convert_weatherapi_daily in H.
  bind_inv H. injection H as <-. numbers.
  split.
  - match goal with
    | H1 : as_num a1 = Some ?x1, H2 : as_num a3 = Some ?x2,
      H3 : as_num a5 = Some ?x3, H4 : as_num a7 = Some ?x4,
      H5 : as_num a9 = Some ?x5, H6 : as_num a11 = Some ?x6 |- _ =>
        exists x1, x2, x3, x4, x5, x6
    end.
    rewrite (number_in_1 _ _ _ _ _ _ E E1), (number_in_1 _ _ _ _ _ _ E E3),
      (number_in_1 _ _ _ _ _ _ E E5), (number_in_1 _ _ _ _ _ _ E E7),
      (number_in_1 _ _ _ _ _ _ E E9), (number_in_1 _ _ _ _ _ _ E E11).
    repeat split; first [assumption|reflexivity].
  - intros d day -> D. cbn in E. rewrite D in E. injection E as <-.
    cbn in E3, E7, E11.
    split; [|split]; intros M; cbn [field assoc String.eqb Ascii.eqb Bool.eqb].
    + rewrite M in E3. injection E3 as <-.
      match goal with Hn : as_num (JInt 0) = Some ?x |- _ =>
        cbn in Hn; injection Hn as <- end. reflexivity.
    + rewrite M in E7. injection E7 as <-.
      match goal with Hn : as_num (JInt 0) = Some ?x |- _ =>
        cbn in Hn; injection Hn as <- end. reflexivity.
    + rewrite M in E11. injection E11 as <-.
      match goal with Hn : as_num (JInt 0) = Some ?x |- _ =>
        cbn in Hn; injection Hn as <- end. reflexivity.
Qed.

Lemma weatherapi_daily_temperatures_witness :
  exists o,
    _convert_weatherapi_daily
      (JDict [("day", JDict [("maxtemp_c", JInt 25)])]) = Ok o /\
    field "maxtempC" o = Some (OStr "25") /\
    field "maxtempF" o = Some (OStr "0").
Proof.
  eexists. split; [vm_compute; reflexivity|].
  split; [reflexivity|].
  refine (proj1 (proj2 (weatherapi_daily_temperatures
                          (JDict [("day", JDict [("maxtemp_c", JInt 25)])]) _ _)
                   _ _ eq_refl eq_refl) eq_refl).
  vm_compute; reflexivity.
Defined.

(** ** The UV index *)

Lemma trunc_nonneg (q : Q) :
  (0 <= q)%Q -> Z.quot (Qnum q) (Z.pos (Qden q)) = Qfloor q.
Proof.
  intros H. destruct q as [n d]. cbn. unfold Qle in H. cbn in H.
  apply Z.quot_div_nonneg; lia.
Qed.

Lemma trunc_nonpos (q : Q) :
  (q <= 0)%Q -> Z.quot (Qnum q) (Z.pos (Qden q)) = Qceiling q.
Proof.
  intros H. destruct q as [n d]. unfold Qceiling, Qfloor. cbn.
  unfold Qle in H. cbn in H.
  rewrite <- (Z.opp_involutive n) at 1. rewrite Z.quot_opp_l by lia.
  rewrite Z.quot_div_nonneg by lia. reflexivity.
Qed.

(** X15.  The UV index is cut off, not rounded: the OpenWeatherMap and
    WeatherAPI converters put [int(uvi)] in [uvIndex], which for a float is
    the integer part towards zero (5.9 gives 5), 0 when the entry is
    missing; the temperatures beside it are rounded to the nearest
    integer. *)
Theorem uv_index_is_truncated (ow_hour wa_hour : json) (o1 o3 : out) :
  _convert_openweather_hourly ow_hour = Ok o1 ->
  _convert_weatherapi_hourly wa_hour = Ok o3 ->
  (exists uvi z, py_get ow_hour "uvi" (JInt 0) = Ok uvi /\
                 py_int uvi = Ok z /\
                 field "uvIndex" o1 = Some (OStr (str_int z))) /\
  (exists uv z, py_get wa_hour "uv" (JInt 0) = Ok uv /\
                py_int uv = Ok z /\
                field "uvIndex" o3 = Some (OStr (str_int z))) /\
  (forall q, (0 <= q)%Q -> py_int (JFloat q) = Ok (Qfloor q)) /\
  (forall q, (q <= 0)%Q -> py_int (JFloat q) = Ok (Qceiling q)) /\
  (forall z, py_int (JInt z) = Ok z) /\
  py_int (JFloat 5.9) = Ok 5 /\ round_half_even 5.9 = 6.
Proof.
  intros H1 H3.
  split.
  { unfold _convert_openweather_hourly in H1. bind_inv H1.
    injection H1 as <-. eexists _, _.
    split; [reflexivity|]. split; [eassumption|reflexivity]. }
  split.
  { unfold _convert_weatherapi_hourly in H3. bind_inv H3.
    injection H3 as <-. eexists _, _.
    split; [reflexivity|]. split; [eassumption|reflexivity]. }
  split; [intros q Hq; cbn; rewrite trunc_nonneg by exact Hq; reflexivity|].
  split; [intros q Hq; cbn; rewrite trunc_nonpos by exact Hq; reflexivity|].
  repeat split; reflexivity.
Qed.

Lemma uv_index_is_truncated_witness :
  exists o1 o3,
    _convert_openweather_hourly (JDict [("uvi", JFloat 5.9)]) = Ok o1 /\
    _convert_weatherapi_hourly (JDict [("uv", JFloat 5.9)]) = Ok o3 /\
    exists uvi z, py_get (JDict [("uvi", JFloat 5.9)]) "uvi" (JInt 0) = Ok uvi /\
                  py_int uvi = Ok z /\
                  field "uvIndex" o1 = Some (OStr (str_int z)).
Proof.
  eexists _, _.
  do 2 (split; [vm_compute; reflexivity|]).
  exact (proj1 (uv_index_is_truncated (JDict [("uvi", JFloat 5.9)])
                  (JDict [("uv", JFloat 5.9)]) _ _ eq_refl eq_refl)).
Defined.

(** ** A negative horizon *)

Lemma slice_to_negative {A : Type} (l : list A) (n : Z) :
  n < 0 -> slice_to l n = firstn (Z.to_nat (Z.of_nat (length l) + n)) l.
Proof.
  intros Hn. unfold slice_to.
  destruct (0 <=? n) eqn:E; [apply Z.leb_le in E; lia|reflexivity].
Qed.

(** X16.  With a negative horizon the OpenWeatherMap, WeatherAPI and
    AccuWeather converters drop forecasts from the end: of [available]
    daily forecasts they keep the first [available + days], none when that
    is not positive, each converted from the forecast at the same
    position. *)
Theorem negative_horizon_length (a : forecast_adapter) (data : json)
  (l : list json) (days : Z) (o : out) :
  days < 0 ->
  daily_forecasts a data = Some l ->
  to_standard a data days = Ok (Some o) ->
  exists w,
    weather_of o = Some w /\
    Z.of_nat (length w) = Z.max 0 (Z.of_nat (length l) + days) /\
    mapM (daily_converter a)
         (firstn (Z.to_nat (Z.of_nat (length l) + days)) l) = Ok w /\
    (Z.of_nat (length l) + days <= 0 -> w = []).
Proof.
  intros Hd D H.
  destruct (to_standard_weather a data l days o D H) as (w & W & M).
  rewrite slice_to_negative in M by exact Hd.
  exists w. split; [exact W|].
  pose proof (mapM_length _ _ _ M) as L. rewrite length_firstn in L.
  split; [lia|]. split; [exact M|].
  intros Z0. destruct w; [reflexivity|]. cbn in L. lia.
Qed.

Lemma negative_horizon_length_witness :
  -2 < 0 /\
  exists l o,
    daily_forecasts OpenWeather openweather_three_days = Some l /\
    to_standard OpenWeather openweather_three_days (-2) = Ok (Some o) /\
    exists w,
      weather_of o = Some w /\
      Z.of_nat (length w) = Z.max 0 (Z.of_nat (length l) + -2) /\
      mapM (daily_converter OpenWeather)
           (firstn (Z.to_nat (Z.of_nat (length l) + -2)) l) = Ok w /\
      (Z.of_nat (length l) + -2 <= 0 -> w = []).
Proof.
  split; [lia|].
  eexists _, _.
  split; [reflexivity|]. split; [vm_compute; reflexivity|].
  apply (negative_horizon_length OpenWeather openweather_three_days _ (-2) _).
  - lia.
  - reflexivity.
  - vm_compute; reflexivity.
Defined.

(** ** What the usage counter counts *)











(** X18.  A reset sweep gives a source its quota back: a source that is
    enabled, has a positive quota and was last reset 3600 seconds or more
    ago can be selected right after the sweep, with usage 0, however much
    of its quota it had used. *)
Theorem reset_restores_eligibility (t : Q) (m : gmap string DataSource)
  (k : string) (s : DataSource) :
  m !! k = Some s ->
  enabled s = true ->
  0 < rate_limit s ->
  (3600 <= t - last_reset s)%Q ->
  exists rnd s',
    get_available_source rnd (reset_usage t m) = Some s' /\
    reset_usage t m !! k = Some s' /\
    current_usage s' = 0 /\ last_reset s' = t /\ static s' = static s.
Proof.
  intros H En L C.
  assert (R : reset_usage t m !! k
              = Some (set_last_reset t (set_current_usage 0 s))).
  { unfold reset_usage. rewrite lookup_fmap, H. cbn. f_equal.
    destruct (reset_source_cases t s) as [[_ E]|[C' _]]; [exact E|lra]. }
  assert (I : In (set_last_reset t (set_current_usage 0 s))
                 (available_sources (reset_usage t m))).
  { apply available_sources_spec. split; [eauto|].
    apply is_available_spec. cbn. split; [exact En|exact L]. }
  destruct (random_choice_reaches _ _ I) as [rnd Hr].
  exists rnd, (set_last_reset t (set_current_usage 0 s)).
  split.
  { rewrite get_available_source_choice.
    destruct (available_sources (reset_usage t m)); [destruct I|exact Hr]. }
  split; [exact R|]. repeat split; reflexivity.
Qed.

Lemma reset_restores_eligibility_witness :
  exists rt s,
    run [CallMarkUsed "metno"; CallMarkUsed "metno"] (init no_keys 0) = Some rt /\
    sources rt !! "metno" = Some s /\
    current_usage s = 2 /\
    enabled s = true /\ 0 < rate_limit s /\ (3600 <= 7200 - last_reset s)%Q /\
    exists rnd s',
      get_available_source rnd (reset_usage 7200 (sources rt)) = Some s' /\
      reset_usage 7200 (sources rt) !! "metno" = Some s' /\
      current_usage s' = 0 /\ last_reset s' = 7200%Q /\ static s' = static s.
Proof.
  pose (s := mkDataSource "metno" METNO "https://api.met.no" None 5000 2 0 true).
  eexists _, s.
  split; [vm_compute; reflexivity|].
  assert (H : sources (mark_source_used "metno"
                         (mark_source_used "metno" (init no_keys 0)))
                !! "metno" = Some s) by (vm_compute; reflexivity).
  split; [exact H|].
  split; [reflexivity|]. split; [reflexivity|].
  split; [reflexivity|]. split; [vm_compute; discriminate|].
  apply (reset_restores_eligibility 7200 _ "metno" s H).
  - reflexivity.
  - reflexivity.
  - vm_compute; discriminate.
Defined.
